(** * CrowdSense: the counting, alerting, heat-map and detection-queue logic

    A shallow embedding of the parts of [src/app.py] and
    [src/core/threads.py] that carry the temporal aggregation pipeline:
    the smoothing window, the peak tracker, the threshold alert, the
    heat-map accumulators and the one-slot frame queue of the detection
    thread.  Widget calls (style sheets, labels, graph items) do not touch
    the fields modelled here and are left out. *)

From Stdlib Require Import ZArith QArith Qround List Ascii String DecimalString Bool Lia.
Import ListNotations.
Local Open Scope string_scope.
Local Open Scope list_scope.
Local Open Scope Z_scope.

(* ===================================================================== *)
(** * Python values and helpers *)
(* ===================================================================== *)

Module Py.

(** Exceptions that the modelled code can raise. *)
Inductive exn :=
| NameError (name : string)
| TypeError (what : string)
| ValueError (what : string).

(** The result of running a statement: it ends normally or raises. *)
Inductive outcome (A : Type) :=
| Ok (a : A)
| Raise (e : exn).
Arguments Ok {A} a.
Arguments Raise {A} e.

(** [float('inf')] next to the integers: the type of [offpeak_count]. *)
Inductive number :=
| Int (z : Z)
| Inf.

(** [a < b] where [a] is an int and [b] an int or [float('inf')]. *)
Definition lt_number (a : Z) (b : number) : bool :=
  match b with
  | Int z => a <? z
  | Inf => true
  end.

(** [sum(l)] *)
Definition sum (l : list Z) : Z := fold_right Z.add 0 l.

(** [len(l)] *)
Definition len {A} (l : list A) : Z := Z.of_nat (List.length l).

(** [np.mean(l)] for a non-empty sequence of ints.  The float64 quotient
    is taken as the exact rational: the counts and the window length are
    small integers, for which the float quotient rounds as the exact
    one does. *)
Definition np_mean (l : list Z) : Q := inject_Z (sum l) / inject_Z (len l).

(** [round(x)] with one argument: to the nearest integer, a tie going to
    the even neighbour. *)
Definition round (x : Q) : Z :=
  let f := Qfloor x in
  match Qcompare (x - inject_Z f) (1 # 2) with
  | Lt => f
  | Gt => f + 1
  | Eq => if Z.even f then f else f + 1
  end.

(** [l[start:]] with Python's reading of a negative [start]. *)
Definition slice_from {A} (start : Z) (l : list A) : list A :=
  if start <? 0
  then skipn (Z.to_nat (Z.max 0 (len l + start))) l
  else skipn (Z.to_nat start) l.

(** The most recent [n] elements of [l] (all of them when [l] is shorter). *)
Definition lastn {A} (n : nat) (l : list A) : list A :=
  skipn (List.length l - n) l.

(** ** [collections.deque] with [maxlen] *)
Record deque := { maxlen : Z; items : list Z }.

(** [deque(maxlen=n)]; a negative [maxlen] is a [ValueError]. *)
Definition deque_new (n : Z) : outcome deque :=
  if n <? 0 then Raise (ValueError "maxlen must be non-negative")
  else Ok {| maxlen := n; items := [] |}.

(** [d.append(x)]: once the deque is full the leftmost item is dropped. *)
Definition append (d : deque) (x : Z) : deque :=
  let l := (items d ++ [x])%list in
  {| maxlen := maxlen d;
     items := if maxlen d <? len l then tl l else l |}.

(** ** Zero-padded decimal formatting, [f"{n:0{w}d}"] *)
Definition decimal (n : N) : string :=
  NilZero.string_of_uint (N.to_uint n).

Fixpoint zeros (k : nat) : string :=
  match k with
  | O => EmptyString
  | S k' => String "0"%char (zeros k')
  end.

Definition format_d (width : nat) (z : Z) : string :=
  if z <? 0 then
    let body := decimal (Z.to_N (- z)) in
    (String "-"%char (zeros (width - 1 - String.length body)) ++ body)%string
  else
    let body := decimal (Z.to_N z) in
    (zeros (width - String.length body) ++ body)%string.

(** [int(x)] of a float: truncation towards zero. *)
Definition int (x : Q) : Z :=
  if Qle_bool 0 x then Qfloor x else Qceiling x.

(** [a < b] on floats. *)
Definition Qltb (a b : Q) : bool := negb (Qle_bool b a).

(** [max(a, b)]: [b] when it is greater, else [a]. *)
Definition max (a b : Q) : Q := if Qltb a b then b else a.

(** [list(range(a, b))] *)
Definition range (a b : Z) : list Z :=
  map (fun i => a + Z.of_nat i) (seq 0 (Z.to_nat (b - a))).

(** ** Statements: a state transformer that may raise.  What was
    assigned before an exception stays assigned. *)
Definition stmt (S A : Type) : Type := S -> outcome A * S.

Definition ret {S A} (a : A) : stmt S A := fun s => (Ok a, s).

Definition bind {S A B} (m : stmt S A) (k : A -> stmt S B) : stmt S B :=
  fun s =>
    match m s with
    | (Ok a, s') => k a s'
    | (Raise e, s') => (Raise e, s')
    end.

Definition get {S} : stmt S S := fun s => (Ok s, s).
Definition modify {S} (f : S -> S) : stmt S unit := fun s => (Ok tt, f s).
Definition lift {S A} (o : outcome A) : stmt S A := fun s => (o, s).

Declare Scope stmt_scope.
Delimit Scope stmt_scope with stmt.
Notation "x <- m ;; k" := (bind m (fun x => k))
  (at level 61, m at next level, right associativity) : stmt_scope.
Notation "m ;; k" := (bind m (fun _ => k))
  (at level 61, right associativity) : stmt_scope.

End Py.

(* ===================================================================== *)
(** * Name resolution in [app.py] *)
(* ===================================================================== *)

Module Scope.

(** What a name can be bound to, as far as a call site cares. *)
Inductive pyobj :=
| PyModule
| PyClass
| PyConst
| PyFunction (f : Z -> string).

Definition namespace := list (string * pyobj).

Fixpoint lookup (name : string) (ns : namespace) : option pyobj :=
  match ns with
  | [] => None
  | (n, o) :: rest => if String.eqb name n then Some o else lookup name rest
  end.

Definition bind_all (o : pyobj) (names : list string) : namespace :=
  map (fun n => (n, o)) names.

(** [def format_time_for_filename(time_ms)], written in the body of
    [class CrowdSenseApp]. *)
Definition format_time_for_filename (time_ms : Z) : string :=
  let total_seconds := time_ms / 1000 in
  let hours := total_seconds / 3600 in
  let minutes := (total_seconds mod 3600) / 60 in
  let seconds := total_seconds mod 60 in
  let milliseconds := time_ms mod 1000 in
  (Py.format_d 2 hours ++ "h" ++ Py.format_d 2 minutes ++ "m"
     ++ Py.format_d 2 seconds ++ "s" ++ Py.format_d 3 milliseconds ++ "ms")%string.

(** The names that the [import] statements at the head of [app.py] bind. *)
Definition app_imports : namespace :=
  (bind_all PyModule ["sys"; "os"; "cv2"; "torch"; "np"; "urllib"; "time"; "pg"]
   ++ bind_all PyClass
        ["deque"; "QApplication"; "QMainWindow"; "QWidget"; "QVBoxLayout";
         "QHBoxLayout"; "QLabel"; "QComboBox"; "QPushButton"; "QFrame";
         "QSizePolicy"; "QFileDialog"; "QProgressBar"; "QDialog"; "QSplitter";
         "QScrollArea"; "QGridLayout"; "QMessageBox"; "Qt"; "QTimer";
         "pyqtSlot"; "QSize"; "QThread"; "pyqtSignal"; "QRect"; "QPixmap";
         "QImage"; "QFont"; "QDragEnterEvent"; "QDropEvent"; "QPainter";
         "ModelDownloadThread"; "VideoFrameThread"; "YoloDetectionThread";
         "ToggleSwitch"; "ModernBoxedSlider"; "DragDropVideoLabel"])%list.

(** [from config import *]: every public name of [config.py]. *)
Definition config_names : namespace :=
  bind_all PyConst
    ["DARK_BG_COLOR"; "PANEL_BG_COLOR"; "WIDGET_BG_COLOR"; "DROPDOWN_BG_COLOR";
     "BORDER_COLOR"; "TEXT_COLOR"; "MUTED_TEXT_COLOR"; "ACCENT_COLOR";
     "LIGHTER_ACCENT_COLOR"; "DARKER_ACCENT_COLOR"; "GRID_COLOR";
     "DEFAULT_FONT"; "HEADER_FONT_STYLE"; "SUBHEADER_FONT_STYLE";
     "VALUE_FONT_STYLE"; "LARGE_VALUE_FONT_STYLE"; "BUTTON_STYLE";
     "EXPORT_BUTTON_STYLE"; "available_models"].

(** The global namespace of the module [app]: its imports and its one
    top-level statement, [class CrowdSenseApp]. *)
Definition app_globals : namespace :=
  (app_imports ++ config_names ++ [("CrowdSenseApp", PyClass)])%list.

(** The builtins that [app.py] refers to; no builtin bears the name of a
    method of the application. *)
Definition builtins : namespace :=
  bind_all PyClass
    ["round"; "len"; "list"; "max"; "min"; "int"; "float"; "str"; "map";
     "range"; "print"; "hasattr"; "super"; "Exception"; "ImportError";
     "OSError"].

(** The attributes that the class body gives [CrowdSenseApp]; a method
    reaches them through [self.] or [CrowdSenseApp.] only. *)
Definition class_namespace : namespace :=
  [("format_time_for_filename", PyFunction format_time_for_filename)].

(** A bare name in a method body that is not a local of the method: the
    module globals, then the builtins.  The class body is not a scope
    that methods see. *)
Definition load_global (globals : namespace) (name : string) : Py.outcome pyobj :=
  match lookup name globals with
  | Some o => Py.Ok o
  | None =>
      match lookup name builtins with
      | Some o => Py.Ok o
      | None => Py.Raise (Py.NameError name)
      end
  end.

(** Calling an object with one int argument where a string is wanted:
    only a function gives one. *)
Definition call (o : pyobj) (arg : Z) : Py.outcome string :=
  match o with
  | PyFunction f => Py.Ok (f arg)
  | PyModule | PyConst | PyClass =>
      Py.Raise (Py.TypeError "not a function from int to str")
  end.

End Scope.

(* ===================================================================== *)
(** * The aggregation state of [CrowdSenseApp] *)
(* ===================================================================== *)

Module App.
Import Py.

(** An entry of [threshold_history]. *)
Record AlertRecord := {
  timestamp : string;
  count : Z;
  threshold : Z
}.

(** The attributes of [self] that smoothing, alerting and peak tracking
    read and write. *)
Record t := {
  smoothing_window_size : Z;
  people_count_history : deque;
  smoothed_people_count : Z;
  video_time_ms : Z;
  crowd_detection_enabled : bool;
  crowd_size_threshold : Z;
  threshold_alert_active : bool;
  threshold_history : list AlertRecord;
  peak_count : Z;
  peak_time_ms : Z;
  offpeak_count : number;
  offpeak_time_ms : Z
}.

(** The values that [__init__] gives these attributes. *)
Definition init : t := {|
  smoothing_window_size := 24;
  people_count_history := {| maxlen := 24; items := [] |};
  smoothed_people_count := 0;
  video_time_ms := 0;
  crowd_detection_enabled := false;
  crowd_size_threshold := 10;
  threshold_alert_active := false;
  threshold_history := [];
  peak_count := 0;
  peak_time_ms := 0;
  offpeak_count := Inf;
  offpeak_time_ms := 0
|}.

(** ** Attribute assignment *)
Definition set_smoothing_window_size (v : Z) (s : t) : t :=
  {| smoothing_window_size := v;
     people_count_history := people_count_history s;
     smoothed_people_count := smoothed_people_count s;
     video_time_ms := video_time_ms s;
     crowd_detection_enabled := crowd_detection_enabled s;
     crowd_size_threshold := crowd_size_threshold s;
     threshold_alert_active := threshold_alert_active s;
     threshold_history := threshold_history s;
     peak_count := peak_count s;
     peak_time_ms := peak_time_ms s;
     offpeak_count := offpeak_count s;
     offpeak_time_ms := offpeak_time_ms s |}.

Definition set_people_count_history (v : deque) (s : t) : t :=
  {| smoothing_window_size := smoothing_window_size s;
     people_count_history := v;
     smoothed_people_count := smoothed_people_count s;
     video_time_ms := video_time_ms s;
     crowd_detection_enabled := crowd_detection_enabled s;
     crowd_size_threshold := crowd_size_threshold s;
     threshold_alert_active := threshold_alert_active s;
     threshold_history := threshold_history s;
     peak_count := peak_count s;
     peak_time_ms := peak_time_ms s;
     offpeak_count := offpeak_count s;
     offpeak_time_ms := offpeak_time_ms s |}.

Definition set_smoothed_people_count (v : Z) (s : t) : t :=
  {| smoothing_window_size := smoothing_window_size s;
     people_count_history := people_count_history s;
     smoothed_people_count := v;
     video_time_ms := video_time_ms s;
     crowd_detection_enabled := crowd_detection_enabled s;
     crowd_size_threshold := crowd_size_threshold s;
     threshold_alert_active := threshold_alert_active s;
     threshold_history := threshold_history s;
     peak_count := peak_count s;
     peak_time_ms := peak_time_ms s;
     offpeak_count := offpeak_count s;
     offpeak_time_ms := offpeak_time_ms s |}.

Definition set_video_time_ms (v : Z) (s : t) : t :=
  {| smoothing_window_size := smoothing_window_size s;
     people_count_history := people_count_history s;
     smoothed_people_count := smoothed_people_count s;
     video_time_ms := v;
     crowd_detection_enabled := crowd_detection_enabled s;
     crowd_size_threshold := crowd_size_threshold s;
     threshold_alert_active := threshold_alert_active s;
     threshold_history := threshold_history s;
     peak_count := peak_count s;
     peak_time_ms := peak_time_ms s;
     offpeak_count := offpeak_count s;
     offpeak_time_ms := offpeak_time_ms s |}.

Definition set_crowd_detection_enabled (v : bool) (s : t) : t :=
  {| smoothing_window_size := smoothing_window_size s;
     people_count_history := people_count_history s;
     smoothed_people_count := smoothed_people_count s;
     video_time_ms := video_time_ms s;
     crowd_detection_enabled := v;
     crowd_size_threshold := crowd_size_threshold s;
     threshold_alert_active := threshold_alert_active s;
     threshold_history := threshold_history s;
     peak_count := peak_count s;
     peak_time_ms := peak_time_ms s;
     offpeak_count := offpeak_count s;
     offpeak_time_ms := offpeak_time_ms s |}.

Definition set_crowd_size_threshold (v : Z) (s : t) : t :=
  {| smoothing_window_size := smoothing_window_size s;
     people_count_history := people_count_history s;
     smoothed_people_count := smoothed_people_count s;
     video_time_ms := video_time_ms s;
     crowd_detection_enabled := crowd_detection_enabled s;
     crowd_size_threshold := v;
     threshold_alert_active := threshold_alert_active s;
     threshold_history := threshold_history s;
     peak_count := peak_count s;
     peak_time_ms := peak_time_ms s;
     offpeak_count := offpeak_count s;
     offpeak_time_ms := offpeak_time_ms s |}.

Definition set_threshold_alert_active (v : bool) (s : t) : t :=
  {| smoothing_window_size := smoothing_window_size s;
     people_count_history := people_count_history s;
     smoothed_people_count := smoothed_people_count s;
     video_time_ms := video_time_ms s;
     crowd_detection_enabled := crowd_detection_enabled s;
     crowd_size_threshold := crowd_size_threshold s;
     threshold_alert_active := v;
     threshold_history := threshold_history s;
     peak_count := peak_count s;
     peak_time_ms := peak_time_ms s;
     offpeak_count := offpeak_count s;
     offpeak_time_ms := offpeak_time_ms s |}.

Definition set_threshold_history (v : list AlertRecord) (s : t) : t :=
  {| smoothing_window_size := smoothing_window_size s;
     people_count_history := people_count_history s;
     smoothed_people_count := smoothed_people_count s;
     video_time_ms := video_time_ms s;
     crowd_detection_enabled := crowd_detection_enabled s;
     crowd_size_threshold := crowd_size_threshold s;
     threshold_alert_active := threshold_alert_active s;
     threshold_history := v;
     peak_count := peak_count s;
     peak_time_ms := peak_time_ms s;
     offpeak_count := offpeak_count s;
     offpeak_time_ms := offpeak_time_ms s |}.

Definition set_peak (c time_ms : Z) (s : t) : t :=
  {| smoothing_window_size := smoothing_window_size s;
     people_count_history := people_count_history s;
     smoothed_people_count := smoothed_people_count s;
     video_time_ms := video_time_ms s;
     crowd_detection_enabled := crowd_detection_enabled s;
     crowd_size_threshold := crowd_size_threshold s;
     threshold_alert_active := threshold_alert_active s;
     threshold_history := threshold_history s;
     peak_count := c;
     peak_time_ms := time_ms;
     offpeak_count := offpeak_count s;
     offpeak_time_ms := offpeak_time_ms s |}.

Definition set_offpeak (c : number) (time_ms : Z) (s : t) : t :=
  {| smoothing_window_size := smoothing_window_size s;
     people_count_history := people_count_history s;
     smoothed_people_count := smoothed_people_count s;
     video_time_ms := video_time_ms s;
     crowd_detection_enabled := crowd_detection_enabled s;
     crowd_size_threshold := crowd_size_threshold s;
     threshold_alert_active := threshold_alert_active s;
     threshold_history := threshold_history s;
     peak_count := peak_count s;
     peak_time_ms := peak_time_ms s;
     offpeak_count := c;
     offpeak_time_ms := time_ms |}.

(** Statements over the attributes above. *)
Definition M (A : Type) : Type := stmt t A.

Local Open Scope stmt_scope.

Section Handlers.

(** The global namespace in which the methods run. *)
Variable globals : Scope.namespace.

(** [update_crowd_alert_status(self, alert_active, count=0)] *)
Definition update_crowd_alert_status (alert_active : bool) (count : Z) : M unit :=
  s <- get ;;
  if Bool.eqb (threshold_alert_active s) alert_active then ret tt
  else
    modify (set_threshold_alert_active alert_active) ;;
    if alert_active then
      f <- lift (Scope.load_global globals "format_time_for_filename") ;;
      s1 <- get ;;
      current_time_str <- lift (Scope.call f (video_time_ms s1)) ;;
      let alert_record :=
        {| timestamp := current_time_str;
           count := count;
           threshold := crowd_size_threshold s1 |} in
      modify (fun s2 => set_threshold_history (threshold_history s2 ++ [alert_record]) s2)
    else ret tt.

(** [check_threshold_crossing(self, frame)] *)
Definition check_threshold_crossing : M unit :=
  s <- get ;;
  let should_alert_be_active := smoothed_people_count s >? crowd_size_threshold s in
  if negb (Bool.eqb should_alert_be_active (threshold_alert_active s))
  then update_crowd_alert_status should_alert_be_active (smoothed_people_count s)
  else ret tt.

(** [on_crowd_detection_toggled(self, enabled)]; enabling only redraws
    the graph. *)
Definition on_crowd_detection_toggled (enabled : bool) : M unit :=
  modify (set_crowd_detection_enabled enabled) ;;
  if negb enabled then
    update_crowd_alert_status false 0 ;;
    modify (set_threshold_alert_active false)
  else ret tt.

(** [on_crowd_size_threshold_changed(self, value)] *)
Definition on_crowd_size_threshold_changed (value : Z) : M unit :=
  modify (set_crowd_size_threshold value) ;;
  update_crowd_alert_status false 0.

(** The loop [for count in current_history[-value:]: append(count)]. *)
Definition refill (d : deque) (l : list Z) : deque := fold_left append l d.

(** [on_smoothing_window_changed(self, value)] *)
Definition on_smoothing_window_changed (value : Z) : M unit :=
  s <- get ;;
  let current_history := items (people_count_history s) in
  modify (set_smoothing_window_size value) ;;
  d <- lift (deque_new value) ;;
  let d' := refill d (slice_from (- value) current_history) in
  modify (set_people_count_history d') ;;
  modify (set_smoothed_people_count
            (if 0 <? len (items d') then round (np_mean (items d')) else 0)) ;;
  s' <- get ;;
  if crowd_detection_enabled s' then check_threshold_crossing else ret tt.

(** The two tests at the end of the counting part of
    [display_detection_results]: peak, then off-peak. *)
Definition track_peaks (s : t) : t :=
  let s1 :=
    if smoothed_people_count s >? peak_count s
    then set_peak (smoothed_people_count s) (video_time_ms s) s
    else s in
  if (smoothed_people_count s1 >? 0)
     && lt_number (smoothed_people_count s1) (offpeak_count s1)
  then set_offpeak (Int (smoothed_people_count s1)) (video_time_ms s1) s1
  else s1.

(** The smoothing statements of [display_detection_results]: append the
    raw count, take the rounded mean of the window. *)
Definition push_count (people_count : Z) (s : t) : t :=
  let history := append (people_count_history s) people_count in
  let new_smoothed_count :=
    if 0 <? len (items history)
    then round (np_mean (items history))
    else people_count in
  set_smoothed_people_count new_smoothed_count
    (set_people_count_history history s).

(** The counting part of
    [display_detection_results(self, processed_frame_with_boxes,
    people_count, boxes)]; [frame] says whether the frame argument is not
    [None]. *)
Definition display_detection_results (frame : bool) (people_count : Z) : M unit :=
  if negb frame then ret tt
  else
    modify (push_count people_count) ;;
    s <- get ;;
    (if crowd_detection_enabled s then check_threshold_crossing else ret tt) ;;
    modify track_peaks.

(** ** The slots as the event loop runs them *)

(** What reaches the aggregation thread: the timer part of
    [process_video_frame] with its increment, a [detection_ready]
    signal with a frame, and the three controls of the crowd panel. *)
Inductive slot :=
| VideoTimeAdvanced (increment : Z)
| DetectionReady (people_count : Z)
| CrowdDetectionToggled (enabled : bool)
| CrowdSizeThresholdChanged (value : Z)
| SmoothingWindowChanged (value : Z).

Definition dispatch (e : slot) : M unit :=
  match e with
  | VideoTimeAdvanced increment =>
      modify (fun s => set_video_time_ms (video_time_ms s + increment) s)
  | DetectionReady people_count => display_detection_results true people_count
  | CrowdDetectionToggled enabled => on_crowd_detection_toggled enabled
  | CrowdSizeThresholdChanged value => on_crowd_size_threshold_changed value
  | SmoothingWindowChanged value => on_smoothing_window_changed value
  end.

(** An exception that leaves a slot ends the run: [main.py] installs
    no exception hook. *)
Fixpoint run (evs : list slot) : M unit :=
  match evs with
  | [] => ret tt
  | e :: rest => dispatch e ;; run rest
  end.

(** The same run under an exception hook that reports and goes on
    with the next event. *)
Fixpoint run_resilient (evs : list slot) (s : t) : t :=
  match evs with
  | [] => s
  | e :: rest => run_resilient rest (snd (dispatch e s))
  end.

End Handlers.

(** ** The peak tracker by itself *)

(** One observation: the tracking tests of [display_detection_results]
    at smoothed count [c] and video time [time_ms]. *)
Definition observe (s : t) (o : Z * Z) : t :=
  track_peaks (set_video_time_ms (snd o) (set_smoothed_people_count (fst o) s)).

(** The peak fields as [restart_video], [stop_video] and loading a new
    video leave them. *)
Definition reset_peaks (s : t) : t :=
  set_offpeak Inf 0 (set_peak 0 0 s).

(** ** Reference notions for the statements *)

(** The largest of [l], 0 for the empty list. *)
Definition maximum (l : list Z) : Z := fold_right Z.max 0 l.

(** The smallest strictly positive element of [l], if there is one. *)
Fixpoint min_positive (l : list Z) : number :=
  match l with
  | [] => Inf
  | c :: rest =>
      if c >? 0 then
        match min_positive rest with
        | Inf => Int c
        | Int m => Int (Z.min c m)
        end
      else min_positive rest
  end.

(** The time of the first observation whose count is [c]. *)
Fixpoint first_time (c : Z) (obs : list (Z * Z)) : option Z :=
  match obs with
  | [] => None
  | (c', time_ms) :: rest => if c' =? c then Some time_ms else first_time c rest
  end.

(** The smoothed counts of a sequence at which the state passes from
    Normal to Alert, starting in the state [active]. *)
Fixpoint rising_counts (thr : Z) (active : bool) (counts : list Z) : list Z :=
  match counts with
  | [] => []
  | c :: rest =>
      let now := c >? thr in
      if now && negb active
      then c :: rising_counts thr now rest
      else rising_counts thr now rest
  end.

(** The number of those passages. *)
Definition rising_edges (thr : Z) (active : bool) (counts : list Z) : nat :=
  List.length (rising_counts thr active counts).

(** The alert check run on a sequence of smoothed counts, one after the
    other, as [display_detection_results] does with detection enabled. *)
Fixpoint check_each (globals : Scope.namespace) (counts : list Z) : M unit :=
  match counts with
  | [] => ret tt
  | c :: rest =>
      modify (set_smoothed_people_count c) ;;
      check_threshold_crossing globals ;;
      check_each globals rest
  end.

(** The window fields of two states agree. *)
Definition same_window (s s' : t) : Prop :=
  people_count_history s' = people_count_history s
  /\ smoothed_people_count s' = smoothed_people_count s
  /\ smoothing_window_size s' = smoothing_window_size s.

(** What the tracker holds after the observations [obs]. *)
Definition tracked (obs : list (Z * Z)) (s : t) : Prop :=
  let counts := map fst obs in
  peak_count s = maximum counts
  /\ (if 0 <? maximum counts
      then first_time (maximum counts) obs = Some (peak_time_ms s)
      else peak_time_ms s = 0)
  /\ offpeak_count s = min_positive counts
  /\ match min_positive counts with
     | Int m => first_time m obs = Some (offpeak_time_ms s)
     | Inf => offpeak_time_ms s = 0
     end.

(** The state of the scenarios: detection enabled, threshold [thr], a
    smoothing window of one sample, so that each smoothed count is the raw
    count of its frame. *)
Definition watching (thr : Z) : t :=
  set_crowd_size_threshold thr
    (set_crowd_detection_enabled true
       (set_people_count_history {| maxlen := 1; items := [] |}
          (set_smoothing_window_size 1 init))).

End App.

(* ===================================================================== *)
(** * The heat-map accumulators, [update_heatmap] *)
(* ===================================================================== *)

Module Heatmap.
Import Py.
Local Open Scope stmt_scope.

(** A two-dimensional float array: its shape and its cells, row by row. *)
Record ndarray := { nrows : Z; ncols : Z; data : list Q }.

(** [np.zeros((h, w))] *)
Definition np_zeros (h w : Z) : ndarray :=
  {| nrows := h; ncols := w; data := repeat 0%Q (Z.to_nat (h * w)) |}.

Definition same_shape (a b : ndarray) : bool :=
  (nrows a =? nrows b) && (ncols a =? ncols b).

(** Cell-wise application of a function. *)
Definition cells (f : Q -> Q) (a : ndarray) : ndarray :=
  {| nrows := nrows a; ncols := ncols a; data := map f (data a) |}.

(** [a * c], [a / c] and [np.maximum(a, c)] for a scalar [c]. *)
Definition scale (a : ndarray) (c : Q) : ndarray := cells (fun x => (x * c)%Q) a.
Definition divide (a : ndarray) (c : Q) : ndarray := cells (fun x => (x / c)%Q) a.
Definition np_maximum (a : ndarray) (c : Q) : ndarray := cells (fun x => max x c) a.

Fixpoint zip_add (l1 l2 : list Q) : list Q :=
  match l1, l2 with
  | x :: r1, y :: r2 => (x + y)%Q :: zip_add r1 r2
  | _, _ => []
  end.

(** [a += b] for arrays of one shape.  The operands of [update_heatmap]
    have one shape in every state that the application reaches; for
    other shapes the model raises. *)
Definition iadd (a b : ndarray) : outcome ndarray :=
  if same_shape a b
  then Ok {| nrows := nrows a; ncols := ncols a; data := zip_add (data a) (data b) |}
  else Raise (ValueError "operands could not be broadcast together").

(** [np.max(a)]; an empty array has no maximum. *)
Definition np_max (a : ndarray) : outcome Q :=
  match data a with
  | [] => Raise (ValueError "zero-size array to reduction operation maximum")
  | x :: rest => Ok (fold_left max rest x)
  end.

(** [a[y, x]] and [a[y, x] = v], used at indices inside the array only. *)
Definition flat (a : ndarray) (y x : Z) : nat := Z.to_nat (y * ncols a + x).

Definition get_cell (a : ndarray) (y x : Z) : Q := nth (flat a y x) (data a) 0%Q.

Fixpoint update_nth (i : nat) (v : Q) (l : list Q) : list Q :=
  match l, i with
  | [], _ => []
  | _ :: rest, O => v :: rest
  | c :: rest, S j => c :: update_nth j v rest
  end.

Definition set_cell (a : ndarray) (y x : Z) (v : Q) : ndarray :=
  {| nrows := nrows a; ncols := ncols a; data := update_nth (flat a y x) v (data a) |}.

(** A detection box [(x1, y1, x2, y2)]. *)
Definition box : Type := Z * Z * Z * Z.

(** The heat-map attributes of [self]. *)
Record t := {
  heatmap_accumulator : option ndarray;
  aggregate_heatmap_accumulator : option ndarray;
  aggregate_frame_count : Z;
  heatmap_decay : Q;
  heatmap_intensity : Q;
  heatmap_scale_factor : Q;
  heatmap_neighbor_radius : Z
}.

(** As [__init__] sets them. *)
Definition init : t := {|
  heatmap_accumulator := None;
  aggregate_heatmap_accumulator := None;
  aggregate_frame_count := 0;
  heatmap_decay := 99 # 100;
  heatmap_intensity := 6 # 10;
  heatmap_scale_factor := 2 # 10;
  heatmap_neighbor_radius := 4
|}.

Definition set_heatmap_accumulator (v : option ndarray) (s : t) : t :=
  {| heatmap_accumulator := v;
     aggregate_heatmap_accumulator := aggregate_heatmap_accumulator s;
     aggregate_frame_count := aggregate_frame_count s;
     heatmap_decay := heatmap_decay s;
     heatmap_intensity := heatmap_intensity s;
     heatmap_scale_factor := heatmap_scale_factor s;
     heatmap_neighbor_radius := heatmap_neighbor_radius s |}.

Definition set_aggregate_heatmap_accumulator (v : option ndarray) (s : t) : t :=
  {| heatmap_accumulator := heatmap_accumulator s;
     aggregate_heatmap_accumulator := v;
     aggregate_frame_count := aggregate_frame_count s;
     heatmap_decay := heatmap_decay s;
     heatmap_intensity := heatmap_intensity s;
     heatmap_scale_factor := heatmap_scale_factor s;
     heatmap_neighbor_radius := heatmap_neighbor_radius s |}.

Definition set_aggregate_frame_count (v : Z) (s : t) : t :=
  {| heatmap_accumulator := heatmap_accumulator s;
     aggregate_heatmap_accumulator := aggregate_heatmap_accumulator s;
     aggregate_frame_count := v;
     heatmap_decay := heatmap_decay s;
     heatmap_intensity := heatmap_intensity s;
     heatmap_scale_factor := heatmap_scale_factor s;
     heatmap_neighbor_radius := heatmap_neighbor_radius s |}.

(** The parameters, which the application may change between frames. *)
Definition set_parameters (decay intensity scale_factor : Q) (radius : Z) (s : t) : t :=
  {| heatmap_accumulator := heatmap_accumulator s;
     aggregate_heatmap_accumulator := aggregate_heatmap_accumulator s;
     aggregate_frame_count := aggregate_frame_count s;
     heatmap_decay := decay;
     heatmap_intensity := intensity;
     heatmap_scale_factor := scale_factor;
     heatmap_neighbor_radius := radius |}.

Definition is_none {A} (o : option A) : bool :=
  match o with None => true | Some _ => false end.

(** [low_h, low_w = int(h * scale_factor), int(w * scale_factor)] *)
Definition low_dims (h w : Z) (scale_factor : Q) : Z * Z :=
  (int (inject_Z h * scale_factor), int (inject_Z w * scale_factor)).

(** The two allocation tests of [update_heatmap]. *)
Definition reallocate (low_h low_w : Z) (s : t) : t :=
  let resolution_changed :=
    match heatmap_accumulator s with
    | Some a => negb (nrows a =? low_h) || negb (ncols a =? low_w)
    | None => false
    end in
  let s1 :=
    if is_none (heatmap_accumulator s) || resolution_changed
    then set_heatmap_accumulator (Some (np_zeros low_h low_w)) s
    else s in
  if is_none (aggregate_heatmap_accumulator s1) || resolution_changed
  then set_aggregate_frame_count 0
         (set_aggregate_heatmap_accumulator (Some (np_zeros low_h low_w)) s1)
  else s1.

Section External.

(** [np.sqrt] on the integer squared distances, and [cv2.GaussianBlur]
    with a square kernel of the given size: library functions. *)
Variable np_sqrt : Z -> Q.
Variable GaussianBlur : ndarray -> Z -> ndarray.
(** [cv2.resize(a, (w, h), interpolation=cv2.INTER_LINEAR)] *)
Variable resize : ndarray -> Z -> Z -> ndarray.

(** The body of the two nested neighbour loops, at cell [(y, x)]. *)
Definition splat_cell (foot_x foot_y radius : Z) (cur : ndarray) (y x : Z) : ndarray :=
  if (x =? foot_x) && (y =? foot_y) then cur
  else
    let dist_sq := (x - foot_x) ^ 2 + (y - foot_y) ^ 2 in
    if dist_sq <=? radius ^ 2 then
      let dist := np_sqrt dist_sq in
      let intensity := (max 0 (1 - dist / inject_Z radius) * (7 # 10))%Q in
      set_cell cur y x (max (get_cell cur y x) intensity)
    else cur.

(** The body of [for box in boxes]. *)
Definition splat_box (scale_factor : Q) (radius low_h low_w : Z)
           (cur : ndarray) (b : box) : ndarray :=
  let '(x1, y1, x2, y2) := b in
  let foot_x := int (inject_Z (x1 + x2) / 2 * scale_factor) in
  let foot_y := int (inject_Z y2 * scale_factor) in
  let foot_x := Z.max 0 (Z.min (low_w - 1) foot_x) in
  let foot_y := Z.max 0 (Z.min (low_h - 1) foot_y) in
  let cur := set_cell cur foot_y foot_x 1 in
  let y_min := Z.max 0 (foot_y - radius) in
  let y_max := Z.min (low_h - 1) (foot_y + radius) in
  let x_min := Z.max 0 (foot_x - radius) in
  let x_max := Z.min (low_w - 1) (foot_x + radius) in
  fold_left
    (fun cur y =>
       fold_left (fun cur x => splat_cell foot_x foot_y radius cur y x)
                 (range x_min (x_max + 1)) cur)
    (range y_min (y_max + 1)) cur.

(** The three blur passes and the normalisation by the maximum. *)
Definition blur_and_normalize (cur : ndarray) : outcome ndarray :=
  let cur := GaussianBlur cur 7 in
  let cur := GaussianBlur cur 17 in
  let cur := GaussianBlur cur 31 in
  match np_max cur with
  | Raise e => Raise e
  | Ok max_val =>
      if Qltb 0 max_val then Ok (divide cur max_val)
      else Ok (cells (fun _ => 0%Q) cur)
  end.

(** The grid [current_heatmap] of one frame. *)
Definition current_heatmap (s : t) (low_h low_w : Z) (boxes : list box)
  : outcome ndarray :=
  let cur :=
    fold_left (splat_box (heatmap_scale_factor s) (heatmap_neighbor_radius s)
                         low_h low_w)
              boxes (np_zeros low_h low_w) in
  let detections_in_frame := negb (len boxes =? 0) in
  if detections_in_frame then blur_and_normalize cur else Ok cur.

(** [update_heatmap] from the decay on, with both accumulators
    allocated. *)
Definition accumulate (low_h low_w h w : Z) (boxes : list box)
  : stmt t (option ndarray) :=
  s <- get ;;
  match heatmap_accumulator s, aggregate_heatmap_accumulator s with
  | Some acc, Some agg =>
      let acc := scale acc (heatmap_decay s) in
      modify (set_heatmap_accumulator (Some acc)) ;;
      cur <- lift (current_heatmap s low_h low_w boxes) ;;
      acc <- lift (iadd acc (scale cur (heatmap_intensity s))) ;;
      modify (set_heatmap_accumulator (Some acc)) ;;
      (if negb (len boxes =? 0) then
         agg <- lift (iadd agg cur) ;;
         modify (set_aggregate_heatmap_accumulator (Some agg)) ;;
         modify (fun s => set_aggregate_frame_count (aggregate_frame_count s + 1) s)
       else ret tt) ;;
      max_accum_val <- lift (np_max acc) ;;
      let acc := if Qltb 1 max_accum_val then divide acc max_accum_val else acc in
      modify (set_heatmap_accumulator (Some acc)) ;;
      let acc := np_maximum acc 0 in
      modify (set_heatmap_accumulator (Some acc)) ;;
      ret (Some (resize acc w h))
  | _, _ => lift (Raise (TypeError "NoneType"))
  end.

(** [update_heatmap(self, frame, boxes)]; the frame is given by its
    [shape[:2]], [None] for no frame. *)
Definition update_heatmap (frame : option (Z * Z)) (boxes : list box)
  : stmt t (option ndarray) :=
  match frame with
  | None => ret None
  | Some (h, w) =>
      s <- get ;;
      let '(low_h, low_w) := low_dims h w (heatmap_scale_factor s) in
      if (low_h <=? 0) || (low_w <=? 0) then ret None
      else
        modify (reallocate low_h low_w) ;;
        accumulate low_h low_w h w boxes
  end.

(** One call together with the parameter values in force for it. *)
Record call := {
  frame : option (Z * Z);
  boxes : list box;
  decay : Q;
  intensity : Q;
  scale_factor : Q;
  radius : Z
}.

Definition step (s : t) (c : call) : t :=
  snd (update_heatmap (frame c) (boxes c)
         (set_parameters (decay c) (intensity c) (scale_factor c) (radius c) s)).

(** The state after each call of a sequence, in order. *)
Fixpoint trace (s : t) (cs : list call) : list t :=
  match cs with
  | [] => []
  | c :: rest => step s c :: trace (step s c) rest
  end.

End External.

(** ** Reference notions for the statements *)

(** Every cell lies in [[0, 1]]. *)
Definition bounded (a : ndarray) : Prop :=
  Forall (fun x => (0 <= x /\ x <= 1)%Q) (data a).

Definition live_bounded (s : t) : Prop :=
  match heatmap_accumulator s with
  | Some a => bounded a
  | None => True
  end.

(** An array of [h] rows and [w] columns. *)
Definition has_shape (h w : Z) (a : ndarray) : Prop :=
  nrows a = h /\ ncols a = w /\ List.length (data a) = Z.to_nat (h * w).

(** Every cell is 0. *)
Definition all_zero (a : ndarray) : Prop := Forall (fun x => x = 0%Q) (data a).

(** The accumulators are both [None], as [__init__] and the resets leave
    them, or two arrays of one non-empty shape. *)
Definition allocated (s : t) : Prop :=
  match heatmap_accumulator s, aggregate_heatmap_accumulator s with
  | None, None => True
  | Some a, Some g =>
      exists h w, 0 < h /\ 0 < w /\ has_shape h w a /\ has_shape h w g
  | _, _ => False
  end.

(** What is used of [cv2.GaussianBlur]: the result has the shape of the
    argument. *)
Definition keeps_shape (blur : ndarray -> Z -> ndarray) : Prop :=
  forall a k,
    nrows (blur a k) = nrows a /\ ncols (blur a k) = ncols a
    /\ List.length (data (blur a k)) = List.length (data a).

(** The accumulators as the resets leave them. *)
Definition reset (s : t) : t :=
  set_aggregate_frame_count 0
    (set_aggregate_heatmap_accumulator None (set_heatmap_accumulator None s)).

(** The state in which both accumulators are fresh zero grids. *)
Definition zeroed (lh lw : Z) (s : t) : t :=
  set_aggregate_frame_count 0
    (set_aggregate_heatmap_accumulator (Some (np_zeros lh lw))
       (set_heatmap_accumulator (Some (np_zeros lh lw)) s)).

(** ** Library functions for the examples: a square root that is exact on
    squares, and a blur and a resize that return their argument. *)
Definition sample_sqrt (z : Z) : Q := inject_Z (Z.sqrt z).
Definition sample_blur (a : ndarray) (k : Z) : ndarray := a.
Definition sample_resize (a : ndarray) (w h : Z) : ndarray := a.

(** Three calls: a person on a 10 by 10 frame with an intensity of 3, the
    same on a 20 by 10 frame, and an empty 20 by 10 frame. *)
Definition sample_call_1 : call :=
  {| frame := Some (10, 10); boxes := [(2, 2, 6, 8)];
     decay := 99 # 100; intensity := 3; scale_factor := 2 # 10; radius := 1 |}.

Definition sample_call_2 : call :=
  {| frame := Some (20, 10); boxes := [(2, 2, 6, 8)];
     decay := 99 # 100; intensity := 3; scale_factor := 2 # 10; radius := 1 |}.

Definition sample_call_3 : call :=
  {| frame := Some (20, 10); boxes := [];
     decay := 99 # 100; intensity := 3; scale_factor := 2 # 10; radius := 1 |}.

Definition sample_calls : list call :=
  [sample_call_1; sample_call_2; sample_call_3].

End Heatmap.

(* ===================================================================== *)
(** * The detection thread, [YoloDetectionThread] *)
(* ===================================================================== *)

Module Worker.

Section WithFrames.

(** A video frame. *)
Variable Frame : Type.

(** Where the thread stands in [run]: not started, at the [while]
    test, at the [if] test, before [self.processing = True], before
    [self.frame_queue.pop(0)], inside the [try] block with the popped
    frame, before [self.processing = False], before [self.msleep(10)],
    after the loop, or ended by an exception. *)
Inductive pc :=
| NotStarted
| AtWhile
| AtIf
| AtSetProcessing
| AtPop
| InTry (frame : Frame)
| AtClearProcessing
| AtSleep
| Exited
| Crashed.

(** The attributes of the thread object, the place of its thread, the
    frames it has handed to the model so far, and the place of the
    aggregation thread inside [add_frame]: [pending] is [Some f] when
    that thread has found the test of [add_frame(f)] true and has not yet
    assigned the queue. *)
Record t := {
  frame_queue : list Frame;
  running : bool;
  model : bool;
  processing : bool;
  at_pc : pc;
  processed : list Frame;
  pending : option Frame
}.

(** [__init__]; the model is [None]. *)
Definition init : t := {|
  frame_queue := [];
  running := false;
  model := false;
  processing := false;
  at_pc := NotStarted;
  processed := [];
  pending := None
|}.

Definition set_frame_queue (q : list Frame) (s : t) : t :=
  {| frame_queue := q;
     running := running s;
     model := model s;
     processing := processing s;
     at_pc := at_pc s;
     processed := processed s;
     pending := pending s |}.

Definition set_pending (g : option Frame) (s : t) : t :=
  {| frame_queue := frame_queue s;
     running := running s;
     model := model s;
     processing := processing s;
     at_pc := at_pc s;
     processed := processed s;
     pending := g |}.

(** The first statement of [add_frame(self, frame)], run by the
    aggregation thread: the test [frame is not None and not
    self.processing], which reads the flag. *)
Definition add_frame_test (frame : option Frame) (s : t) : t :=
  match frame with
  | Some f => if negb (processing s) then set_pending (Some f) s else s
  | None => s
  end.

(** Its second statement, [self.frame_queue = [frame.copy()]], when the
    test was true; after it the call has returned. *)
Definition add_frame_store (s : t) : t :=
  match pending s with
  | Some f => set_pending None (set_frame_queue [f] s)
  | None => s
  end.

(** A whole call of [add_frame], with no step of the detection thread
    between its two statements. *)
Definition add_frame (frame : option Frame) (s : t) : t :=
  add_frame_store (add_frame_test frame s).

(** [set_model_path(self, model_path)] drops the model. *)
Definition set_model_path (s : t) : t :=
  {| frame_queue := frame_queue s;
     running := running s;
     model := false;
     processing := processing s;
     at_pc := at_pc s;
     processed := processed s;
     pending := pending s |}.

(** [stop(self)], up to its [wait()]. *)
Definition stop (s : t) : t :=
  {| frame_queue := frame_queue s;
     running := false;
     model := model s;
     processing := processing s;
     at_pc := at_pc s;
     processed := processed s;
     pending := pending s |}.

Definition goto (p : pc) (s : t) : t :=
  {| frame_queue := frame_queue s;
     running := running s;
     model := model s;
     processing := processing s;
     at_pc := p;
     processed := processed s;
     pending := pending s |}.

Definition set_processing (b : bool) (s : t) : t :=
  {| frame_queue := frame_queue s;
     running := running s;
     model := model s;
     processing := b;
     at_pc := at_pc s;
     processed := processed s;
     pending := pending s |}.

(** The head of [run]: [self.running = True], and [load_model()] when
    there is no model; [loaded] says whether loading succeeds. *)
Definition start (loaded : bool) (s : t) : t :=
  {| frame_queue := frame_queue s;
     running := true;
     model := if model s then true else loaded;
     processing := processing s;
     at_pc := AtWhile;
     processed := processed s;
     pending := pending s |}.

(** The next statement of [run]. *)
Definition worker_step (s : t) : t :=
  match at_pc s with
  | NotStarted => s
  | AtWhile => if running s then goto AtIf s else goto Exited s
  | AtIf =>
      if (0 <? Py.len (frame_queue s)) && model s
      then goto AtSetProcessing s
      else goto AtSleep s
  | AtSetProcessing => goto AtPop (set_processing true s)
  | AtPop =>
      match frame_queue s with
      | f :: rest => goto (InTry f) (set_frame_queue rest s)
      | [] => goto Crashed s
      end
  | InTry f =>
      {| frame_queue := frame_queue s;
         running := running s;
         model := model s;
         processing := processing s;
         at_pc := AtClearProcessing;
         processed := processed s ++ [f];
         pending := pending s |}
  | AtClearProcessing => goto AtSleep (set_processing false s)
  | AtSleep => goto AtWhile s
  | Exited => s
  | Crashed => s
  end.

(** What the two threads do, as one interleaved sequence: the calls of
    the aggregation thread, [add_frame] in its two statements, and the
    steps of the detection thread. *)
Inductive action :=
| Start (loaded : bool)
| AddFrameTest (frame : option Frame)
| AddFrameStore
| SetModelPath
| Stop
| WorkerStep.

(** The aggregation thread runs its calls one after the other: a call
    begins when the [add_frame] before it has returned.  [start()] runs
    [run] when the thread has not run yet or [run] has ended, and does
    nothing while it is running. *)
Definition act (s : t) (a : action) : t :=
  match a with
  | Start loaded =>
      let s := add_frame_store s in
      match at_pc s with
      | NotStarted | Exited | Crashed => start loaded s
      | _ => s
      end
  | AddFrameTest frame => add_frame_test frame (add_frame_store s)
  | AddFrameStore => add_frame_store s
  | SetModelPath => set_model_path (add_frame_store s)
  | Stop => stop (add_frame_store s)
  | WorkerStep => worker_step s
  end.

Definition exec (s : t) (sched : list action) : t := fold_left act sched s.

(** The states that some interleaving reaches from [__init__]. *)
Definition reachable (s : t) : Prop := exists sched, s = exec init sched.

(** [n] steps of the detection thread, nothing else happening. *)
Fixpoint worker_steps (n : nat) (s : t) : t :=
  match n with
  | O => s
  | S k => worker_steps k (worker_step s)
  end.

(** What holds in every reachable state. *)
Definition invariant (s : t) : Prop :=
  (List.length (frame_queue s) <= 1)%nat /\
  match at_pc s with
  | NotStarted | AtWhile | AtIf | AtSleep | Exited => processing s = false
  | AtSetProcessing =>
      processing s = false /\ List.length (frame_queue s) = 1%nat
  | AtPop => processing s = true /\ List.length (frame_queue s) = 1%nat
  | InTry _ | AtClearProcessing => processing s = true
  | Crashed => False
  end.

(** With an empty queue and the flag clear the thread only polls. *)
Definition polling (s : t) : Prop :=
  frame_queue s = [] /\ processing s = false
  /\ (at_pc s = AtWhile \/ at_pc s = AtIf \/ at_pc s = AtSleep \/ at_pc s = Exited).

(** The loop is running and stands outside a detection pass. *)
Definition idle (s : t) : Prop :=
  running s = true
  /\ (at_pc s = AtWhile \/ at_pc s = AtIf \/ at_pc s = AtSleep
      \/ at_pc s = AtSetProcessing).

(** The calls [add_frame(g)] for the frames [gs], in order, each one
    whole. *)
Definition add_frames (gs : list (option Frame)) (s : t) : t :=
  fold_left (fun s g => add_frame g s) gs s.

(** The same calls as a schedule. *)
Definition submit (gs : list (option Frame)) : list action :=
  flat_map (fun g => [AddFrameTest g; AddFrameStore]) gs.

End WithFrames.

Arguments NotStarted {Frame}.
Arguments AtWhile {Frame}.
Arguments AtIf {Frame}.
Arguments AtSetProcessing {Frame}.
Arguments AtPop {Frame}.
Arguments InTry {Frame} _.
Arguments AtClearProcessing {Frame}.
Arguments AtSleep {Frame}.
Arguments Exited {Frame}.
Arguments Crashed {Frame}.
Arguments frame_queue {Frame} _.
Arguments running {Frame} _.
Arguments model {Frame} _.
Arguments processing {Frame} _.
Arguments at_pc {Frame} _.
Arguments processed {Frame} _.
Arguments pending {Frame} _.
Arguments init {Frame}.
Arguments add_frame_test {Frame} _ _.
Arguments add_frame_store {Frame} _.
Arguments add_frame {Frame} _ _.
Arguments worker_step {Frame} _.
Arguments worker_steps {Frame} _ _.
Arguments Start {Frame} _.
Arguments AddFrameTest {Frame} _.
Arguments AddFrameStore {Frame}.
Arguments SetModelPath {Frame}.
Arguments Stop {Frame}.
Arguments WorkerStep {Frame}.
Arguments act {Frame} _ _.
Arguments exec {Frame} _ _.
Arguments reachable {Frame} _.
Arguments invariant {Frame} _.
Arguments polling {Frame} _.
Arguments idle {Frame} _.
Arguments add_frames {Frame} _ _.
Arguments submit {Frame} _.

End Worker.

(* ===================================================================== *)
(** * The slider widget, [ModernBoxedSlider] of [ui/widgets.py] *)
(* ===================================================================== *)

Module Slider.

(** The attributes that the value logic uses, and the values that the
    [valueChanged] signal has carried so far, oldest first. *)
Record t := {
  minimum : Z;
  maximum : Z;
  value : Z;
  emitted : list Z
}.

(** [__init__] *)
Definition init : t :=
  {| minimum := 10; maximum := 90; value := 40; emitted := [] |}.

(** [setValue(self, value)] *)
Definition setValue (v : Z) (s : t) : t :=
  let v := Z.max (minimum s) (Z.min (maximum s) v) in
  if negb (value s =? v)
  then {| minimum := minimum s; maximum := maximum s; value := v;
          emitted := emitted s ++ [v] |}
  else s.

(** [setRange(self, minimum, maximum)] *)
Definition setRange (lo hi : Z) (s : t) : t :=
  {| minimum := lo; maximum := hi;
     value := Z.max lo (Z.min hi (value s));
     emitted := emitted s |}.

(** [min(a, b)] on floats: [b] when it is smaller, else [a]. *)
Definition fmin (a b : Q) : Q := if Py.Qltb b a then b else a.

(** How a mouse event ends. *)
Inductive result :=
| Done (s : t)
| ZeroDivisionError.

(** [updateValueFromMouse(self, x)], with the widget's [width()]. *)
Definition updateValueFromMouse (x : Q) (width : Z) (s : t) : result :=
  let value_range := maximum s - minimum s in
  if width =? 0 then ZeroDivisionError
  else
    let value_position := Py.max 0 (fmin 1 (x / inject_Z width)) in
    let new_value := minimum s + Py.int (value_position * inject_Z value_range) in
    Done (setValue new_value s).

(** What the user or the application does to a slider. *)
Inductive op :=
| SetValue (v : Z)
| Mouse (x : Q) (width : Z).

(** One operation; a mouse event on a widget without width changes
    nothing of the slider. *)
Definition apply (s : t) (o : op) : t :=
  match o with
  | SetValue v => setValue v s
  | Mouse x width =>
      match updateValueFromMouse x width s with
      | Done s' => s'
      | ZeroDivisionError => s
      end
  end.

(** The smoothing slider as [create_crowd_detection_widget] builds it:
    [setRange(1, 60)], then [setValue(smoothing_window_size)], then the
    handler is connected, so that it sees the signals from then on. *)
Definition smoothing_slider (smoothing_window_size : Z) : t :=
  let s := setValue smoothing_window_size (setRange 1 60 init) in
  {| minimum := minimum s; maximum := maximum s; value := value s; emitted := [] |}.

(** No two neighbours of a list are equal. *)
Fixpoint no_repeat (l : list Z) : Prop :=
  match l with
  | [] => True
  | x :: rest =>
      match rest with
      | [] => True
      | y :: _ => x <> y /\ no_repeat rest
      end
  end.

End Slider.

(* ===================================================================== *)
(** * The video clock: [process_video_frame], [update_timer_display] *)
(* ===================================================================== *)

Module Clock.

(** The attributes of [self] that the timer part of
    [process_video_frame] uses. *)
Record t := {
  video_time_ms : Z;
  last_frame_time : Q;
  frame_interval : Z;
  paused : bool
}.

(** The timer part of [process_video_frame(self, frame)] for a frame that
    is not [None]; [current_time] is what [time.time()] returns. *)
Definition advance (current_time : Q) (s : t) : t :=
  if negb (paused s) then
    let video_time_ms' :=
      if Py.Qltb 0 (last_frame_time s) then
        let elapsed := Py.int ((current_time - last_frame_time s) * 1000) in
        let increment :=
          if frame_interval s >? 0 then frame_interval s else Z.max 1 elapsed in
        let increment := Z.min increment 250 in
        video_time_ms s + increment
      else video_time_ms s in
    {| video_time_ms := video_time_ms';
       last_frame_time := current_time;
       frame_interval := frame_interval s;
       paused := paused s |}
  else s.

(** The frames of a run, given by the clock readings at their arrival. *)
Definition advance_all (times : list Q) (s : t) : t :=
  fold_left (fun s c => advance c s) times s.

(** [frame_interval] as [load_video_from_path] sets it from the frame
    rate that the capture reports. *)
Definition frame_interval_of_fps (fps : Q) : Z :=
  if Py.Qltb 0 fps then Py.int (1000 / fps) else 33.

(** The text that [update_timer_display] shows. *)
Definition timer_text (video_time_ms : Z) : string :=
  let total_seconds := video_time_ms / 1000 in
  let hours := total_seconds / 3600 in
  let minutes := (total_seconds mod 3600) / 60 in
  let seconds := total_seconds mod 60 in
  let milliseconds := video_time_ms mod 1000 in
  (Py.format_d 2 hours ++ ":" ++ Py.format_d 2 minutes ++ ":"
     ++ Py.format_d 2 seconds ++ ":" ++ Py.format_d 3 milliseconds)%string.

(** Every character of a string passes a test. *)
Fixpoint all_chars (p : ascii -> bool) (s : string) : bool :=
  match s with
  | EmptyString => true
  | String c rest => p c && all_chars p rest
  end.

(** A decimal digit. *)
Definition is_digit (c : ascii) : bool :=
  let n := nat_of_ascii c in (Nat.leb 48 n) && (Nat.leb n 57).

(** A decimal digit or one of the unit letters [h], [m], [s]. *)
Definition is_digit_or_unit (c : ascii) : bool :=
  is_digit c || Ascii.eqb c "h" || Ascii.eqb c "m" || Ascii.eqb c "s".

(** A clock at 30 frames per second with its baseline set, and the
    readings of [time.time()] at three frames. *)
Definition sample_clock : t :=
  {| video_time_ms := 0; last_frame_time := 999;
     frame_interval := frame_interval_of_fps 30; paused := false |}.

Definition sample_times : list Q := [1000; 1000 + (1 # 2); 1007]%Q.

(** The number that a string of decimal digits denotes. *)
Definition digits_value (s : string) : Z :=
  (fix go (acc : Z) (s : string) : Z :=
     match s with
     | EmptyString => acc
     | String c rest => go (acc * 10 + (Z.of_nat (nat_of_ascii c) - 48)) rest
     end) 0 s.

(** A text is [width] digits that denote [z]. *)
Definition is_field (width : nat) (z : Z) (s : string) : bool :=
  Nat.eqb (String.length s) width && all_chars is_digit s && (digits_value s =? z).

(** The time in milliseconds that four fields denote. *)
Definition of_fields (hours minutes seconds milliseconds : Z) : Z :=
  ((hours * 60 + minutes) * 60 + seconds) * 1000 + milliseconds.

(** The time that a timer text [HH:MM:SS:mmm] denotes. *)
Definition read_timer (s : string) : Z :=
  of_fields (digits_value (substring 0 2 s)) (digits_value (substring 3 2 s))
            (digits_value (substring 6 2 s)) (digits_value (substring 9 3 s)).

(** The time that a file-name stamp [HHhMMmSSsmmmms] denotes. *)
Definition read_stamp (s : string) : Z :=
  of_fields (digits_value (substring 0 2 s)) (digits_value (substring 3 2 s))
            (digits_value (substring 6 2 s)) (digits_value (substring 9 3 s)).

End Clock.

(* ===================================================================== *)
(** * The time series of the graph, [update_people_graph] *)
(* ===================================================================== *)

Module Graph.

(** What [update_people_graph] reads and writes, widgets apart:
    [capture_open] stands for [self.cap is not None and
    self.cap.isOpened()]. *)
Record t := {
  capture_open : bool;
  paused : bool;
  video_time_ms : Z;
  time_data : list Q;
  people_data : list Z
}.

(** [l[-1] = v]; an empty list has no last element. *)
Fixpoint set_last (l : list Z) (v : Z) : option (list Z) :=
  match l with
  | [] => None
  | [_] => Some [v]
  | x :: rest =>
      match set_last rest v with
      | Some rest' => Some (x :: rest')
      | None => None
      end
  end.

(** How a call ends. *)
Inductive result :=
| Done (s : t)
| IndexError.

(** The data part of [update_people_graph(self, count)]. *)
Definition update_people_graph (count : Z) (s : t) : result :=
  if negb (capture_open s) || paused s then Done s
  else
    let current_time_sec := (inject_Z (video_time_ms s) / 1000)%Q in
    let advanced :=
      match time_data s with
      | [] => true
      | _ => Py.Qltb (last (time_data s) 0%Q) current_time_sec
      end in
    if advanced then
      Done {| capture_open := capture_open s; paused := paused s;
              video_time_ms := video_time_ms s;
              time_data := time_data s ++ [current_time_sec];
              people_data := people_data s ++ [count] |}
    else
      match set_last (people_data s) count with
      | Some people_data' =>
          Done {| capture_open := capture_open s; paused := paused s;
                  video_time_ms := video_time_ms s;
                  time_data := time_data s;
                  people_data := people_data' |}
      | None => IndexError
      end.

(** What happens to the recorder between two loads of a video: the clock
    is set, playback is paused or resumed, a count is plotted. *)
Inductive op :=
| SetTime (video_time_ms : Z)
| SetPaused (paused : bool)
| Plot (count : Z).

Definition apply (s : t) (o : op) : result :=
  match o with
  | SetTime ms =>
      Done {| capture_open := capture_open s; paused := paused s;
              video_time_ms := ms;
              time_data := time_data s; people_data := people_data s |}
  | SetPaused b =>
      Done {| capture_open := capture_open s; paused := b;
              video_time_ms := video_time_ms s;
              time_data := time_data s; people_data := people_data s |}
  | Plot count => update_people_graph count s
  end.

Fixpoint run (ops : list op) (s : t) : result :=
  match ops with
  | [] => Done s
  | o :: rest =>
      match apply s o with
      | Done s' => run rest s'
      | IndexError => IndexError
      end
  end.

(** The recorder as [load_video_from_path] leaves it: both lists
    cleared, the capture open, playing from time 0. *)
Definition loaded : t :=
  {| capture_open := true; paused := false; video_time_ms := 0;
     time_data := []; people_data := [] |}.

(** Each element is strictly below the next one. *)
Fixpoint increasing (l : list Q) : Prop :=
  match l with
  | [] => True
  | x :: rest =>
      match rest with
      | [] => True
      | y :: _ => (x < y)%Q /\ increasing rest
      end
  end.

(** The series is well formed: as many counts as times, the times
    strictly increasing. *)
Definition well_formed (s : t) : Prop :=
  List.length (time_data s) = List.length (people_data s)
  /\ increasing (time_data s).

End Graph.

(* ===================================================================== *)
(** * The reader thread, [VideoFrameThread] *)
(* ===================================================================== *)

Module Reader.

Section WithFrames.

(** A video frame. *)
Variable Frame : Type.

(** A capture object: whether it is open, and the frames that
    [read()] has still to return. *)
Record capture := { opened : bool; frames : list Frame }.

(** The signals of the thread. *)
Inductive signal :=
| FrameReady (frame : Frame)
| VideoEnded.

(** The attributes of the thread, whether its [run] is under way, and
    the signals sent so far, oldest first. *)
Record t := {
  cap : option capture;
  running : bool;
  paused : bool;
  active : bool;
  signals : list signal
}.

(** [__init__] *)
Definition init : t :=
  {| cap := None; running := false; paused := false; active := false;
     signals := [] |}.

(** [set_capture(self, cap)] *)
Definition set_capture (c : capture) (s : t) : t :=
  {| cap := Some c; running := running s; paused := paused s;
     active := active s; signals := signals s |}.

(** [pause(self, paused)] *)
Definition pause (b : bool) (s : t) : t :=
  {| cap := cap s; running := running s; paused := b;
     active := active s; signals := signals s |}.

(** [stop(self)], up to its [wait()]. *)
Definition stop (s : t) : t :=
  {| cap := cap s; running := false; paused := paused s;
     active := active s; signals := signals s |}.

(** [start()] on a thread that is not running enters [run], whose first
    statement is [self.running = True]. *)
Definition start (s : t) : t :=
  if active s then s
  else {| cap := cap s; running := true; paused := paused s;
          active := true; signals := signals s |}.

(** One turn of the [while] loop of [run]: the test, and the body when the
    test holds; the loop is left when it does not. *)
Definition iterate (s : t) : t :=
  if negb (active s) then s
  else
    match cap s with
    | Some c =>
        if running s && opened c then
          if negb (paused s) then
            match frames c with
            | f :: rest =>
                {| cap := Some {| opened := opened c; frames := rest |};
                   running := running s; paused := paused s; active := true;
                   signals := signals s ++ [FrameReady f] |}
            | [] =>
                {| cap := cap s; running := false; paused := paused s;
                   active := true; signals := signals s ++ [VideoEnded] |}
            end
          else s
        else
          {| cap := cap s; running := running s; paused := paused s;
             active := false; signals := signals s |}
    | None =>
        {| cap := cap s; running := running s; paused := paused s;
           active := false; signals := signals s |}
    end.

(** What the application and the thread do, interleaved. *)
Inductive action :=
| Start
| Pause (b : bool)
| Stop
| Iterate.

Definition act (s : t) (a : action) : t :=
  match a with
  | Start => start s
  | Pause b => pause b s
  | Stop => stop s
  | Iterate => iterate s
  end.

Definition exec (s : t) (sched : list action) : t := fold_left act sched s.

(** The frames among some signals, in order. *)
Fixpoint frames_of (l : list signal) : list Frame :=
  match l with
  | [] => []
  | FrameReady f :: rest => f :: frames_of rest
  | VideoEnded :: rest => frames_of rest
  end.

(** The number of end-of-video signals among some signals. *)
Fixpoint ends_of (l : list signal) : nat :=
  match l with
  | [] => 0
  | FrameReady _ :: rest => ends_of rest
  | VideoEnded :: rest => S (ends_of rest)
  end.

(** The number of [start()] calls in a schedule. *)
Fixpoint starts_of (sched : list action) : nat :=
  match sched with
  | [] => 0
  | Start :: rest => S (starts_of rest)
  | _ :: rest => starts_of rest
  end.

(** One while [run] is under way with [running] set, else zero. *)
Definition credit (s : t) : nat := if active s && running s then 1 else 0.

(** The frames that the capture has still to return. *)
Definition remaining (s : t) : list Frame :=
  match cap s with
  | Some c => frames c
  | None => []
  end.

End WithFrames.

Arguments opened {Frame} _.
Arguments frames {Frame} _.
Arguments FrameReady {Frame} _.
Arguments VideoEnded {Frame}.
Arguments cap {Frame} _.
Arguments running {Frame} _.
Arguments paused {Frame} _.
Arguments active {Frame} _.
Arguments signals {Frame} _.
Arguments init {Frame}.
Arguments set_capture {Frame} _ _.
Arguments pause {Frame} _ _.
Arguments stop {Frame} _.
Arguments start {Frame} _.
Arguments iterate {Frame} _.
Arguments act {Frame} _ _.
Arguments exec {Frame} _ _.
Arguments frames_of {Frame} _.
Arguments ends_of {Frame} _.
Arguments remaining {Frame} _.
Arguments credit {Frame} _.

End Reader.

(* ===================================================================== *)
(** * The detection pass of [YoloDetectionThread.run] *)
(* ===================================================================== *)

Module Detection.

(** One box of the detector: [box.xyxy[0].tolist()] and
    [float(box.conf[0])]. *)
Record detection := { xyxy : Q * Q * Q * Q; conf : Q }.

(** [int(x1), int(y1), int(x2), int(y2)] *)
Definition to_box (d : detection) : Heatmap.box :=
  let '(x1, y1, x2, y2) := xyxy d in
  (Py.int x1, Py.int y1, Py.int x2, Py.int y2).

(** The body of [for box in result_boxes]. *)
Definition visit (threshold : Q) (acc : Z * list Heatmap.box) (d : detection)
  : Z * list Heatmap.box :=
  let '(people_count, boxes) := acc in
  if Py.Qltb threshold (conf d)
  then (people_count + 1, boxes ++ [to_box d])
  else (people_count, boxes).

(** The two nested loops over [results] and over the boxes of each
    result, from [people_count = 0] and [boxes = []]: the count and the
    boxes that [detection_ready] carries. *)
Definition detect (threshold : Q) (results : list (list detection))
  : Z * list Heatmap.box :=
  fold_left (fun acc result_boxes => fold_left (visit threshold) result_boxes acc)
            results (0, []).

(** [on_threshold_changed(self, value)]: the threshold that is handed to
    the detection thread. *)
Definition on_threshold_changed (value : Z) : Q := inject_Z value / 100.

(** The confidence slider as [create_model_selection_row] builds it:
    [setRange(10, 90)], [setValue(int(0.4 * 100))], then the handler is
    connected. *)
Definition confidence_slider : Slider.t :=
  let s := Slider.setValue 40 (Slider.setRange 10 90 Slider.init) in
  {| Slider.minimum := Slider.minimum s; Slider.maximum := Slider.maximum s;
     Slider.value := Slider.value s; Slider.emitted := [] |}.

(** Two results of the detector, four boxes. *)
Definition sample_results : list (list detection) :=
  [ [ {| xyxy := (10 # 1, 20 # 1, 31 # 2, 40 # 1); conf := 9 # 10 |};
      {| xyxy := (1 # 1, 2 # 1, 3 # 1, 4 # 1); conf := 4 # 10 |} ];
    [ {| xyxy := (5 # 1, 6 # 1, 7 # 1, 8 # 1); conf := 41 # 100 |};
      {| xyxy := (0 # 1, 0 # 1, 9 # 1, 9 # 1); conf := 1 # 10 |} ] ]%Q.

End Detection.

(* ===================================================================== *)
(** * The download thread, [ModelDownloadThread] *)
(* ===================================================================== *)

Module Download.

(** The signals of the thread: [progress_update] and
    [download_complete]. *)
Inductive signal :=
| Progress (percentage : Z) (message : string)
| Complete (success : bool) (model_path : string).

(** [str(n)] for an int. *)
Definition str (n : Z) : string := Py.format_d 0 n.

(** [progress_callback(count, block_size, total_size)]: the signal it
    sends, if any. *)
Definition progress_callback (model_name : string) (call : Z * Z * Z) : list signal :=
  let '(count, block_size, total_size) := call in
  if total_size >? 0 then
    let percentage :=
      Z.min (Py.int (inject_Z (count * block_size * 100) / inject_Z total_size)) 100 in
    [Progress percentage
       ("Downloading " ++ model_name ++ ": " ++ str percentage ++ "%")%string]
  else [].

(** What the outside does during one [run]: [os.makedirs] fails with a
    message or not, [urlretrieve] calls the hook some times and then fails
    with a message or not. *)
Record script := {
  makedirs_error : option string;
  hook_calls : list (Z * Z * Z);
  retrieve_error : option string
}.

(** The signals of the [except] branch of [run]. *)
Definition failed (model_name message : string) : list signal :=
  [Progress 0 ("Error downloading model " ++ model_name ++ ": " ++ message)%string;
   Complete false ""].

(** [run(self)]: the signals it sends, in order. *)
Definition run (model_name save_path : string) (sc : script) : list signal :=
  match makedirs_error sc with
  | Some message => failed model_name message
  | None =>
      [Progress 0 ("Starting download of " ++ model_name ++ "...")%string]
      ++ flat_map (progress_callback model_name) (hook_calls sc)
      ++ match retrieve_error sc with
         | Some message => failed model_name message
         | None =>
             [Progress 100 ("Model " ++ model_name ++ " downloaded successfully")%string;
              Complete true save_path]
         end
  end.

(** The percentages among some signals, in order. *)
Fixpoint percentages (l : list signal) : list Z :=
  match l with
  | [] => []
  | Progress p _ :: rest => p :: percentages rest
  | Complete _ _ :: rest => percentages rest
  end.

(** The [download_complete] signals among some signals, in order. *)
Fixpoint completions (l : list signal) : list (bool * string) :=
  match l with
  | [] => []
  | Progress _ _ :: rest => completions rest
  | Complete ok path :: rest => (ok, path) :: completions rest
  end.

(** A download of 6.2 MB in blocks of 8192 bytes, seen at four moments. *)
Definition sample_script : script :=
  {| makedirs_error := None;
     hook_calls := [(0, 8192, 6500000); (400, 8192, 6500000);
                    (793, 8192, 6500000); (794, 8192, 6500000)];
     retrieve_error := None |}.

End Download.

(* ===================================================================== *)
(** * The aggregate map and the guard of its export *)
(* ===================================================================== *)

Module Aggregate.
Import Heatmap.

(** The number of calls that carry at least one box. *)
Definition frames_with_detections (cs : list call) : Z :=
  Py.len (filter (fun c => negb (Py.len (boxes c) =? 0)) cs).

(** The first test of [export_heatmap], [aggregate_heatmap_accumulator
    is None or aggregate_frame_count <= 0]: [true] when the export goes
    on. *)
Definition export_allowed (s : t) : bool :=
  negb (is_none (aggregate_heatmap_accumulator s) || (aggregate_frame_count s <=? 0)).

(** The call is on a frame whose low-resolution size is [lh] by [lw]. *)
Definition at_resolution (lh lw : Z) (c : call) : Prop :=
  exists h w, frame c = Some (h, w) /\ low_dims h w (scale_factor c) = (lh, lw).

(** Two arrays of one shape whose cells are equal as rationals. *)
Definition same_cells (a b : ndarray) : Prop :=
  nrows a = nrows b /\ ncols a = ncols b /\ Forall2 Qeq (data a) (data b).

(** An empty 10 by 10 frame at the parameters of the sample calls. *)
Definition empty_call : call :=
  {| frame := Some (10, 10); boxes := [];
     decay := 99 # 100; intensity := 3; scale_factor := 2 # 10; radius := 1 |}.

End Aggregate.

(* ===================================================================== *)
(** * The detection thread when playback stops *)
(* ===================================================================== *)

Module Shutdown.

Section WithFrames.

Variable Frame : Type.

(** [self.yolo_thread.frame_queue = []] in [stop_video], run by the
    aggregation thread. *)
Definition clear_queue (s : Worker.t Frame) : Worker.t Frame :=
  {| Worker.frame_queue := [];
     Worker.running := Worker.running s;
     Worker.model := Worker.model s;
     Worker.processing := Worker.processing s;
     Worker.at_pc := Worker.at_pc s;
     Worker.processed := Worker.processed s;
     Worker.pending := Worker.pending s |}.

(** [self.yolo_thread.start()] once [run] has ended: [run] begins
    again, on the attributes as they are. *)
Definition restart (loaded : bool) (s : Worker.t Frame) : Worker.t Frame :=
  match Worker.at_pc s with
  | Worker.Exited | Worker.Crashed => Worker.start Frame loaded s
  | _ => s
  end.

(** The interleavings of [Worker], with these two calls added. *)
Inductive event :=
| Thread (a : Worker.action Frame)
| StopVideo
| Restart (loaded : bool).

(** Both calls are made by the aggregation thread, so after the
    [add_frame] before them has returned. *)
Definition occur (s : Worker.t Frame) (e : event) : Worker.t Frame :=
  match e with
  | Thread a => Worker.act s a
  | StopVideo => clear_queue (Worker.add_frame_store s)
  | Restart loaded => restart loaded (Worker.add_frame_store s)
  end.

Definition play (s : Worker.t Frame) (es : list event) : Worker.t Frame :=
  fold_left occur es s.

(** The statements of [run] that are left before the loop is over, at
    most, once [running] is false. *)
Definition steps_to_exit (p : Worker.pc Frame) : nat :=
  match p with
  | Worker.NotStarted | Worker.Exited | Worker.Crashed => 0
  | Worker.AtWhile => 1
  | Worker.AtSleep => 2
  | Worker.AtClearProcessing => 3
  | Worker.InTry _ => 4
  | Worker.AtPop => 5
  | Worker.AtSetProcessing => 6
  | Worker.AtIf => 7
  end.

(** The frames that the thread may still hand to the model before the
    next [while] test. *)
Definition in_flight (p : Worker.pc Frame) : nat :=
  match p with
  | Worker.AtIf | Worker.AtSetProcessing | Worker.AtPop | Worker.InTry _ => 1
  | _ => 0
  end.

(** The number of steps of the detection thread in a schedule. *)
Fixpoint worker_step_count (sched : list (Worker.action Frame)) : nat :=
  match sched with
  | [] => 0
  | Worker.WorkerStep :: rest => S (worker_step_count rest)
  | _ :: rest => worker_step_count rest
  end.

(** No call of [start()] in a schedule. *)
Fixpoint no_start (sched : list (Worker.action Frame)) : bool :=
  match sched with
  | [] => true
  | Worker.Start _ :: _ => false
  | _ :: rest => no_start rest
  end.

End WithFrames.

Arguments clear_queue {Frame} _.
Arguments restart {Frame} _ _.
Arguments Thread {Frame} _.
Arguments StopVideo {Frame}.
Arguments Restart {Frame} _.
Arguments occur {Frame} _ _.
Arguments play {Frame} _ _.
Arguments steps_to_exit {Frame} _.
Arguments in_flight {Frame} _.
Arguments worker_step_count {Frame} _.
Arguments no_start {Frame} _.

End Shutdown.

(* ===================================================================== *)
(** * The threshold alert *)
(* ===================================================================== *)

Module AlertFacts.
Import Py App.

Ltac unfold_stmt :=
  unfold on_crowd_detection_toggled, on_crowd_size_threshold_changed,
    check_threshold_crossing, update_crowd_alert_status,
    bind, get, modify, lift, ret.

(** The name that [update_crowd_alert_status] calls is bound in the class
    body and nowhere a method body looks. *)
Lemma format_time_for_filename_unbound :
  Scope.load_global Scope.app_globals "format_time_for_filename"
  = Raise (NameError "format_time_for_filename").
Proof. reflexivity. Qed.

Lemma update_to_alert (s : t) (c : Z) :
  update_crowd_alert_status Scope.app_globals true c s =
  if threshold_alert_active s then (Ok tt, s)
  else (Raise (NameError "format_time_for_filename"),
        set_threshold_alert_active true s).
Proof.
  unfold_stmt.
  destruct (threshold_alert_active s); reflexivity.
Qed.

Lemma update_to_normal (G : Scope.namespace) (s : t) (c : Z) :
  update_crowd_alert_status G false c s =
  (Ok tt, if threshold_alert_active s then set_threshold_alert_active false s else s).
Proof.
  unfold_stmt. destruct (threshold_alert_active s); reflexivity.
Qed.

Lemma update_keeps_history (s : t) (alert : bool) (c : Z) :
  threshold_history (snd (update_crowd_alert_status Scope.app_globals alert c s))
  = threshold_history s.
Proof.
  destruct alert.
  - rewrite update_to_alert. destruct (threshold_alert_active s); reflexivity.
  - rewrite update_to_normal. destruct (threshold_alert_active s); reflexivity.
Qed.

Lemma check_keeps_history (s : t) :
  threshold_history (snd (check_threshold_crossing Scope.app_globals s))
  = threshold_history s.
Proof.
  unfold check_threshold_crossing, bind, get, ret.
  destruct (negb _); [apply update_keeps_history | reflexivity].
Qed.

Lemma dispatch_keeps_history (e : slot) (s : t) :
  threshold_history (snd (dispatch Scope.app_globals e s)) = threshold_history s.
Proof.
  destruct e as [inc | n | b | v | v]; simpl.
  - reflexivity.
  - unfold display_detection_results, bind, get, modify, ret; simpl.
    match goal with
    | |- context [if ?b then check_threshold_crossing _ else _] => destruct b
    end.
    + match goal with
      | |- context [check_threshold_crossing _ ?x] =>
          pose proof (check_keeps_history x) as H;
          destruct (check_threshold_crossing Scope.app_globals x) as [[[]|e] s']
      end; simpl in *; [|exact H].
      unfold track_peaks.
      repeat match goal with |- context [if ?b then _ else _] => destruct b end;
        simpl; exact H.
    + unfold track_peaks.
      repeat match goal with |- context [if ?b then _ else _] => destruct b end;
        reflexivity.
  - unfold on_crowd_detection_toggled, bind, modify, ret.
    destruct b; simpl; [reflexivity|].
    rewrite update_to_normal; simpl.
    destruct (threshold_alert_active s); reflexivity.
  - unfold on_crowd_size_threshold_changed, bind, modify.
    rewrite update_to_normal; simpl.
    destruct (threshold_alert_active s); reflexivity.
  - unfold on_smoothing_window_changed, bind, get, modify, lift, ret, deque_new.
    destruct (v <? 0); simpl; [reflexivity|].
    destruct (crowd_detection_enabled s); simpl; [|reflexivity].
    match goal with
    | |- context [check_threshold_crossing _ ?x] =>
        pose proof (check_keeps_history x) as H;
        destruct (check_threshold_crossing Scope.app_globals x) as [[[]|e] s']
    end; exact H.
Qed.

Lemma run_keeps_history (evs : list slot) (s : t) :
  threshold_history (snd (run Scope.app_globals evs s)) = threshold_history s.
Proof.
  revert s. induction evs as [|e rest IH]; intro s; [reflexivity|].
  simpl. unfold bind.
  pose proof (dispatch_keeps_history e s) as H.
  destruct (dispatch Scope.app_globals e s) as [[[]|x] s']; simpl in *.
  - rewrite IH. exact H.
  - exact H.
Qed.

Lemma run_resilient_keeps_history (evs : list slot) (s : t) :
  threshold_history (run_resilient Scope.app_globals evs s) = threshold_history s.
Proof.
  revert s. induction evs as [|e rest IH]; intro s; [reflexivity|].
  simpl. rewrite IH. apply dispatch_keeps_history.
Qed.

(** With the name bound to the function of the class body, the alert is
    edge-triggered: one record, with the triggering count and the
    threshold, per passage from Normal to Alert. *)
Lemma edge_triggered_when_bound (G : Scope.namespace) (f : Z -> string) :
  Scope.load_global G "format_time_for_filename" = Ok (Scope.PyFunction f) ->
  forall counts s,
    check_each G counts s =
    (Ok tt,
     match counts with
     | [] => s
     | _ =>
       set_smoothed_people_count (last counts 0)
         (set_threshold_alert_active (last counts 0 >? crowd_size_threshold s)
            (set_threshold_history
               (threshold_history s ++
                map (fun c => {| timestamp := f (video_time_ms s);
                                 count := c;
                                 threshold := crowd_size_threshold s |})
                    (rising_counts (crowd_size_threshold s)
                                   (threshold_alert_active s) counts))
               s))
     end).
Proof.
  intros HG counts. induction counts as [|c rest IH]; intro s; [reflexivity|].
  cbn [check_each]. unfold bind at 1. unfold modify at 1.
  unfold bind at 1.
  assert (Hstep :
    check_threshold_crossing G (set_smoothed_people_count c s) =
    (Ok tt,
     set_smoothed_people_count c
       (set_threshold_alert_active (c >? crowd_size_threshold s)
          (set_threshold_history
             (threshold_history s ++
              map (fun c => {| timestamp := f (video_time_ms s);
                               count := c;
                               threshold := crowd_size_threshold s |})
                  (rising_counts (crowd_size_threshold s)
                                 (threshold_alert_active s) [c])) s)))).
  { unfold_stmt. cbn [rising_counts]. simpl.
    destruct s as [ws h sm vt en thr act hist pk pkt op opt]; simpl.
    destruct (c >? thr), act; simpl; try rewrite HG; simpl;
      rewrite ?app_nil_r; reflexivity. }
  rewrite Hstep. rewrite IH.
  f_equal.
  destruct s as [ws h sm vt en thr act hist pk pkt op opt]; simpl.
  destruct rest as [|c' rest'].
  - simpl. destruct (c >? thr), act; simpl; rewrite ?app_nil_r; reflexivity.
  - cbn [rising_counts].
    destruct (c >? thr), act; cbn [andb negb];
      unfold set_smoothed_people_count, set_threshold_alert_active,
        set_threshold_history; cbn [threshold_history crowd_size_threshold
        threshold_alert_active video_time_ms smoothing_window_size
        people_count_history smoothed_people_count crowd_detection_enabled
        peak_count peak_time_ms offpeak_count offpeak_time_ms];
      rewrite ?app_nil_r, <- ?app_assoc; reflexivity.
Qed.

(** C2: [update_crowd_alert_status] asked for Alert from Normal raises
    [NameError] on [format_time_for_filename], having set the flag and
    before it appends: the name is bound in the class body only, where the
    bare call does not look.  Hence no call, and no run of the slots,
    under either exception policy, ever lengthens [threshold_history]. *)
Theorem alert_record_never_appended :
  Scope.lookup "format_time_for_filename" Scope.class_namespace
    = Some (Scope.PyFunction Scope.format_time_for_filename)
  /\ Scope.lookup "format_time_for_filename" Scope.app_globals = None
  /\ (forall s c,
        update_crowd_alert_status Scope.app_globals true c s =
        if threshold_alert_active s then (Ok tt, s)
        else (Raise (NameError "format_time_for_filename"),
              set_threshold_alert_active true s))
  /\ (forall s alert c,
        threshold_history
          (snd (update_crowd_alert_status Scope.app_globals alert c s))
        = threshold_history s)
  /\ (forall evs s,
        threshold_history (snd (run Scope.app_globals evs s)) = threshold_history s)
  /\ (forall evs s,
        threshold_history (run_resilient Scope.app_globals evs s)
        = threshold_history s).
Proof.
  repeat split.
  - apply update_to_alert.
  - apply update_keeps_history.
  - apply run_keeps_history.
  - apply run_resilient_keeps_history.
Qed.

(** C1, on the code as it is: with threshold 10 the smoothed counts
    5, 12, 15, 8, 20 cross from Normal to Alert twice, yet the run ends at
    12 with a [NameError] and an empty alert history; under an exception
    hook that goes on, the history is empty after all five counts. *)
Theorem alert_sequence_logs_nothing :
  rising_counts 10 false [5; 12; 15; 8; 20] = [12; 20]
  /\ fst (run Scope.app_globals (map DetectionReady [5; 12; 15; 8; 20]) (watching 10))
     = Raise (NameError "format_time_for_filename")
  /\ smoothed_people_count
       (snd (run Scope.app_globals (map DetectionReady [5; 12; 15; 8; 20]) (watching 10)))
     = 12
  /\ threshold_history
       (snd (run Scope.app_globals (map DetectionReady [5; 12; 15; 8; 20]) (watching 10)))
     = []
  /\ threshold_history
       (run_resilient Scope.app_globals (map DetectionReady [5; 12; 15; 8; 20]) (watching 10))
     = []
  /\ smoothed_people_count
       (run_resilient Scope.app_globals (map DetectionReady [5; 12; 15; 8; 20]) (watching 10))
     = 20.
Proof. repeat split; reflexivity. Qed.

(** The same five counts when the call resolves to the function of the
    class body: two records, at 12 and at 20. *)
Example alert_sequence_when_bound :
  map (fun r => (count r, threshold r))
      (threshold_history
         (snd (run (Scope.app_globals ++ Scope.class_namespace)
                   (map DetectionReady [5; 12; 15; 8; 20]) (watching 10))))
  = [(12, 10); (20, 10)].
Proof. reflexivity. Qed.

(** C7, against the claim: with detection enabled and a smoothed count of
    12, lowering the threshold from 15 to 10 leaves the state Normal; and
    in Alert at a count of 20, raising the threshold from 10 to 12 puts the
    state back to Normal although 20 is above 12; and enabling detection
    at a count of 12 above the threshold 10 leaves the state Normal. *)
Lemma threshold_change_does_not_reevaluate :
  (let s := set_smoothed_people_count 12 (watching 15) in
   let s' := snd (on_crowd_size_threshold_changed Scope.app_globals 10 s) in
   crowd_detection_enabled s' = true
   /\ (crowd_size_threshold s' < smoothed_people_count s')
   /\ threshold_alert_active s' <> true)
  /\ (let s := set_threshold_alert_active true
                 (set_smoothed_people_count 20 (watching 10)) in
      let s' := snd (on_crowd_size_threshold_changed Scope.app_globals 12 s) in
      crowd_detection_enabled s' = true
      /\ (crowd_size_threshold s' < smoothed_people_count s')
      /\ threshold_alert_active s' <> true)
  /\ (let s := set_crowd_detection_enabled false
                 (set_smoothed_people_count 12 (watching 10)) in
      let s' := snd (on_crowd_detection_toggled Scope.app_globals true s) in
      crowd_detection_enabled s' = true
      /\ (crowd_size_threshold s' < smoothed_people_count s')
      /\ threshold_alert_active s' <> true).
Proof.
  repeat split; try reflexivity; simpl; discriminate.
Qed.

(** C7, as the code has it: a new threshold is stored and the state is
    put to Normal, whatever the smoothed count; switching detection off
    puts the state to Normal; switching it on leaves the state as it is.
    None of the three raises, appends a record or touches the smoothed
    count, and the next check against the smoothed count is the one that
    [check_threshold_crossing] makes. *)
Theorem threshold_or_toggle_forces_normal (G : Scope.namespace) (s : t) :
  (forall v,
     let r := on_crowd_size_threshold_changed G v s in
     fst r = Ok tt
     /\ crowd_size_threshold (snd r) = v
     /\ threshold_alert_active (snd r) = false
     /\ threshold_history (snd r) = threshold_history s
     /\ smoothed_people_count (snd r) = smoothed_people_count s
     /\ crowd_detection_enabled (snd r) = crowd_detection_enabled s)
  /\ (let r := on_crowd_detection_toggled G false s in
      fst r = Ok tt
      /\ crowd_detection_enabled (snd r) = false
      /\ threshold_alert_active (snd r) = false
      /\ threshold_history (snd r) = threshold_history s
      /\ smoothed_people_count (snd r) = smoothed_people_count s)
  /\ on_crowd_detection_toggled G true s
     = (Ok tt, set_crowd_detection_enabled true s).
Proof.
  split; [|split].
  - intros v r. subst r.
    unfold on_crowd_size_threshold_changed, bind, modify.
    rewrite update_to_normal. simpl.
    destruct (threshold_alert_active s) eqn:E; simpl; repeat split; auto.
  - intro r. subst r.
    unfold on_crowd_detection_toggled, bind, modify. simpl.
    rewrite update_to_normal. simpl.
    destruct (threshold_alert_active s); simpl; repeat split; auto.
  - reflexivity.
Qed.

End AlertFacts.

(* ===================================================================== *)
(** * The smoothing window *)
(* ===================================================================== *)

Module SmoothingFacts.
Import Py App.

(** ** The most recent elements of a list *)

Lemma lastn_length {A} (n : nat) (l : list A) :
  List.length (lastn n l) = Nat.min n (List.length l).
Proof. unfold lastn. rewrite length_skipn. lia. Qed.

Lemma lastn_min {A} (n : nat) (l : list A) :
  lastn (Nat.min n (List.length l)) l = lastn n l.
Proof. unfold lastn. f_equal. lia. Qed.

Lemma lastn_all {A} (n : nat) (l : list A) :
  (List.length l <= n)%nat -> lastn n l = l.
Proof.
  intro H. unfold lastn. replace (List.length l - n)%nat with 0%nat by lia.
  reflexivity.
Qed.

Lemma skipn_app_le {A} (k : nat) (l m : list A) :
  (k <= List.length l)%nat -> skipn k l ++ m = skipn k (l ++ m).
Proof.
  intro H. rewrite skipn_app.
  replace (k - List.length l)%nat with 0%nat by lia. reflexivity.
Qed.

Lemma lastn_app_lastn {A} (n : nat) (l m : list A) :
  lastn n (lastn n l ++ m) = lastn n (l ++ m).
Proof.
  unfold lastn at 2.
  rewrite skipn_app_le by lia.
  unfold lastn. rewrite skipn_skipn. f_equal.
  rewrite length_skipn, !length_app. lia.
Qed.

Lemma lastn_idem {A} (n : nat) (l : list A) : lastn n (lastn n l) = lastn n l.
Proof.
  pose proof (lastn_app_lastn n l []) as H. rewrite !app_nil_r in H. exact H.
Qed.

Lemma lastn_nonempty {A} (n : nat) (l : list A) :
  (1 <= n)%nat -> l <> [] -> lastn n l <> [].
Proof.
  intros Hn Hl E. apply (f_equal (@List.length A)) in E.
  rewrite lastn_length in E. destruct l; [congruence | simpl in E; lia].
Qed.

(** ** [deque.append] keeps the most recent [maxlen] items *)

Lemma append_items (d : deque) (x : Z) :
  0 <= maxlen d -> len (items d) <= maxlen d ->
  items (append d x) = lastn (Z.to_nat (maxlen d)) (items d ++ [x]).
Proof.
  unfold append, lastn, len. simpl. intros H0 H.
  rewrite length_app. simpl.
  destruct (Z.ltb_spec (maxlen d) (Z.of_nat (List.length (items d) + 1))) as [L|L].
  - replace (List.length (items d) + 1 - Z.to_nat (maxlen d))%nat with 1%nat by lia.
    destruct (items d ++ [x]); reflexivity.
  - replace (List.length (items d) + 1 - Z.to_nat (maxlen d))%nat with 0%nat by lia.
    reflexivity.
Qed.

Lemma append_maxlen (d : deque) (x : Z) : maxlen (append d x) = maxlen d.
Proof. reflexivity. Qed.

Lemma append_bounded (d : deque) (x : Z) :
  0 <= maxlen d -> len (items d) <= maxlen d ->
  len (items (append d x)) <= maxlen d.
Proof.
  intros H0 H. rewrite append_items by assumption.
  unfold len. rewrite lastn_length. lia.
Qed.

Lemma refill_items (l : list Z) (d : deque) :
  0 <= maxlen d -> len (items d) <= maxlen d ->
  maxlen (refill d l) = maxlen d
  /\ items (refill d l) = lastn (Z.to_nat (maxlen d)) (items d ++ l).
Proof.
  revert d. induction l as [|x rest IH]; intros d H0 H.
  - simpl. split; [reflexivity|]. rewrite app_nil_r.
    symmetry. apply lastn_all. unfold len in H. lia.
  - unfold refill in *. simpl.
    destruct (IH (append d x)) as [Hm Hi].
    + rewrite append_maxlen. exact H0.
    + rewrite append_maxlen. apply append_bounded; assumption.
    + rewrite Hm, Hi, append_maxlen. split; [reflexivity|].
      rewrite append_items by assumption.
      rewrite lastn_app_lastn, <- app_assoc. reflexivity.
Qed.

(** [l[-v:]] keeps the last [v] for a positive [v], and everything for 0. *)
Lemma slice_from_neg {A} (v : Z) (l : list A) :
  0 <= v ->
  slice_from (- v) l = if v =? 0 then l else lastn (Z.to_nat v) l.
Proof.
  intro H. unfold slice_from, lastn, len.
  destruct (Z.eqb_spec v 0) as [E|E].
  - subst v. reflexivity.
  - destruct (Z.ltb_spec (- v) 0) as [L|L]; [|lia].
    f_equal. lia.
Qed.

(** ** The alert path leaves the window alone *)

Lemma update_same_window (G : Scope.namespace) (alert : bool) (c : Z) (s : t) :
  same_window s (snd (update_crowd_alert_status G alert c s)).
Proof.
  unfold update_crowd_alert_status, bind, get, modify, lift, ret, same_window.
  destruct (Bool.eqb (threshold_alert_active s) alert); simpl; [auto|].
  destruct alert; simpl; [|auto].
  destruct (Scope.load_global G "format_time_for_filename") as [o|e]; simpl; [|auto].
  destruct (Scope.call o _); simpl; auto.
Qed.

Lemma check_same_window (G : Scope.namespace) (s : t) :
  same_window s (snd (check_threshold_crossing G s)).
Proof.
  unfold check_threshold_crossing, bind, get, ret.
  destruct (negb _); [apply update_same_window | unfold same_window; auto].
Qed.

Lemma track_peaks_same_window (s : t) : same_window s (track_peaks s).
Proof.
  unfold track_peaks, same_window.
  repeat match goal with |- context [if ?b then _ else _] => destruct b end;
    simpl; auto.
Qed.

Lemma display_same_window (G : Scope.namespace) (x : Z) (s : t) :
  same_window (push_count x s) (snd (display_detection_results G true x s)).
Proof.
  unfold display_detection_results, bind, get, modify, ret. simpl.
  destruct (crowd_detection_enabled s).
  - pose proof (check_same_window G (push_count x s)) as H.
    destruct (check_threshold_crossing G (push_count x s)) as [[[]|e] s'];
      simpl in *; [|exact H].
    pose proof (track_peaks_same_window s') as H'.
    unfold same_window in *. intuition congruence.
  - apply track_peaks_same_window.
Qed.

Lemma len_pos_nonempty {A} (l : list A) :
  (0 <? len l) = match l with [] => false | _ => true end.
Proof. destruct l; reflexivity. Qed.

(** One frame: the window after it, and the smoothed count. *)
Lemma display_window (G : Scope.namespace) (x : Z) (s : t) :
  let s' := snd (display_detection_results G true x s) in
  people_count_history s' = append (people_count_history s) x
  /\ smoothed_people_count s' =
     if 0 <? len (items (append (people_count_history s) x))
     then round (np_mean (items (append (people_count_history s) x)))
     else x.
Proof.
  destruct (display_same_window G x s) as (H1 & H2 & _).
  simpl. rewrite H1, H2. split; reflexivity.
Qed.

Lemma run_window (G : Scope.namespace) (xs : list Z) (s : t) :
  0 <= maxlen (people_count_history s) ->
  len (items (people_count_history s)) <= maxlen (people_count_history s) ->
  let s' := run_resilient G (map DetectionReady xs) s in
  let n := Z.to_nat (maxlen (people_count_history s)) in
  maxlen (people_count_history s') = maxlen (people_count_history s)
  /\ items (people_count_history s')
     = lastn n (items (people_count_history s) ++ xs)
  /\ (xs <> [] -> 1 <= maxlen (people_count_history s) ->
      smoothed_people_count s' = round (np_mean (items (people_count_history s')))).
Proof.
  revert s. induction xs as [|x rest IH]; intros s H0 H.
  - simpl. rewrite app_nil_r. split; [reflexivity|]. split; [|congruence].
    symmetry. apply lastn_all. unfold len in H. lia.
  - cbn [map run_resilient dispatch].
    destruct (display_window G x s) as [Hh Hs].
    set (s1 := snd (display_detection_results G true x s)) in *.
    assert (Hm : maxlen (people_count_history s1) = maxlen (people_count_history s))
      by (rewrite Hh; reflexivity).
    assert (Hi : items (people_count_history s1)
                 = lastn (Z.to_nat (maxlen (people_count_history s)))
                         (items (people_count_history s) ++ [x]))
      by (rewrite Hh; apply append_items; assumption).
    destruct (IH s1) as (IH1 & IH2 & IH3).
    + rewrite Hm. exact H0.
    + rewrite Hm, Hh. apply append_bounded; assumption.
    + cbv zeta. split; [rewrite IH1; exact Hm|]. split.
      * rewrite IH2, Hm, Hi, lastn_app_lastn, <- app_assoc. reflexivity.
      * intros _ Hw. destruct rest as [|y rest'].
        -- simpl. rewrite Hs, <- Hh.
           assert (Hne : items (people_count_history s1) <> []).
           { rewrite Hi. apply lastn_nonempty; [lia|].
             destruct (items (people_count_history s)); discriminate. }
           destruct (items (people_count_history s1)); [congruence | reflexivity].
        -- apply IH3; [discriminate | rewrite Hm; exact Hw].
Qed.

(** C3: from an empty window of capacity [w], after the frames with raw
    counts [xs] the window holds the last [min w (len xs)] of them and the
    smoothed count is the rounded mean of those, whatever the alert path
    did on the way. *)
Theorem smoothed_is_rounded_mean_of_window
  (G : Scope.namespace) (w : Z) (xs : list Z) (s : t) :
  1 <= w ->
  xs <> [] ->
  people_count_history s = {| maxlen := w; items := [] |} ->
  let s' := run_resilient G (map DetectionReady xs) s in
  let window := lastn (Nat.min (Z.to_nat w) (List.length xs)) xs in
  items (people_count_history s') = window
  /\ smoothed_people_count s' = round (np_mean window).
Proof.
  intros Hw Hxs Hs s' window.
  destruct (run_window G xs s) as (H1 & H2 & H3).
  - rewrite Hs. simpl. lia.
  - rewrite Hs. simpl. unfold len. simpl. lia.
  - fold s' in H1, H2, H3. rewrite Hs in H2, H3. simpl in H2, H3.
    assert (E : items (people_count_history s') = window).
    { rewrite H2. unfold window. symmetry. apply lastn_min. }
    split; [exact E|]. rewrite <- E. apply H3; assumption.
Qed.

(** The examples of C3 through the theorem: capacity 3, raw counts
    2, 4, 9 give 5; a fourth count 100 gives the window 4, 9, 100 and 38. *)
Lemma smoothed_is_rounded_mean_of_window_witness :
  let s := set_people_count_history {| maxlen := 3; items := [] |} init in
  (smoothed_people_count
     (run_resilient Scope.app_globals (map DetectionReady [2; 4; 9]) s) = 5)
  /\ (items (people_count_history
               (run_resilient Scope.app_globals (map DetectionReady [2; 4; 9; 100]) s))
      = [4; 9; 100])
  /\ (smoothed_people_count
        (run_resilient Scope.app_globals (map DetectionReady [2; 4; 9; 100]) s) = 38).
Proof.
  intro s.
  assert (H3 : 1 <= 3) by lia.
  assert (Ha : [2; 4; 9] <> []) by discriminate.
  assert (Hb : [2; 4; 9; 100] <> []) by discriminate.
  destruct (smoothed_is_rounded_mean_of_window Scope.app_globals 3 [2; 4; 9] s
              H3 Ha eq_refl) as [_ Ea].
  destruct (smoothed_is_rounded_mean_of_window Scope.app_globals 3 [2; 4; 9; 100] s
              H3 Hb eq_refl) as [Wb Eb].
  split; [exact Ea|]. split; [exact Wb | exact Eb].
Defined.

(** C10: a new capacity [v] leaves the most recent [v] samples in a
    window of that capacity and sets the smoothed count to their rounded
    mean, or to 0 when none is left; the alert check that follows does not
    change either. *)
Theorem resize_truncates_and_recomputes (G : Scope.namespace) (s : t) (v : Z) :
  0 <= v ->
  let s' := snd (on_smoothing_window_changed G v s) in
  let kept := lastn (Z.to_nat v) (items (people_count_history s)) in
  smoothing_window_size s' = v
  /\ maxlen (people_count_history s') = v
  /\ items (people_count_history s') = kept
  /\ smoothed_people_count s' =
     match kept with
     | [] => 0
     | _ => round (np_mean kept)
     end.
Proof.
  intros Hv s' kept. subst s'.
  unfold on_smoothing_window_changed, bind, get, modify, lift, ret, deque_new.
  destruct (Z.ltb_spec v 0) as [L|L]; [lia|]. simpl.
  set (d := refill {| maxlen := v; items := [] |}
                   (slice_from (- v) (items (people_count_history s)))).
  destruct (refill_items (slice_from (- v) (items (people_count_history s)))
              {| maxlen := v; items := [] |}) as [Dm Di].
  { simpl. exact Hv. }
  { simpl. unfold len. simpl. exact Hv. }
  fold d in Dm, Di. simpl in Dm, Di.
  assert (Dk : items d = kept).
  { rewrite Di, slice_from_neg by exact Hv. unfold kept.
    destruct (Z.eqb_spec v 0) as [E|E]; [reflexivity | apply lastn_idem]. }
  match goal with
  | |- context [if ?b then check_threshold_crossing G else _] => destruct b
  end.
  - match goal with
    | |- context [check_threshold_crossing G ?x] =>
        destruct (check_same_window G x) as (W1 & W2 & W3)
    end.
    rewrite W1, W2, W3. simpl.
    rewrite len_pos_nonempty, Dk, Dm. repeat split; try reflexivity.
    destruct kept; reflexivity.
  - simpl. rewrite len_pos_nonempty, Dk, Dm. repeat split; try reflexivity.
    destruct kept; reflexivity.
Qed.

(** C10 at a window of capacity 4 holding 2, 4, 9, 100, resized to 2 and
    to 0. *)
Lemma resize_truncates_and_recomputes_witness :
  let s := set_people_count_history {| maxlen := 4; items := [2; 4; 9; 100] |} init in
  (items (people_count_history (snd (on_smoothing_window_changed Scope.app_globals 2 s)))
   = [9; 100]
   /\ smoothed_people_count (snd (on_smoothing_window_changed Scope.app_globals 2 s))
      = 54)
  /\ (items (people_count_history (snd (on_smoothing_window_changed Scope.app_globals 0 s)))
      = []
      /\ smoothed_people_count (snd (on_smoothing_window_changed Scope.app_globals 0 s))
         = 0).
Proof.
  intro s.
  assert (H2 : 0 <= 2) by lia.
  assert (H0 : 0 <= 0) by lia.
  destruct (resize_truncates_and_recomputes Scope.app_globals s 2 H2)
    as (_ & _ & I2 & S2).
  destruct (resize_truncates_and_recomputes Scope.app_globals s 0 H0)
    as (_ & _ & I0 & S0).
  split; split; assumption.
Defined.

End SmoothingFacts.

(* ===================================================================== *)
(** * The peak tracker *)
(* ===================================================================== *)

Module PeakFacts.
Import Py App.

Lemma maximum_snoc (l : list Z) (c : Z) :
  maximum (l ++ [c]) = Z.max (maximum l) c.
Proof.
  unfold maximum. induction l as [|x l IH]; simpl; [lia|]. rewrite IH. lia.
Qed.

Lemma maximum_nonneg (l : list Z) : 0 <= maximum l.
Proof. unfold maximum. induction l; simpl; lia. Qed.

Lemma maximum_upper (l : list Z) (c : Z) : In c l -> c <= maximum l.
Proof.
  unfold maximum. induction l as [|x l IH]; simpl; [tauto|].
  intros [E|H]; [lia | specialize (IH H); lia].
Qed.

Lemma min_positive_snoc (l : list Z) (c : Z) :
  min_positive (l ++ [c]) =
  if c >? 0 then
    match min_positive l with
    | Inf => Int c
    | Int m => Int (Z.min m c)
    end
  else min_positive l.
Proof.
  induction l as [|x l IH]; simpl.
  - destruct (c >? 0); reflexivity.
  - rewrite IH.
    destruct (x >? 0), (c >? 0); try reflexivity;
      destruct (min_positive l); try reflexivity; f_equal; lia.
Qed.

Lemma min_positive_lower (l : list Z) (c : Z) :
  In c l -> 0 < c -> exists m, min_positive l = Int m /\ m <= c.
Proof.
  induction l as [|x l IH]; simpl; [tauto|].
  intros [E|H] Hc.
  - subst x. destruct (Z.gtb_spec c 0); [|lia].
    destruct (min_positive l) as [m|]; eexists; split; try reflexivity; lia.
  - destruct (IH H Hc) as (m & Hm & Hle). rewrite Hm.
    destruct (x >? 0); eexists; split; try reflexivity; lia.
Qed.

Lemma first_time_snoc (c c' t' : Z) (obs : list (Z * Z)) :
  first_time c (obs ++ [(c', t')]) =
  match first_time c obs with
  | Some t0 => Some t0
  | None => if c' =? c then Some t' else None
  end.
Proof.
  induction obs as [|[c0 t0] obs IH]; simpl; [reflexivity|].
  destruct (c0 =? c); [reflexivity | exact IH].
Qed.

Lemma first_time_in (c : Z) (obs : list (Z * Z)) (t0 : Z) :
  first_time c obs = Some t0 -> In c (map fst obs).
Proof.
  induction obs as [|[c0 t1] obs IH]; simpl; [discriminate|].
  destruct (Z.eqb_spec c0 c); [left; assumption | right; auto].
Qed.

Lemma first_time_absent (c : Z) (obs : list (Z * Z)) :
  ~ In c (map fst obs) -> first_time c obs = None.
Proof.
  intro H. destruct (first_time c obs) eqn:E; [|reflexivity].
  exfalso. apply H. eapply first_time_in. exact E.
Qed.

Lemma tracked_reset (s : t) : tracked [] (reset_peaks s).
Proof. unfold tracked. simpl. auto. Qed.

(** The four fields after one observation. *)
Lemma observe_fields (s : t) (c time_ms : Z) :
  let s' := observe s (c, time_ms) in
  peak_count s' = (if c >? peak_count s then c else peak_count s)
  /\ peak_time_ms s' = (if c >? peak_count s then time_ms else peak_time_ms s)
  /\ offpeak_count s' =
     (if (c >? 0) && lt_number c (offpeak_count s) then Int c else offpeak_count s)
  /\ offpeak_time_ms s' =
     (if (c >? 0) && lt_number c (offpeak_count s) then time_ms
      else offpeak_time_ms s).
Proof.
  unfold observe, track_peaks. simpl.
  destruct (c >? peak_count s); simpl;
    destruct ((c >? 0) && lt_number c (offpeak_count s)); simpl; auto.
Qed.

Lemma tracked_observe (obs : list (Z * Z)) (s : t) (o : Z * Z) :
  tracked obs s -> tracked (obs ++ [o]) (observe s o).
Proof.
  destruct o as [c time_ms].
  unfold tracked. cbv zeta. rewrite map_app. simpl map.
  rewrite maximum_snoc, min_positive_snoc.
  intros (Hp & Hpt & Ho & Hot).
  pose proof (maximum_nonneg (map fst obs)) as Hnn.
  destruct (observe_fields s c time_ms) as (F1 & F2 & F3 & F4).
  rewrite F1, F2, F3, F4, Hp, Ho. clear F1 F2 F3 F4.
  rewrite !first_time_snoc.
  split; [|split; [|split]].
  - destruct (Z.gtb_spec c (maximum (map fst obs))); lia.
  - destruct (Z.gtb_spec c (maximum (map fst obs))) as [G|G].
    + replace (Z.max (maximum (map fst obs)) c) with c by lia.
      destruct (Z.ltb_spec 0 c) as [P|P]; [|lia].
      rewrite first_time_absent, Z.eqb_refl; [reflexivity|].
      intro Hin. apply maximum_upper in Hin. lia.
    + replace (Z.max (maximum (map fst obs)) c) with (maximum (map fst obs)) by lia.
      destruct (Z.ltb_spec 0 (maximum (map fst obs))) as [P|P];
        [rewrite Hpt; reflexivity | exact Hpt].
  - destruct (c >? 0); cbn [andb]; [|reflexivity].
    destruct (min_positive (map fst obs)) as [m|]; cbn [lt_number]; [|reflexivity].
    destruct (Z.ltb_spec c m); f_equal; lia.
  - destruct (Z.gtb_spec c 0) as [P|P]; cbn [andb].
    + destruct (min_positive (map fst obs)) as [m|] eqn:Em; cbn [lt_number].
      * destruct (Z.ltb_spec c m) as [L|L].
        -- replace (Z.min m c) with c by lia.
           rewrite first_time_snoc, first_time_absent, Z.eqb_refl; [reflexivity|].
           intro Hin. destruct (min_positive_lower _ _ Hin) as (m' & Hm' & Hle);
             [lia|]. rewrite Em in Hm'. injection Hm' as <-. lia.
        -- replace (Z.min m c) with m by lia.
           rewrite first_time_snoc, Hot. reflexivity.
      * rewrite first_time_snoc, first_time_absent, Z.eqb_refl; [reflexivity|].
        intro Hin. destruct (min_positive_lower _ _ Hin) as (m' & Hm' & _);
          [lia|]. rewrite Em in Hm'. discriminate.
    + destruct (min_positive (map fst obs)) as [m|];
        [rewrite first_time_snoc, Hot; reflexivity | exact Hot].
Qed.

Lemma tracked_fold (obs done : list (Z * Z)) (s : t) :
  tracked done s -> tracked (done ++ obs) (fold_left observe obs s).
Proof.
  revert done s. induction obs as [|o obs IH]; intros done s H.
  - rewrite app_nil_r. exact H.
  - simpl. replace (done ++ o :: obs) with ((done ++ [o]) ++ obs)
      by (rewrite <- app_assoc; reflexivity).
    apply IH. apply tracked_observe. exact H.
Qed.

(** C4, against the claim: one observation of the count 0 at 500 ms.  The
    maximum observed is 0, first attained at 500 ms, and [peak_time_ms] is
    still the 0 of the reset. *)
Lemma peak_time_stays_at_reset_for_zero_counts :
  let obs := [(0, 500)] in
  let s := fold_left observe obs (reset_peaks init) in
  peak_count s = maximum (map fst obs)
  /\ first_time (peak_count s) obs = Some 500
  /\ peak_time_ms s <> 500.
Proof. repeat split. simpl. discriminate. Qed.

(** C4, as the code has it: after the observations [obs] since a reset,
    [peak_count] is the largest count observed (0 when there is none) and
    [offpeak_count] the smallest strictly positive one, [float('inf')]
    when there is none; [peak_time_ms] is the time of the first observation
    of the peak when the peak is positive and the 0 of the reset otherwise,
    and [offpeak_time_ms] is the time of the first observation of the
    off-peak count, the 0 of the reset while there is none. *)
Theorem peaks_after_observations (s : t) (obs : list (Z * Z)) :
  let s' := fold_left observe obs (reset_peaks s) in
  let counts := map fst obs in
  peak_count s' = maximum counts
  /\ (if 0 <? maximum counts
      then first_time (maximum counts) obs = Some (peak_time_ms s')
      else peak_time_ms s' = 0)
  /\ offpeak_count s' = min_positive counts
  /\ match min_positive counts with
     | Int m => first_time m obs = Some (offpeak_time_ms s')
     | Inf => offpeak_time_ms s' = 0
     end.
Proof.
  exact (tracked_fold obs [] (reset_peaks s) (tracked_reset s)).
Qed.

(** The reference notions say what they should: [maximum] bounds every
    count and is one of them or 0; [min_positive] bounds every positive
    count from below, is one of them, and is [Inf] only when there is
    none. *)
Lemma maximum_is_greatest (l : list Z) :
  (forall c, In c l -> c <= maximum l)
  /\ (In (maximum l) l \/ maximum l = 0).
Proof.
  split; [intros c H; apply maximum_upper; exact H|].
  unfold maximum. induction l as [|x l IH]; simpl; [right; reflexivity|].
  destruct IH as [H|H].
  - destruct (Z.max_spec x (fold_right Z.max 0 l)) as [[_ E]|[_ E]]; rewrite E; auto.
  - rewrite H. destruct (Z.max_spec x 0) as [[_ E]|[_ E]]; rewrite E; auto.
Qed.

Lemma min_positive_is_least (l : list Z) :
  match min_positive l with
  | Int m => 0 < m /\ In m l /\ (forall c, In c l -> 0 < c -> m <= c)
  | Inf => forall c, In c l -> c <= 0
  end.
Proof.
  induction l as [|x l IH]; simpl; [tauto|].
  destruct (Z.gtb_spec x 0) as [P|P]; destruct (min_positive l) as [m|].
  - destruct IH as (Hm & Hin & Hle). split; [lia|]. split.
    + destruct (Z.min_spec x m) as [[_ E]|[_ E]]; rewrite E; auto.
    + intros c [E|H] Hc; [lia | specialize (Hle c H Hc); lia].
  - split; [lia|]. split; [auto|].
    intros c [E|H] Hc; [lia | specialize (IH c H); lia].
  - destruct IH as (Hm & Hin & Hle). split; [exact Hm|]. split; [auto|].
    intros c [E|H] Hc; [lia | auto].
  - intros c [E|H]; [lia | auto].
Qed.

(** The end of [display_detection_results] is one observation of the
    smoothed count at the current video time. *)
Lemma display_observes (G : Scope.namespace) (x : Z) (s s' : t) :
  display_detection_results G true x s = (Ok tt, s') ->
  exists s1, s' = observe s1 (smoothed_people_count s1, video_time_ms s1).
Proof.
  unfold display_detection_results, bind, get, modify, ret. simpl.
  match goal with
  | |- (let (_, _) := ?m in _) = _ -> _ => destruct m as [[[]|e] s1]
  end; [|discriminate].
  intro H. injection H as H. subst s'. exists s1.
  unfold observe. f_equal. destruct s1; reflexivity.
Qed.

End PeakFacts.

(* ===================================================================== *)
(** * The heat-map accumulators *)
(* ===================================================================== *)

Module HeatmapFacts.
Import Py Heatmap.
Local Open Scope Q_scope.

(** ** Order facts on the float operations *)

Lemma Qltb_true (a b : Q) : Qltb a b = true -> a < b.
Proof.
  unfold Qltb. intro H. apply Qnot_le_lt. intro L.
  apply Qle_bool_iff in L. rewrite L in H. discriminate.
Qed.

Lemma Qltb_false (a b : Q) : Qltb a b = false -> b <= a.
Proof.
  unfold Qltb. intro H. apply Qle_bool_iff.
  destruct (Qle_bool b a); [reflexivity | discriminate].
Qed.

Lemma max_ge_l (a b : Q) : a <= max a b.
Proof.
  unfold max. destruct (Qltb a b) eqn:E; [|apply Qle_refl].
  apply Qlt_le_weak, Qltb_true, E.
Qed.

Lemma max_ge_r (a b : Q) : b <= max a b.
Proof.
  unfold max. destruct (Qltb a b) eqn:E; [apply Qle_refl|].
  apply Qltb_false, E.
Qed.

Lemma fold_max_ge (l : list Q) (x : Q) :
  x <= fold_left max l x /\ Forall (fun y => y <= fold_left max l x) l.
Proof.
  revert x. induction l as [|y l IH]; intro x; simpl.
  - split; [apply Qle_refl | constructor].
  - destruct (IH (max x y)) as [H1 H2]. split; [|constructor].
    + eapply Qle_trans; [apply max_ge_l | exact H1].
    + eapply Qle_trans; [apply max_ge_r | exact H1].
    + exact H2.
Qed.

Lemma np_max_upper (a : ndarray) (m : Q) :
  np_max a = Ok m -> Forall (fun y => y <= m) (data a).
Proof.
  unfold np_max. destruct (data a) as [|x l]; [discriminate|].
  intro H. injection H as <-.
  destruct (fold_max_ge l x) as [H1 H2]. constructor; assumption.
Qed.

Lemma np_max_nonempty (a : ndarray) :
  data a <> [] -> exists m, np_max a = Ok m.
Proof.
  unfold np_max. destruct (data a); [congruence | eexists; reflexivity].
Qed.

(** The last two statements on the live accumulator: divide by the
    maximum when it is above 1, then clamp below at 0. *)
Lemma cap_and_clamp_bounded (a : ndarray) (m : Q) :
  np_max a = Ok m ->
  bounded (np_maximum (if Qltb 1 m then divide a m else a) 0).
Proof.
  intro Hm. pose proof (np_max_upper a m Hm) as Hup.
  unfold bounded, np_maximum, divide, cells.
  destruct (Qltb 1 m) eqn:E; simpl.
  - apply Qltb_true in E.
    assert (Hpos : 0 < m) by (eapply Qlt_trans; [|exact E]; reflexivity).
    rewrite map_map. apply Forall_map.
    eapply Forall_impl; [|exact Hup]. intros x Hx. simpl.
    assert (Hd : x / m <= 1).
    { apply Qle_shift_div_r; [exact Hpos|]. rewrite Qmult_1_l. exact Hx. }
    unfold max. destruct (Qltb (x / m) 0) eqn:F.
    + split; [apply Qle_refl | discriminate].
    + split; [apply Qltb_false, F | exact Hd].
  - apply Qltb_false in E.
    apply Forall_map.
    eapply Forall_impl; [|exact Hup]. intros x Hx. simpl.
    unfold max. destruct (Qltb x 0) eqn:F.
    + split; [apply Qle_refl | discriminate].
    + split; [apply Qltb_false, F | apply (Qle_trans _ m); assumption].
Qed.

(** ** Shapes *)

Lemma has_shape_zeros (h w : Z) : (0 <= h * w)%Z -> has_shape h w (np_zeros h w).
Proof.
  intro H. unfold has_shape, np_zeros. simpl. rewrite repeat_length. auto.
Qed.

Lemma all_zero_zeros (h w : Z) : all_zero (np_zeros h w).
Proof.
  unfold all_zero, np_zeros. simpl. apply Forall_forall.
  intros x Hx. apply repeat_spec in Hx. exact Hx.
Qed.

Lemma has_shape_cells (h w : Z) (f : Q -> Q) (a : ndarray) :
  has_shape h w a -> has_shape h w (cells f a).
Proof.
  unfold has_shape, cells. simpl. rewrite length_map. auto.
Qed.

Lemma update_nth_length (i : nat) (v : Q) (l : list Q) :
  List.length (update_nth i v l) = List.length l.
Proof.
  revert i. induction l as [|c l IH]; intros [|j]; simpl; auto.
Qed.

Lemma has_shape_set_cell (h w : Z) (a : ndarray) (y x : Z) (v : Q) :
  has_shape h w a -> has_shape h w (set_cell a y x v).
Proof.
  unfold has_shape, set_cell. simpl. rewrite update_nth_length. auto.
Qed.

Lemma fold_left_invariant {A B} (P : A -> Prop) (f : A -> B -> A) (l : list B) (a : A) :
  (forall a b, P a -> P (f a b)) -> P a -> P (fold_left f l a).
Proof.
  intro Hf. revert a. induction l as [|b l IH]; intros a Ha; simpl; auto.
Qed.

Lemma zip_add_length (l1 l2 : list Q) :
  List.length (zip_add l1 l2) = Nat.min (List.length l1) (List.length l2).
Proof.
  revert l2. induction l1 as [|x l1 IH]; intros [|y l2]; simpl; auto.
Qed.

Lemma iadd_same_shape (h w : Z) (a b : ndarray) :
  has_shape h w a -> has_shape h w b ->
  exists c, iadd a b = Ok c /\ has_shape h w c
            /\ data c = zip_add (data a) (data b).
Proof.
  intros (Ha1 & Ha2 & Ha3) (Hb1 & Hb2 & Hb3).
  unfold iadd, same_shape. rewrite Ha1, Ha2, Hb1, Hb2, !Z.eqb_refl. simpl.
  eexists. split; [reflexivity|]. split; [|reflexivity].
  unfold has_shape. simpl. rewrite zip_add_length, Ha3, Hb3.
  rewrite Nat.min_id. auto.
Qed.

Lemma has_shape_nonempty (h w : Z) (a : ndarray) :
  (0 < h)%Z -> (0 < w)%Z -> has_shape h w a -> data a <> [].
Proof.
  intros Hh Hw (_ & _ & H) E. rewrite E in H. simpl in H. nia.
Qed.

Lemma has_shape_blur (blur : ndarray -> Z -> ndarray) (h w k : Z) (a : ndarray) :
  keeps_shape blur -> has_shape h w a -> has_shape h w (blur a k).
Proof.
  intros Hb (H1 & H2 & H3). destruct (Hb a k) as (B1 & B2 & B3).
  unfold has_shape. rewrite B1, B2, B3. auto.
Qed.

Section External.

Variable np_sqrt : Z -> Q.
Variable GaussianBlur : ndarray -> Z -> ndarray.
Variable resize : ndarray -> Z -> Z -> ndarray.
Hypothesis blur_keeps_shape : keeps_shape GaussianBlur.

Lemma splat_cell_shape (h w fx fy r : Z) (cur : ndarray) (y x : Z) :
  has_shape h w cur -> has_shape h w (splat_cell np_sqrt fx fy r cur y x).
Proof.
  intro H. unfold splat_cell.
  destruct ((x =? fx)%Z && (y =? fy)%Z); [exact H|].
  destruct (_ <=? _)%Z; [apply has_shape_set_cell|]; exact H.
Qed.

Lemma splat_box_shape (sf : Q) (r h w : Z) (cur : ndarray) (b : box) :
  has_shape h w cur -> has_shape h w (splat_box np_sqrt sf r h w cur b).
Proof.
  intro H. destruct b as [[[x1 y1] x2] y2]. unfold splat_box.
  apply fold_left_invariant.
  - intros a y Ha. apply fold_left_invariant; [|exact Ha].
    intros a' x Ha'. apply splat_cell_shape. exact Ha'.
  - apply has_shape_set_cell. exact H.
Qed.

Lemma blur_and_normalize_ok (h w : Z) (cur : ndarray) :
  (0 < h)%Z -> (0 < w)%Z -> has_shape h w cur ->
  exists out, blur_and_normalize GaussianBlur cur = Ok out /\ has_shape h w out.
Proof.
  intros Hh Hw H. unfold blur_and_normalize.
  assert (Hb : has_shape h w
                 (GaussianBlur (GaussianBlur (GaussianBlur cur 7) 17) 31))
    by (repeat apply has_shape_blur; assumption).
  destruct (np_max_nonempty _ (has_shape_nonempty h w _ Hh Hw Hb)) as [m Hm].
  rewrite Hm.
  destruct (Qltb 0 m); eexists; (split; [reflexivity|]);
    apply has_shape_cells; exact Hb.
Qed.

Lemma current_heatmap_ok (s : t) (h w : Z) (bs : list box) :
  (0 < h)%Z -> (0 < w)%Z ->
  exists cur,
    current_heatmap np_sqrt GaussianBlur s h w bs = Ok cur /\ has_shape h w cur.
Proof.
  intros Hh Hw. unfold current_heatmap.
  assert (Hs : has_shape h w
                 (fold_left (splat_box np_sqrt (heatmap_scale_factor s)
                               (heatmap_neighbor_radius s) h w)
                            bs (np_zeros h w))).
  { apply fold_left_invariant.
    - intros a b Ha. apply splat_box_shape. exact Ha.
    - apply has_shape_zeros. nia. }
  destruct (negb (len bs =? 0)%Z).
  - apply blur_and_normalize_ok; assumption.
  - eexists. split; [reflexivity | exact Hs].
Qed.

(** [accumulate] on two allocated accumulators of the shape of the frame
    ends normally; the live accumulator it leaves is bounded, and the
    aggregate counter has grown by one exactly when there were boxes. *)
Lemma accumulate_spec (s : t) (lh lw h w : Z) (bs : list box) (a g : ndarray) :
  (0 < lh)%Z -> (0 < lw)%Z ->
  heatmap_accumulator s = Some a ->
  aggregate_heatmap_accumulator s = Some g ->
  has_shape lh lw a -> has_shape lh lw g ->
  exists out s' a' g',
    accumulate np_sqrt GaussianBlur resize lh lw h w bs s = (Ok (Some out), s')
    /\ heatmap_accumulator s' = Some a'
    /\ aggregate_heatmap_accumulator s' = Some g'
    /\ has_shape lh lw a' /\ has_shape lh lw g'
    /\ bounded a'
    /\ aggregate_frame_count s' =
       (aggregate_frame_count s + if (len bs =? 0)%Z then 0 else 1)%Z.
Proof.
  intros Hh Hw Ea Eg Ha Hg.
  destruct (current_heatmap_ok s lh lw bs Hh Hw) as (cur & Ecur & Hcur).
  destruct (iadd_same_shape lh lw (scale a (heatmap_decay s))
              (scale cur (heatmap_intensity s)))
    as (acc & Eacc & Hacc & _);
    [apply has_shape_cells; exact Ha | apply has_shape_cells; exact Hcur |].
  destruct (np_max_nonempty _ (has_shape_nonempty lh lw _ Hh Hw Hacc)) as [m Em].
  destruct (iadd_same_shape lh lw g cur Hg Hcur) as (g1 & Eg1 & Hg1 & _).
  unfold accumulate, bind, get, modify, lift, ret.
  rewrite Ea, Eg. cbn [heatmap_accumulator set_heatmap_accumulator].
  rewrite Ecur, Eacc.
  set (final := np_maximum (if Qltb 1 m then divide acc m else acc) 0).
  assert (Hfinal : has_shape lh lw final).
  { apply has_shape_cells.
    destruct (Qltb 1 m); [apply has_shape_cells|]; exact Hacc. }
  assert (Bfinal : bounded final) by (apply cap_and_clamp_bounded; exact Em).
  destruct (len bs =? 0)%Z; cbn [negb].
  - rewrite Em. exists (resize final w h). eexists. exists final, g.
    split; [reflexivity|]. simpl.
    split; [reflexivity|]. split; [exact Eg|].
    split; [exact Hfinal|]. split; [exact Hg|]. split; [exact Bfinal|]. lia.
  - rewrite Eg1, Em. exists (resize final w h). eexists. exists final, g1.
    split; [reflexivity|]. simpl.
    split; [reflexivity|]. split; [reflexivity|].
    split; [exact Hfinal|]. split; [exact Hg1|]. split; [exact Bfinal|].
    reflexivity.
Qed.

Lemma zeros_bounded (h w : Z) : bounded (np_zeros h w).
Proof.
  apply Forall_forall. intros x Hx. apply repeat_spec in Hx.
  subst x. split; discriminate.
Qed.

Lemma reallocate_allocated (s : t) (lh lw : Z) :
  (0 < lh)%Z -> (0 < lw)%Z -> allocated s ->
  exists a g,
    heatmap_accumulator (reallocate lh lw s) = Some a
    /\ aggregate_heatmap_accumulator (reallocate lh lw s) = Some g
    /\ has_shape lh lw a /\ has_shape lh lw g
    /\ (live_bounded s -> bounded a).
Proof.
  intros Hh Hw.
  assert (Hz : has_shape lh lw (np_zeros lh lw)) by (apply has_shape_zeros; nia).
  destruct s as [acc agg n d i sf r].
  unfold allocated, reallocate, live_bounded. simpl.
  destruct acc as [a|]; destruct agg as [g|]; try tauto; simpl.
  - intros (h0 & w0 & _ & _ & (A1 & A2 & A3) & (G1 & G2 & G3)).
    destruct (Z.eqb_spec (nrows a) lh) as [E1|E1];
      destruct (Z.eqb_spec (ncols a) lw) as [E2|E2]; simpl;
      try (exists (np_zeros lh lw), (np_zeros lh lw);
           repeat split; try reflexivity; try apply Hz;
           intros _; apply zeros_bounded).
    exists a, g. subst h0 w0 lh lw.
    repeat split; auto.
  - intros _. exists (np_zeros lh lw), (np_zeros lh lw).
    repeat split; try reflexivity; try apply Hz.
    intros _. apply zeros_bounded.
Qed.

(** [update_heatmap] as a function of the state. *)
Lemma update_heatmap_unfold (s : t) (fr : option (Z * Z)) (bs : list box) :
  update_heatmap np_sqrt GaussianBlur resize fr bs s =
  match fr with
  | None => (Ok None, s)
  | Some (h, w) =>
      if (fst (low_dims h w (heatmap_scale_factor s)) <=? 0)%Z
         || (snd (low_dims h w (heatmap_scale_factor s)) <=? 0)%Z
      then (Ok None, s)
      else accumulate np_sqrt GaussianBlur resize
             (fst (low_dims h w (heatmap_scale_factor s)))
             (snd (low_dims h w (heatmap_scale_factor s))) h w bs
             (reallocate (fst (low_dims h w (heatmap_scale_factor s)))
                         (snd (low_dims h w (heatmap_scale_factor s))) s)
  end.
Proof.
  unfold update_heatmap. destruct fr as [[h w]|]; [|reflexivity].
  unfold bind at 1. unfold get at 1.
  destruct (low_dims h w (heatmap_scale_factor s)) as [lh lw]. simpl fst. simpl snd.
  destruct ((lh <=? 0)%Z || (lw <=? 0)%Z); reflexivity.
Qed.

(** One call from a state with allocated accumulators: it ends normally,
    the accumulators stay allocated and the live one is bounded. *)
Lemma update_heatmap_spec (s : t) (fr : option (Z * Z)) (bs : list box) :
  allocated s -> live_bounded s ->
  (exists out, fst (update_heatmap np_sqrt GaussianBlur resize fr bs s) = Ok out)
  /\ allocated (snd (update_heatmap np_sqrt GaussianBlur resize fr bs s))
  /\ live_bounded (snd (update_heatmap np_sqrt GaussianBlur resize fr bs s)).
Proof.
  intros Hal Hb. rewrite update_heatmap_unfold.
  assert (Hnoop : (exists out : option ndarray,
                     fst (@Ok (option ndarray) None, s) = Ok out)
                  /\ allocated (snd (@Ok (option ndarray) None, s))
                  /\ live_bounded (snd (@Ok (option ndarray) None, s))).
  { simpl. split; [eexists; reflexivity | split; assumption]. }
  destruct fr as [[h w]|]; [|exact Hnoop].
  destruct (low_dims h w (heatmap_scale_factor s)) as [lh lw]. simpl fst. simpl snd.
  destruct (Z.leb_spec lh 0) as [Lh|Lh]; [exact Hnoop|].
  destruct (Z.leb_spec lw 0) as [Lw|Lw]; [exact Hnoop|].
  cbn [orb].
  destruct (reallocate_allocated s lh lw Lh Lw Hal) as (a & g & Ea & Eg & Ha & Hg & _).
  destruct (accumulate_spec (reallocate lh lw s) lh lw h w bs a g Lh Lw Ea Eg Ha Hg)
    as (out & s' & a' & g' & Er & Ea' & Eg' & Ha' & Hg' & Ba' & _).
  rewrite Er. simpl. split; [eauto|]. split.
  - unfold allocated. rewrite Ea', Eg'. exists lh, lw. auto.
  - unfold live_bounded. rewrite Ea'. exact Ba'.
Qed.

Lemma step_spec (s : t) (c : call) :
  allocated s -> live_bounded s ->
  allocated (step np_sqrt GaussianBlur resize s c)
  /\ live_bounded (step np_sqrt GaussianBlur resize s c).
Proof.
  intros Hal Hb. unfold step.
  apply update_heatmap_spec; assumption.
Qed.

(** C5: from accumulators that are not yet allocated, after each call of
    any sequence of calls, with any boxes, frame sizes and parameter
    values, every cell of the live accumulator lies between 0 and 1. *)
Theorem live_accumulator_stays_in_unit_interval (s : t) (cs : list call) :
  heatmap_accumulator s = None ->
  aggregate_heatmap_accumulator s = None ->
  Forall live_bounded (trace np_sqrt GaussianBlur resize s cs).
Proof.
  intros Ea Eg.
  assert (Hal : allocated s) by (unfold allocated; rewrite Ea, Eg; exact I).
  assert (Hb : live_bounded s) by (unfold live_bounded; rewrite Ea; exact I).
  clear Ea Eg. revert s Hal Hb.
  induction cs as [|c cs IH]; intros s Hal Hb; simpl; [constructor|].
  destruct (step_spec s c Hal Hb) as [Hal' Hb'].
  constructor; [exact Hb' | apply IH; assumption].
Qed.

(** ** A change of resolution *)

Lemma reallocate_changed (s : t) (a : ndarray) (lh lw : Z) :
  heatmap_accumulator s = Some a ->
  (nrows a, ncols a) <> (lh, lw) ->
  reallocate lh lw s = zeroed lh lw s.
Proof.
  destruct s as [acc agg n d i sf r]. simpl. intros -> Hne.
  unfold reallocate, zeroed. simpl.
  destruct (Z.eqb_spec (nrows a) lh) as [E1|E1];
    destruct (Z.eqb_spec (ncols a) lw) as [E2|E2];
    destruct agg; simpl; try reflexivity;
    exfalso; apply Hne; congruence.
Qed.

Lemma reallocate_reset (s : t) (lh lw : Z) :
  reallocate lh lw (reset s) = zeroed lh lw s.
Proof. destruct s. reflexivity. Qed.

Lemma set_parameters_reset (d i sf : Q) (r : Z) (s : t) :
  set_parameters d i sf r (reset s) = reset (set_parameters d i sf r s).
Proof. destruct s. reflexivity. Qed.

(** A call on a frame whose low-resolution size is positive leaves two
    accumulators of that size. *)
Lemma step_shape (s : t) (c : call) (h w : Z) :
  allocated s ->
  frame c = Some (h, w) ->
  (0 < fst (low_dims h w (scale_factor c)))%Z ->
  (0 < snd (low_dims h w (scale_factor c)))%Z ->
  exists a g,
    heatmap_accumulator (step np_sqrt GaussianBlur resize s c) = Some a
    /\ aggregate_heatmap_accumulator (step np_sqrt GaussianBlur resize s c) = Some g
    /\ has_shape (fst (low_dims h w (scale_factor c)))
                 (snd (low_dims h w (scale_factor c))) a
    /\ has_shape (fst (low_dims h w (scale_factor c)))
                 (snd (low_dims h w (scale_factor c))) g.
Proof.
  intros Hal Hf Lh Lw. unfold step. rewrite update_heatmap_unfold, Hf.
  set (s' := set_parameters (decay c) (intensity c) (scale_factor c) (radius c) s).
  assert (Hsf : heatmap_scale_factor s' = scale_factor c) by reflexivity.
  rewrite Hsf.
  destruct (low_dims h w (scale_factor c)) as [lh lw]. simpl fst in *. simpl snd in *.
  destruct (Z.leb_spec lh 0); [lia|]. destruct (Z.leb_spec lw 0); [lia|]. cbn [orb].
  assert (Hal' : allocated s') by (destruct s; exact Hal).
  destruct (reallocate_allocated s' lh lw Lh Lw Hal') as (a & g & Ea & Eg & Ha & Hg & _).
  destruct (accumulate_spec (reallocate lh lw s') lh lw h w (boxes c) a g
              Lh Lw Ea Eg Ha Hg)
    as (out & s2 & a' & g' & Er & Ea' & Eg' & Ha' & Hg' & _).
  rewrite Er. simpl. exists a', g'. auto.
Qed.

(** C6: two consecutive calls on frames whose low-resolution sizes are
    positive and differ.  At the second call the allocation step replaces
    both accumulators by zero grids of the new size and sets the aggregate
    counter to 0, and the call then accumulates on those: it ends as it
    would have from accumulators that were never allocated, with two
    accumulators of the new size and a counter of 0 or 1. *)
Theorem resolution_change_resets (s0 : t) (c1 c2 : call) (h1 w1 h2 w2 : Z) :
  allocated s0 ->
  frame c1 = Some (h1, w1) ->
  frame c2 = Some (h2, w2) ->
  (0 < fst (low_dims h1 w1 (scale_factor c1)))%Z ->
  (0 < snd (low_dims h1 w1 (scale_factor c1)))%Z ->
  (0 < fst (low_dims h2 w2 (scale_factor c2)))%Z ->
  (0 < snd (low_dims h2 w2 (scale_factor c2)))%Z ->
  low_dims h1 w1 (scale_factor c1) <> low_dims h2 w2 (scale_factor c2) ->
  let lh := fst (low_dims h2 w2 (scale_factor c2)) in
  let lw := snd (low_dims h2 w2 (scale_factor c2)) in
  let s1 := step np_sqrt GaussianBlur resize s0 c1 in
  let s1' := set_parameters (decay c2) (intensity c2) (scale_factor c2) (radius c2) s1 in
  let s2 := step np_sqrt GaussianBlur resize s1 c2 in
  reallocate lh lw s1' = zeroed lh lw s1'
  /\ all_zero (np_zeros lh lw)
  /\ s2 = snd (accumulate np_sqrt GaussianBlur resize lh lw h2 w2 (boxes c2)
                          (zeroed lh lw s1'))
  /\ s2 = step np_sqrt GaussianBlur resize (reset s1) c2
  /\ aggregate_frame_count s2 = (if (len (boxes c2) =? 0)%Z then 0 else 1)%Z
  /\ exists a g,
       heatmap_accumulator s2 = Some a
       /\ aggregate_heatmap_accumulator s2 = Some g
       /\ has_shape lh lw a /\ has_shape lh lw g.
Proof.
  intros Hal Hf1 Hf2 L1h L1w L2h L2w Hne lh lw s1 s1' s2.
  destruct (step_shape s0 c1 h1 w1 Hal Hf1 L1h L1w) as (a & g & Ea & Eg & Ha & Hg).
  fold s1 in Ea, Eg.
  assert (Ea' : heatmap_accumulator s1' = Some a) by (rewrite <- Ea; reflexivity).
  assert (Hdiff : (nrows a, ncols a) <> (lh, lw)).
  { destruct Ha as (A1 & A2 & _). rewrite A1, A2. subst lh lw.
    rewrite <- !surjective_pairing. exact Hne. }
  assert (Hre : reallocate lh lw s1' = zeroed lh lw s1')
    by (eapply reallocate_changed; eassumption).
  assert (Hrun : s2 = snd (accumulate np_sqrt GaussianBlur resize lh lw h2 w2
                              (boxes c2) (zeroed lh lw s1'))).
  { subst s2. unfold step. fold s1'. rewrite update_heatmap_unfold, Hf2.
    assert (Hsf : heatmap_scale_factor s1' = scale_factor c2) by reflexivity.
    rewrite Hsf. fold lh lw.
    destruct (Z.leb_spec lh 0); [lia|]. destruct (Z.leb_spec lw 0); [lia|].
    cbn [orb]. rewrite Hre. reflexivity. }
  split; [exact Hre|]. split; [apply all_zero_zeros|]. split; [exact Hrun|].
  split; [|split].
  - rewrite Hrun. unfold step. rewrite set_parameters_reset. fold s1'.
    rewrite update_heatmap_unfold, Hf2.
    assert (Hsf : heatmap_scale_factor (reset s1') = scale_factor c2) by reflexivity.
    rewrite Hsf. fold lh lw.
    destruct (Z.leb_spec lh 0); [lia|]. destruct (Z.leb_spec lw 0); [lia|].
    cbn [orb]. rewrite reallocate_reset. reflexivity.
  - rewrite Hrun.
    destruct (accumulate_spec (zeroed lh lw s1') lh lw h2 w2 (boxes c2)
                (np_zeros lh lw) (np_zeros lh lw) L2h L2w eq_refl eq_refl)
      as (out & s3 & a' & g' & Er & _ & _ & _ & _ & _ & Hc);
      try (apply has_shape_zeros; nia).
    rewrite Er. simpl. rewrite Hc. reflexivity.
  - rewrite Hrun.
    destruct (accumulate_spec (zeroed lh lw s1') lh lw h2 w2 (boxes c2)
                (np_zeros lh lw) (np_zeros lh lw) L2h L2w eq_refl eq_refl)
      as (out & s3 & a' & g' & Er & Ea3 & Eg3 & Ha3 & Hg3 & _);
      try (apply has_shape_zeros; nia).
    rewrite Er. simpl. exists a', g'. auto.
Qed.

End External.

(** C5 on the three sample calls. *)
Lemma live_accumulator_stays_in_unit_interval_witness :
  Forall live_bounded
    (trace sample_sqrt sample_blur sample_resize init sample_calls).
Proof.
  apply live_accumulator_stays_in_unit_interval.
  - intros a k. unfold sample_blur. auto.
  - reflexivity.
  - reflexivity.
Defined.

(** What the first sample call leaves: the foot point falls in the cell of
    row 1 and column 0 of the 2 by 2 grid, which gets 3 and is divided by
    that maximum. *)
Example sample_live_accumulator :
  option_map (fun a => map Qred (data a))
    (heatmap_accumulator
       (step sample_sqrt sample_blur sample_resize init sample_call_1))
  = Some [0; 0; 1; 0].
Proof. vm_compute. reflexivity. Qed.

(** C6 on the first two sample calls: the low-resolution size goes from
    2 by 2 to 4 by 2. *)
Lemma resolution_change_resets_witness :
  let c1 := sample_call_1 in
  let c2 := sample_call_2 in
  let s1 := step sample_sqrt sample_blur sample_resize init c1 in
  let s2 := step sample_sqrt sample_blur sample_resize s1 c2 in
  option_map (fun a => (nrows a, ncols a)) (heatmap_accumulator s1) = Some (2, 2)%Z
  /\ s2 = step sample_sqrt sample_blur sample_resize (reset s1) c2
  /\ aggregate_frame_count s2 = 1%Z.
Proof.
  intros c1 c2 s1 s2.
  assert (Hb : keeps_shape sample_blur) by (intros a k; unfold sample_blur; auto).
  assert (Hal : allocated init) by exact I.
  assert (P1 : (0 < fst (low_dims 10 10 (scale_factor c1)))%Z) by reflexivity.
  assert (P2 : (0 < snd (low_dims 10 10 (scale_factor c1)))%Z) by reflexivity.
  assert (P3 : (0 < fst (low_dims 20 10 (scale_factor c2)))%Z) by reflexivity.
  assert (P4 : (0 < snd (low_dims 20 10 (scale_factor c2)))%Z) by reflexivity.
  assert (Hne : low_dims 10 10 (scale_factor c1) <> low_dims 20 10 (scale_factor c2))
    by (vm_compute; discriminate).
  destruct (resolution_change_resets sample_sqrt sample_blur sample_resize Hb
              init c1 c2 10 10 20 10 Hal eq_refl eq_refl P1 P2 P3 P4 Hne)
    as (_ & _ & _ & H4 & H5 & _).
  split; [vm_compute; reflexivity|]. split; [exact H4 | exact H5].
Defined.

End HeatmapFacts.

(* ===================================================================== *)
(** * The one-slot frame queue of the detection thread *)
(* ===================================================================== *)

Module WorkerFacts.
Import Worker.

Section WithFrames.

Variable Frame : Type.
Implicit Types (s : Worker.t Frame) (f : Frame).

Lemma invariant_init : invariant (@init Frame).
Proof. split; [simpl; lia | reflexivity]. Qed.

Lemma invariant_add_frame_test s (g : option Frame) :
  invariant s -> invariant (add_frame_test g s).
Proof.
  intro H. unfold add_frame_test.
  destruct g as [f|]; [|exact H].
  destruct (negb (processing s)); exact H.
Qed.

Lemma invariant_add_frame_store s : invariant s -> invariant (add_frame_store s).
Proof.
  intros [Hq Hpc]. unfold add_frame_store.
  destruct (pending s) as [f|]; [|split; assumption].
  split; [simpl; lia|]. simpl.
  destruct (at_pc s); try exact Hpc; (split; [apply Hpc | reflexivity]).
Qed.

Lemma invariant_add_frame s (g : option Frame) :
  invariant s -> invariant (add_frame g s).
Proof.
  intro H. apply invariant_add_frame_store, invariant_add_frame_test, H.
Qed.

Lemma invariant_worker_step s : invariant s -> invariant (worker_step s).
Proof.
  intro H. pose proof H as [Hq Hpc]. unfold worker_step.
  destruct (at_pc s) eqn:E.
  - exact H.
  - destruct (running s); split; simpl; assumption.
  - destruct ((0 <? Py.len (frame_queue s)) && model s) eqn:C.
    + split; simpl; [exact Hq|]. split; [exact Hpc|].
      apply andb_prop in C. destruct C as [C _].
      apply Z.ltb_lt in C. unfold Py.len in C. lia.
    + split; simpl; assumption.
  - split; simpl; [exact Hq|]. split; [reflexivity | apply Hpc].
  - destruct Hpc as [P L].
    destruct (frame_queue s) as [|f [|f' q]]; simpl in L; try discriminate.
    split; simpl; [lia | exact P].
  - split; simpl; [exact Hq | exact Hpc].
  - split; simpl; [exact Hq | reflexivity].
  - split; simpl; assumption.
  - exact H.
  - exact H.
Qed.

Lemma invariant_act s (a : action Frame) : invariant s -> invariant (act s a).
Proof.
  intro H. pose proof (invariant_add_frame_store s H) as H'.
  destruct a as [loaded | g | | | | ]; simpl.
  - destruct (at_pc (add_frame_store s)) eqn:E; try exact H';
      destruct H' as [Hq Hpc]; rewrite E in Hpc;
      (split; simpl; [exact Hq | exact Hpc || destruct Hpc]).
  - apply invariant_add_frame_test. exact H'.
  - exact H'.
  - exact H'.
  - exact H'.
  - apply invariant_worker_step. exact H.
Qed.

Lemma invariant_exec (sched : list (action Frame)) s :
  invariant s -> invariant (exec s sched).
Proof.
  revert s. induction sched as [|a sched IH]; intros s H; [exact H|].
  simpl. apply IH. apply invariant_act. exact H.
Qed.

Lemma reachable_invariant s : reachable s -> invariant s.
Proof.
  intros [sched ->]. apply invariant_exec. apply invariant_init.
Qed.

(** A frame offered while the flag is set changes nothing. *)
Lemma add_frame_while_processing s (g : option Frame) :
  processing s = true -> pending s = None -> add_frame g s = s.
Proof.
  intros P N. unfold add_frame, add_frame_test, add_frame_store.
  destruct g; rewrite ?P; simpl; rewrite N; reflexivity.
Qed.

Lemma add_frames_while_processing (gs : list (option Frame)) s :
  processing s = true -> pending s = None -> add_frames gs s = s.
Proof.
  intros P N. unfold add_frames. induction gs as [|g gs IH]; [reflexivity|].
  simpl. rewrite add_frame_while_processing; assumption.
Qed.

Lemma submit_while_processing (gs : list (option Frame)) s :
  processing s = true -> pending s = None -> exec s (submit gs) = s.
Proof.
  intros P N. induction gs as [|g gs IH]; [reflexivity|].
  unfold submit, exec in *. cbn [flat_map app fold_left act].
  assert (E : add_frame_store s = s) by (unfold add_frame_store; rewrite N; reflexivity).
  rewrite E.
  assert (E' : add_frame_test g s = s)
    by (unfold add_frame_test; destruct g; rewrite ?P; reflexivity).
  rewrite E', E. exact IH.
Qed.

Lemma polling_step s :
  polling s -> polling (worker_step s) /\ processed (worker_step s) = processed s.
Proof.
  intros (Q & P & [E|[E|[E|E]]]); unfold worker_step, polling; rewrite E.
  - destruct (running s); simpl; auto 10.
  - rewrite Q. simpl. auto 10.
  - simpl. auto 10.
  - rewrite E. auto 10.
Qed.

Lemma polling_steps (n : nat) s :
  polling s ->
  polling (worker_steps n s) /\ processed (worker_steps n s) = processed s.
Proof.
  revert s. induction n as [|n IH]; intros s H; [split; [exact H | reflexivity]|].
  simpl. destruct (polling_step s H) as [H' E].
  destruct (IH _ H') as [I1 I2]. split; [exact I1 | congruence].
Qed.

Lemma worker_steps_add (n m : nat) s :
  worker_steps (n + m) s = worker_steps m (worker_steps n s).
Proof.
  revert s. induction n as [|n IH]; intro s; [reflexivity|]. simpl. apply IH.
Qed.

(** Once [k] steps have led to polling with the frames [ps] processed,
    every later step finds the same. *)
Lemma settled_after (k : nat) s (ps : list Frame) :
  polling (worker_steps k s) ->
  processed (worker_steps k s) = ps ->
  forall n, (k <= n)%nat ->
    polling (worker_steps n s) /\ processed (worker_steps n s) = ps.
Proof.
  intros Hp He n Hn. replace n with (k + (n - k))%nat by lia.
  rewrite worker_steps_add.
  destruct (polling_steps (n - k) _ Hp) as [I1 I2]. split; [exact I1 | congruence].
Qed.

(** C8, as the code has it: the queue never holds more than one frame; a frame
    offered while the loop is running outside a detection pass replaces
    what is pending; and three frames offered in a row there, with a
    model loaded, lead to one detection pass, on the third.  (Inside a
    pass the frames are dropped instead.) *)
Theorem latest_frame_wins s (F1 F2 F3 : Frame) :
  reachable s ->
  idle s ->
  model s = true ->
  let s3 := exec s (submit [Some F1; Some F2; Some F3]) in
  (forall sched, (List.length (frame_queue (exec s sched)) <= 1)%nat)
  /\ frame_queue (exec s (submit [Some F1])) = [F1]
  /\ frame_queue (exec s (submit [Some F1; Some F2])) = [F2]
  /\ frame_queue s3 = [F3]
  /\ (forall n, processed (worker_steps n s3) = processed s
                \/ processed (worker_steps n s3) = processed s ++ [F3])
  /\ (forall n, (6 <= n)%nat -> processed (worker_steps n s3) = processed s ++ [F3])
  /\ (forall n, (7 <= n)%nat -> polling (worker_steps n s3)).
Proof.
  intros Hr [Hrun Hpc] Hmodel s3.
  pose proof (reachable_invariant s Hr) as [Hq Hinv].
  split.
  { intro sched. apply (invariant_exec sched s (reachable_invariant s Hr)). }
  assert (Hflag : processing s = false).
  { destruct Hpc as [E|[E|[E|E]]]; rewrite E in Hinv; [| | |destruct Hinv]; assumption. }
  subst s3. destruct s as [q run mdl proc pc log pend].
  simpl in Hrun, Hmodel, Hflag, Hpc. clear Hr Hq Hinv. subst.
  assert (E3 : forall g1 g2 g3 : Frame,
             exec {| frame_queue := q; running := true; model := true;
                     processing := false; at_pc := pc; processed := log;
                     pending := pend |}
                  (submit [Some g1; Some g2; Some g3])
             = {| frame_queue := [g3]; running := true; model := true;
                  processing := false; at_pc := pc; processed := log;
                  pending := None |})
    by (intros; destruct pend; reflexivity).
  assert (E2 : frame_queue
                 (exec {| frame_queue := q; running := true; model := true;
                          processing := false; at_pc := pc; processed := log;
                          pending := pend |}
                       (submit [Some F1; Some F2])) = [F2])
    by (destruct pend; reflexivity).
  assert (E1 : frame_queue
                 (exec {| frame_queue := q; running := true; model := true;
                          processing := false; at_pc := pc; processed := log;
                          pending := pend |}
                       (submit [Some F1])) = [F1])
    by (destruct pend; reflexivity).
  split; [exact E1|]. split; [exact E2|]. rewrite E3. split; [reflexivity|].
  set (s3 := {| frame_queue := [F3]; running := true; model := true;
                processing := false; at_pc := pc; processed := log;
                pending := None |}).
  assert (Hk : exists k, (k <= 7)%nat
                 /\ (forall n, (n < k)%nat ->
                       processed (worker_steps n s3) = log
                       \/ processed (worker_steps n s3) = log ++ [F3])
                 /\ (forall n, (n < k)%nat -> (6 <= n)%nat ->
                       processed (worker_steps n s3) = log ++ [F3])
                 /\ polling (worker_steps k s3)
                 /\ processed (worker_steps k s3) = log ++ [F3]).
  { unfold s3.
    destruct Hpc as [-> | [-> | [-> | ->]]].
    - exists 6%nat. split; [lia|]. split; [|split; [|split]].
      + intros n Hn. do 6 (destruct n as [|n]; [simpl; auto|]). lia.
      + intros n Hn H6. lia.
      + unfold polling. simpl. auto 10.
      + reflexivity.
    - exists 5%nat. split; [lia|]. split; [|split; [|split]].
      + intros n Hn. do 5 (destruct n as [|n]; [simpl; auto|]). lia.
      + intros n Hn H6. lia.
      + unfold polling. simpl. auto 10.
      + reflexivity.
    - exists 7%nat. split; [lia|]. split; [|split; [|split]].
      + intros n Hn. do 7 (destruct n as [|n]; [simpl; auto|]). lia.
      + intros n Hn H6. assert (n = 6%nat) by lia. subst n. reflexivity.
      + unfold polling. simpl. auto 10.
      + reflexivity.
    - exists 4%nat. split; [lia|]. split; [|split; [|split]].
      + intros n Hn. do 4 (destruct n as [|n]; [simpl; auto|]). lia.
      + intros n Hn H6. lia.
      + unfold polling. simpl. auto 10.
      + reflexivity. }
  destruct Hk as (k & Hk7 & Hlow & Hmid & Hpoll & Hproc).
  pose proof (settled_after k s3 (log ++ [F3]) Hpoll Hproc) as Hlate.
  split; [|split].
  - intro n. destruct (Nat.lt_ge_cases n k) as [L|G]; [apply Hlow; exact L|].
    right. apply (Hlate n G).
  - intros n Hn. destruct (Nat.lt_ge_cases n k) as [L|G]; [apply Hmid; assumption|].
    apply (Hlate n G).
  - intros n Hn. apply (Hlate n). lia.
Qed.

(** C9, as the code has it: while the thread is inside the detection pass on a
    popped frame, the flag is set, and frames offered by calls that begin
    then are dropped: the state does not change.  The pass ends with the
    queue as it was and a clear flag; if the queue was empty, no later
    step of the thread processes anything but the popped frame. *)
Theorem frames_during_detection_are_dropped s f (gs : list (option Frame)) :
  reachable s ->
  at_pc s = InTry f ->
  pending s = None ->
  let s' := add_frames gs s in
  processing s = true
  /\ s' = s
  /\ exec s (submit gs) = s
  /\ frame_queue (worker_steps 2 s') = frame_queue s
  /\ processing (worker_steps 2 s') = false
  /\ at_pc (worker_steps 2 s') = AtSleep
  /\ processed (worker_steps 2 s') = processed s ++ [f]
  /\ (frame_queue s = [] ->
      forall n, (1 <= n)%nat -> processed (worker_steps n s') = processed s ++ [f]).
Proof.
  intros Hr Hpc Hpend s'.
  pose proof (reachable_invariant s Hr) as [Hq Hinv].
  rewrite Hpc in Hinv.
  assert (E : s' = s) by (apply add_frames_while_processing; assumption).
  rewrite E. clear E s'.
  split; [exact Hinv|]. split; [reflexivity|].
  split; [apply submit_while_processing; assumption|].
  destruct s as [q run mdl proc pc log pend]. simpl in *. subst.
  split; [reflexivity|]. split; [reflexivity|]. split; [reflexivity|].
  split; [reflexivity|].
  intros -> n Hn.
  destruct (Nat.eq_dec n 1) as [->|N1]; [reflexivity|].
  apply (settled_after 2); [unfold polling; simpl; auto 10 | reflexivity | lia].
Qed.

End WithFrames.

(** C8, against the claim, on a busy thread: with frame 0 in the queue
    and the flag already set, the frames 1, 2 and 3 are all
    dropped; frame 0 stays pending and is the only frame that is ever
    processed. *)
Lemma busy_worker_drops_all_three :
  let s := exec (@init nat)
             [Start true; AddFrameTest (Some 0%nat); AddFrameStore;
              WorkerStep; WorkerStep; WorkerStep] in
  let s3 := exec s (submit [Some 1%nat; Some 2%nat; Some 3%nat]) in
  reachable s
  /\ running s = true /\ model s = true
  /\ at_pc s = AtPop /\ frame_queue s = [0%nat] /\ processed s = []
  /\ frame_queue s3 = [0%nat]
  /\ forall n, processed (worker_steps n s3) = []
               \/ processed (worker_steps n s3) = [0%nat].
Proof.
  cbv zeta. split; [eexists; reflexivity|].
  repeat (split; [reflexivity|]).
  intro n. do 4 (destruct n as [|n]; [simpl; auto|]).
  right.
  apply (settled_after nat 4 _ [0%nat]); [unfold polling; simpl; auto 10 | reflexivity | lia].
Qed.

(** C8 with frames numbered 1, 2, 3, offered right after the thread has
    started with its model loaded. *)
Lemma latest_frame_wins_witness :
  let s := exec (@init nat) [Start true] in
  let s3 := exec s (submit [Some 1%nat; Some 2%nat; Some 3%nat]) in
  frame_queue s3 = [3%nat]
  /\ processed (worker_steps 7 s3) = [3%nat]
  /\ frame_queue (worker_steps 7 s3) = [].
Proof.
  intros s s3.
  assert (Hr : reachable s) by (exists [Start true]; reflexivity).
  assert (Hi : idle s) by (split; [reflexivity | left; reflexivity]).
  destruct (latest_frame_wins nat s 1%nat 2%nat 3%nat Hr Hi eq_refl)
    as (_ & _ & _ & H3 & _ & H6 & H7).
  split; [exact H3|]. split; [apply (H6 7%nat); lia|].
  apply (H7 7%nat). lia.
Defined.

(** C9, against the claim, with a call of [add_frame] under way as the
    pass begins: the call has read the flag clear for frame 2,
    the thread sets the flag and pops frame 1, and the call then assigns
    the queue.  Frame 2 enters the queue while the flag is set, the queue
    is not empty when the pass is over, and frame 2 is processed next. *)
Lemma late_assignment_enters_the_queue :
  let s := exec (@init nat)
             [Start true; AddFrameTest (Some 1%nat); AddFrameStore;
              WorkerStep; WorkerStep; AddFrameTest (Some 2%nat);
              WorkerStep; WorkerStep; AddFrameStore] in
  reachable s
  /\ at_pc s = InTry 1%nat /\ processing s = true
  /\ frame_queue s = [2%nat]
  /\ frame_queue (worker_steps 2 s) = [2%nat]
  /\ processed (worker_steps 8 s) = [1%nat; 2%nat].
Proof.
  cbv zeta. split; [eexists; reflexivity|].
  repeat split.
Qed.

(** C9 with frame 1 in the detection pass and frames 2 and 3 offered
    meanwhile. *)
Lemma frames_during_detection_are_dropped_witness :
  let s := exec (@init nat)
             [Start true; AddFrameTest (Some 1%nat); AddFrameStore;
              WorkerStep; WorkerStep; WorkerStep; WorkerStep] in
  let s' := add_frames [Some 2%nat; Some 3%nat] s in
  at_pc s = InTry 1%nat
  /\ s' = s
  /\ frame_queue (worker_steps 2 s') = []
  /\ processed (worker_steps 9 s') = [1%nat].
Proof.
  intros s s'.
  assert (Hr : reachable s) by (eexists; reflexivity).
  destruct (frames_during_detection_are_dropped nat s 1%nat
              [Some 2%nat; Some 3%nat] Hr eq_refl eq_refl)
    as (_ & E & _ & Q & _ & _ & _ & H).
  split; [reflexivity|]. split; [exact E|]. split; [exact Q|].
  apply (H eq_refl 9%nat). lia.
Defined.

End WorkerFacts.

(* ===================================================================== *)
(** * The slider *)
(* ===================================================================== *)

Module SliderFacts.
Import Slider.

Lemma setValue_fields (v : Z) (s : t) :
  minimum (setValue v s) = minimum s
  /\ maximum (setValue v s) = maximum s
  /\ value (setValue v s) = Z.max (minimum s) (Z.min (maximum s) v)
  /\ (emitted (setValue v s) = emitted s
      /\ value s = Z.max (minimum s) (Z.min (maximum s) v)
      \/ emitted (setValue v s)
         = emitted s ++ [Z.max (minimum s) (Z.min (maximum s) v)]
         /\ value s <> Z.max (minimum s) (Z.min (maximum s) v)).
Proof.
  unfold setValue.
  destruct (Z.eqb_spec (value s) (Z.max (minimum s) (Z.min (maximum s) v)))
    as [E|E]; simpl; auto 6.
Qed.

(** A mouse event on a widget with a width is a [setValue]. *)
Lemma mouse_is_setValue (x : Q) (width : Z) (s : t) :
  width <> 0 ->
  exists v, updateValueFromMouse x width s = Done (setValue v s).
Proof.
  intro H. unfold updateValueFromMouse.
  destruct (Z.eqb_spec width 0); [contradiction|]. eexists. reflexivity.
Qed.

(** Every operation is a [setValue] or changes nothing. *)
Lemma apply_cases (s : t) (o : op) :
  apply s o = s \/ exists v, apply s o = setValue v s.
Proof.
  destruct o as [v | x width]; simpl.
  - right. eexists. reflexivity.
  - unfold updateValueFromMouse. destruct (width =? 0); [left; reflexivity|].
    right. eexists. reflexivity.
Qed.

Lemma range_invariant (lo hi : Z) (ops : list op) (s0 : t) (old : list Z) :
  lo <= hi ->
  minimum s0 = lo -> maximum s0 = hi -> lo <= value s0 <= hi ->
  (exists news, emitted s0 = old ++ news /\ Forall (fun v => lo <= v <= hi) news) ->
  let s' := fold_left apply ops s0 in
  minimum s' = lo /\ maximum s' = hi /\ lo <= value s' <= hi
  /\ exists news, emitted s' = old ++ news
                  /\ Forall (fun v => lo <= v <= hi) news.
Proof.
  intro Hle. revert s0.
  induction ops as [|o ops IH]; intros s0 Hmin Hmax Hv Hem.
  - simpl. auto.
  - simpl. apply IH; destruct (apply_cases s0 o) as [E|[v E]]; rewrite E; auto;
      destruct (setValue_fields v s0) as (F1 & F2 & F3 & F4).
    + congruence.
    + congruence.
    + rewrite F3, Hmin, Hmax. lia.
    + destruct Hem as (news & En & Fn).
      destruct F4 as [[F4 _]|[F4 _]]; rewrite F4, En.
      * exists news. auto.
      * exists (news ++ [Z.max (minimum s0) (Z.min (maximum s0) v)]).
        rewrite app_assoc. split; [reflexivity|].
        apply Forall_app. split; [exact Fn|].
        constructor; [|constructor]. rewrite Hmin, Hmax. lia.
Qed.

(** X1: once a range [lo <= hi] is set, whatever is done to the slider by
    [setValue] or the mouse, the value stays in the range, and so does
    every value that [valueChanged] carries from then on. *)
Theorem slider_stays_in_range (lo hi : Z) (s : t) (ops : list op) :
  lo <= hi ->
  let s' := fold_left apply ops (setRange lo hi s) in
  minimum s' = lo /\ maximum s' = hi
  /\ lo <= value s' <= hi
  /\ exists news,
       emitted s' = emitted s ++ news /\ Forall (fun v => lo <= v <= hi) news.
Proof.
  intros Hle.
  apply range_invariant; simpl; try reflexivity; try lia.
  exists []. rewrite app_nil_r. auto.
Qed.

(** X1 on the confidence slider: range 10 to 90, then a value far above,
    a click left of the widget and a drag to three quarters. *)
Lemma slider_stays_in_range_witness :
  let s' := fold_left apply [SetValue 500; Mouse (-5) 200; Mouse 150 200]
                      (setRange 10 90 init) in
  10 <= value s' <= 90 /\ emitted s' = [90; 10; 70].
Proof.
  assert (H : 10 <= 90) by lia.
  destruct (slider_stays_in_range 10 90 init
              [SetValue 500; Mouse (-5) 200; Mouse 150 200] H)
    as (_ & _ & Hv & _).
  split; [exact Hv | reflexivity].
Defined.

Lemma no_repeat_snoc (l : list Z) (v : Z) :
  no_repeat l -> (l <> [] -> last l 0 <> v) -> no_repeat (l ++ [v]).
Proof.
  induction l as [|x l IH]; intros Hn Hl; [exact I|].
  destruct l as [|y l'].
  - simpl. split; [|exact I]. apply Hl. discriminate.
  - destruct Hn as [Hxy Hn]. change ((x :: y :: l') ++ [v]) with (x :: (y :: l') ++ [v]).
    split; [exact Hxy|]. apply IH; [exact Hn|]. intros _. apply Hl. discriminate.
Qed.

(** X2: [valueChanged] is sent for changes only: along any sequence of
    [setValue] calls and mouse events on a fresh slider, no two
    consecutive signals carry the same value, and the last one carries the
    value that the slider holds. *)
Theorem slider_signals_changes_only (s : t) (ops : list op) :
  emitted s = [] ->
  let s' := fold_left apply ops s in
  no_repeat (emitted s')
  /\ (emitted s' <> [] -> last (emitted s') 0 = value s').
Proof.
  intro He.
  assert (Hgen : forall ops s0,
    no_repeat (emitted s0) ->
    (emitted s0 <> [] -> last (emitted s0) 0 = value s0) ->
    let s' := fold_left apply ops s0 in
    no_repeat (emitted s') /\ (emitted s' <> [] -> last (emitted s') 0 = value s')).
  { clear. induction ops as [|o ops IH]; intros s0 Hn Hl; [simpl; auto|].
    simpl. destruct (apply_cases s0 o) as [E|[v E]]; rewrite E; [apply IH; auto|].
    destruct (setValue_fields v s0) as (_ & _ & F3 & F4).
    apply IH.
    - destruct F4 as [[F4 _]|[F4 Hne]]; rewrite F4; [exact Hn|].
      apply no_repeat_snoc; [exact Hn|]. intro Hnz. rewrite (Hl Hnz). exact Hne.
    - destruct F4 as [[F4 Heq]|[F4 _]]; rewrite F4, F3.
      + intro Hnz. rewrite (Hl Hnz). exact Heq.
      + intros _. apply last_last. }
  apply Hgen; rewrite He; [exact I | congruence].
Qed.

(** X2 on a fresh slider: the same value set twice, then two others. *)
Lemma slider_signals_changes_only_witness :
  let s' := fold_left apply [SetValue 55; SetValue 55; SetValue 20; SetValue 5] init in
  no_repeat (emitted s') /\ emitted s' = [55; 20; 10].
Proof.
  destruct (slider_signals_changes_only init
              [SetValue 55; SetValue 55; SetValue 20; SetValue 5] eq_refl)
    as [Hn _].
  split; [exact Hn | reflexivity].
Defined.

Lemma int_of_integer (z : Z) : Py.int (inject_Z z) = z.
Proof.
  unfold Py.int. destruct (Qle_bool 0 (inject_Z z));
    [apply Qfloor_Z | apply Qceiling_Z].
Qed.

(** X3: a click at or left of the left edge gives the minimum, a click at
    or right of the right edge the maximum. *)
Theorem mouse_at_the_edges (x : Q) (width : Z) (s : t) :
  0 < width ->
  minimum s <= maximum s ->
  ((x <= 0)%Q ->
   exists s', updateValueFromMouse x width s = Done s' /\ value s' = minimum s)
  /\ ((inject_Z width <= x)%Q ->
      exists s', updateValueFromMouse x width s = Done s' /\ value s' = maximum s).
Proof.
  intros Hw Hr.
  assert (Hwq : (0 < inject_Z width)%Q) by (unfold Qlt; simpl; lia).
  unfold updateValueFromMouse.
  destruct (Z.eqb_spec width 0) as [E|_]; [lia|].
  split; intro Hx; eexists; (split; [reflexivity|]);
    destruct (setValue_fields
                (minimum s +
                 Py.int (Py.max 0 (fmin 1 (x / inject_Z width))
                         * inject_Z (maximum s - minimum s))) s)
      as (_ & _ & F3 & _); rewrite F3; clear F3.
  - assert (Hq : (x / inject_Z width <= 0)%Q).
    { apply Qle_shift_div_r; [exact Hwq|]. rewrite Qmult_0_l. exact Hx. }
    assert (Hpos : Py.max 0 (fmin 1 (x / inject_Z width)) = 0%Q).
    { unfold Py.max, fmin.
      destruct (Py.Qltb (x / inject_Z width) 1) eqn:L1.
      - destruct (Py.Qltb 0 (x / inject_Z width)) eqn:L0; [|reflexivity].
        apply HeatmapFacts.Qltb_true in L0. exfalso.
        apply (Qlt_irrefl 0). eapply Qlt_le_trans; eassumption.
      - apply HeatmapFacts.Qltb_false in L1. exfalso.
        apply (Qlt_irrefl 0). eapply Qlt_le_trans; [|eapply Qle_trans; eassumption].
        reflexivity. }
    rewrite Hpos.
    assert (H0 : Py.int (0 * inject_Z (maximum s - minimum s)) = 0).
    { unfold Py.int. simpl. unfold Qfloor. simpl. reflexivity. }
    rewrite H0. lia.
  - assert (Hq : (1 <= x / inject_Z width)%Q).
    { apply Qle_shift_div_l; [exact Hwq|]. rewrite Qmult_1_l. exact Hx. }
    assert (Hone : Py.max 0 (fmin 1 (x / inject_Z width)) = 1%Q).
    { unfold fmin.
      destruct (Py.Qltb (x / inject_Z width) 1) eqn:L1.
      - apply HeatmapFacts.Qltb_true in L1. exfalso.
        apply (Qlt_irrefl 1). eapply Qle_lt_trans; eassumption.
      - reflexivity. }
    rewrite Hone.
    assert (H1 : Py.int (1 * inject_Z (maximum s - minimum s))
                 = maximum s - minimum s).
    { rewrite <- (int_of_integer (maximum s - minimum s)) at 2.
      unfold Py.int, Qle_bool, Qfloor, Qceiling, Qfloor, Qopp, Qmult, inject_Z.
      simpl Qnum. simpl Qden.
      destruct (maximum s - minimum s); simpl; try reflexivity. }
    rewrite H1. lia.
Qed.

(** X3 on the crowd-threshold slider, 200 pixels wide. *)
Lemma mouse_at_the_edges_witness :
  let s := setRange 3 50 init in
  (exists s', updateValueFromMouse (-4) 200 s = Done s' /\ value s' = 3)
  /\ (exists s', updateValueFromMouse 230 200 s = Done s' /\ value s' = 50).
Proof.
  intro s.
  assert (Hw : 0 < 200) by lia.
  assert (Hr : minimum s <= maximum s) by (simpl; lia).
  destruct (mouse_at_the_edges (-4) 200 s Hw Hr) as [Hl _].
  destruct (mouse_at_the_edges 230 200 s Hw Hr) as [_ Hh].
  split; [apply Hl; discriminate | apply Hh; discriminate].
Defined.

End SliderFacts.

(* ===================================================================== *)
(** * The sliders and the handlers they call *)
(* ===================================================================== *)

Module SettingsFacts.
Import Py App.

Lemma update_never_value_error (G : Scope.namespace) (alert : bool) (c : Z)
      (s : t) (msg : string) :
  fst (update_crowd_alert_status G alert c s) <> Raise (ValueError msg).
Proof.
  unfold update_crowd_alert_status, bind, get, modify, lift, ret.
  destruct (Bool.eqb (threshold_alert_active s) alert); simpl; [discriminate|].
  destruct alert; simpl; [|discriminate].
  unfold Scope.load_global.
  destruct (Scope.lookup "format_time_for_filename" G) as [o|]; simpl.
  - destruct o; simpl; discriminate.
  - destruct (Scope.lookup "format_time_for_filename" Scope.builtins) as [o|];
      simpl; [destruct o; simpl|]; discriminate.
Qed.

Lemma check_never_value_error (G : Scope.namespace) (s : t) (msg : string) :
  fst (check_threshold_crossing G s) <> Raise (ValueError msg).
Proof.
  unfold check_threshold_crossing, bind, get, ret.
  destruct (negb _); [apply update_never_value_error | simpl; discriminate].
Qed.

(** What a resize to a capacity that is not negative keeps, and how it
    ends. *)
Lemma resize_kept (G : Scope.namespace) (s : t) (v : Z) :
  0 <= v ->
  (forall msg, fst (on_smoothing_window_changed G v s) <> Raise (ValueError msg))
  /\ maxlen (people_count_history (snd (on_smoothing_window_changed G v s))) = v
  /\ items (people_count_history (snd (on_smoothing_window_changed G v s)))
     = lastn (Z.to_nat v) (items (people_count_history s)).
Proof.
  intro Hv.
  unfold on_smoothing_window_changed, bind, get, modify, lift, ret, deque_new.
  destruct (Z.ltb_spec v 0) as [L|L]; [lia|]. simpl.
  set (d := refill {| maxlen := v; items := [] |}
                   (slice_from (- v) (items (people_count_history s)))).
  destruct (SmoothingFacts.refill_items
              (slice_from (- v) (items (people_count_history s)))
              {| maxlen := v; items := [] |}) as [Dm Di].
  { simpl. exact Hv. }
  { simpl. unfold len. simpl. exact Hv. }
  fold d in Dm, Di. simpl in Dm, Di.
  assert (Dk : items d = lastn (Z.to_nat v) (items (people_count_history s))).
  { rewrite Di, SmoothingFacts.slice_from_neg by exact Hv.
    destruct (Z.eqb_spec v 0) as [E|E];
      [reflexivity | apply SmoothingFacts.lastn_idem]. }
  match goal with
  | |- context [if ?b then check_threshold_crossing G else _] => destruct b
  end.
  - match goal with
    | |- context [check_threshold_crossing G ?x] =>
        destruct (SmoothingFacts.check_same_window G x) as (W1 & _ & _);
        pose proof (check_never_value_error G x) as Hno
    end.
    split; [exact Hno|]. rewrite W1. simpl. rewrite Dm, Dk. auto.
  - simpl. rewrite Dm, Dk. split; [discriminate | auto].
Qed.

(** X4: whatever the user does to the smoothing slider, each value that
    it hands to [on_smoothing_window_changed] lies between 1 and 60; the
    handler then never fails on the capacity ([ValueError]), the window
    gets that capacity, and a history that was not empty is not emptied. *)
Theorem smoothing_slider_keeps_the_window_alive
  (G : Scope.namespace) (w0 : Z) (ops : list Slider.op) (v : Z) (s : t) :
  In v (Slider.emitted (fold_left Slider.apply ops (Slider.smoothing_slider w0))) ->
  1 <= v <= 60
  /\ (forall msg, fst (on_smoothing_window_changed G v s) <> Raise (ValueError msg))
  /\ maxlen (people_count_history (snd (on_smoothing_window_changed G v s))) = v
  /\ (items (people_count_history s) <> [] ->
      items (people_count_history (snd (on_smoothing_window_changed G v s))) <> []).
Proof.
  intro Hin.
  assert (Hv : 1 <= v <= 60).
  { assert (H160 : 1 <= 60) by lia.
    assert (Hval : 1 <= Slider.value (Slider.smoothing_slider w0) <= 60)
      by (unfold Slider.smoothing_slider, Slider.setValue; simpl;
          destruct (negb _); simpl; lia).
    assert (Hmin : Slider.minimum (Slider.smoothing_slider w0) = 1)
      by (unfold Slider.smoothing_slider, Slider.setValue; simpl;
          destruct (negb _); reflexivity).
    assert (Hmax : Slider.maximum (Slider.smoothing_slider w0) = 60)
      by (unfold Slider.smoothing_slider, Slider.setValue; simpl;
          destruct (negb _); reflexivity).
    assert (Hem : exists news,
               Slider.emitted (Slider.smoothing_slider w0) = [] ++ news
               /\ Forall (fun v => 1 <= v <= 60) news)
      by (exists []; split; [reflexivity | constructor]).
    pose proof (SliderFacts.range_invariant 1 60 ops (Slider.smoothing_slider w0) []
                  H160 Hmin Hmax Hval Hem) as Hinv.
    cbv zeta in Hinv. destruct Hinv as (_ & _ & _ & news & En & Fn).
    rewrite En in Hin. simpl in Hin.
    rewrite Forall_forall in Fn. apply Fn. exact Hin. }
  destruct (resize_kept G s v) as (H1 & H2 & H3); [lia|].
  split; [exact Hv|]. split; [exact H1|]. split; [exact H2|].
  intro Hne. rewrite H3. apply SmoothingFacts.lastn_nonempty; [lia | exact Hne].
Qed.

(** X4 on a slider built for a window of 24 and dragged far to the left,
    with a history of three counts. *)
Lemma smoothing_slider_keeps_the_window_alive_witness :
  let s := set_people_count_history {| maxlen := 24; items := [2; 4; 9] |} init in
  items (people_count_history
           (snd (on_smoothing_window_changed Scope.app_globals 1 s))) <> [].
Proof.
  intro s.
  assert (Hin : In 1 (Slider.emitted
                        (fold_left Slider.apply [Slider.Mouse (-3) 150]
                                   (Slider.smoothing_slider 24))))
    by (left; reflexivity).
  destruct (smoothing_slider_keeps_the_window_alive Scope.app_globals 24
              [Slider.Mouse (-3) 150] 1 s Hin) as (_ & _ & _ & H).
  apply H. discriminate.
Defined.

End SettingsFacts.

(* ===================================================================== *)
(** * The video clock and the time texts *)
(* ===================================================================== *)

Module ClockFacts.
Import Clock.

Lemma advance_step (c : Q) (s : t) :
  video_time_ms s <= video_time_ms (advance c s) <= video_time_ms s + 250
  /\ frame_interval (advance c s) = frame_interval s
  /\ paused (advance c s) = paused s.
Proof.
  unfold advance. destruct (paused s) eqn:P; simpl.
  - repeat split; try lia; assumption.
  - destruct (Py.Qltb 0 (last_frame_time s)); simpl.
    + destruct (Z.gtb_spec (frame_interval s) 0); repeat split; lia.
    + repeat split; lia.
Qed.

(** X5: the video clock never runs backwards and no frame moves it by
    more than 250 ms: after the frames of [times] it has advanced by at
    most 250 ms per frame, and not at all while playback is paused. *)
Theorem clock_is_monotone_and_capped (times : list Q) (s : t) :
  video_time_ms s <= video_time_ms (advance_all times s)
                  <= video_time_ms s + 250 * Py.len times
  /\ (paused s = true -> advance_all times s = s).
Proof.
  unfold advance_all, Py.len. revert s.
  induction times as [|c times IH]; intro s.
  - simpl. split; [lia | reflexivity].
  - cbn [fold_left List.length].
    destruct (advance_step c s) as (H1 & _ & H3).
    destruct (IH (advance c s)) as [I1 I2]. split; [lia|].
    intro P. assert (E : advance c s = s) by (unfold advance; rewrite P; reflexivity).
    rewrite E in *. apply I2. exact P.
Qed.

Lemma int_ge_one (q : Q) : (1 <= q)%Q -> 1 <= Py.int q.
Proof.
  intro H. unfold Py.int.
  assert (H0 : Qle_bool 0 q = true).
  { apply Qle_bool_iff. eapply Qle_trans; [|exact H]. discriminate. }
  rewrite H0. change 1 with (Qfloor 1). apply Qfloor_resp_le. exact H.
Qed.

Lemma advance_by_interval (c : Q) (s : t) :
  paused s = false -> (0 < last_frame_time s)%Q -> 0 < frame_interval s ->
  video_time_ms (advance c s) = video_time_ms s + Z.min (frame_interval s) 250
  /\ last_frame_time (advance c s) = c
  /\ frame_interval (advance c s) = frame_interval s
  /\ paused (advance c s) = false.
Proof.
  intros P L F. unfold advance. rewrite P. simpl.
  assert (HL : Py.Qltb 0 (last_frame_time s) = true).
  { unfold Py.Qltb. destruct (Qle_bool (last_frame_time s) 0) eqn:E; [|reflexivity].
    apply Qle_bool_iff in E. exfalso. apply (Qlt_irrefl 0).
    eapply Qlt_le_trans; eassumption. }
  rewrite HL. destruct (Z.gtb_spec (frame_interval s) 0); [auto | lia].
Qed.

(** X6: for a video whose reported frame rate is positive and at most
    1000, [frame_interval] is at least 1 ms, and from then on the clock
    counts frames, not wall-clock time: each frame that arrives while
    playing adds the frame interval, capped at 250 ms, whatever
    [time.time()] says. *)
Theorem clock_counts_frames (fps : Q) (times : list Q) (s : t) :
  (0 < fps)%Q -> (fps <= 1000)%Q ->
  frame_interval s = frame_interval_of_fps fps ->
  paused s = false ->
  (0 < last_frame_time s)%Q ->
  Forall (fun c => (0 < c)%Q) times ->
  1 <= frame_interval_of_fps fps
  /\ video_time_ms (advance_all times s)
     = video_time_ms s + Py.len times * Z.min (frame_interval_of_fps fps) 250.
Proof.
  intros Hf0 Hf1 Hfi P L Ht.
  assert (H1 : 1 <= frame_interval_of_fps fps).
  { unfold frame_interval_of_fps.
    assert (HL : Py.Qltb 0 fps = true).
    { unfold Py.Qltb. destruct (Qle_bool fps 0) eqn:E; [|reflexivity].
      apply Qle_bool_iff in E. exfalso. apply (Qlt_irrefl 0).
      apply (Qlt_le_trans 0 fps 0); assumption. }
    rewrite HL. apply int_ge_one.
    apply Qle_shift_div_l; [exact Hf0|]. rewrite Qmult_1_l. exact Hf1. }
  split; [exact H1|].
  rewrite <- Hfi. rewrite <- Hfi in H1. clear Hfi Hf0 Hf1 fps.
  unfold advance_all, Py.len. revert s P L H1.
  induction Ht as [|c times Hc Ht IH]; intros s P L H1.
  - simpl. lia.
  - cbn [fold_left List.length].
    destruct (advance_by_interval c s P L) as (A1 & A2 & A3 & A4); [lia|].
    rewrite IH; rewrite ?A1, ?A2, ?A3; auto. lia.
Qed.

(** X6 at 30 frames per second: three frames, 33 ms each. *)
Lemma clock_counts_frames_witness :
  video_time_ms (advance_all sample_times sample_clock) = 99.
Proof.
  assert (F : Forall (fun c => (0 < c)%Q) sample_times)
    by (repeat constructor).
  assert (H0 : (0 < 30)%Q) by reflexivity.
  assert (H1 : (30 <= 1000)%Q) by discriminate.
  assert (L : (0 < last_frame_time sample_clock)%Q) by reflexivity.
  destruct (clock_counts_frames 30 sample_times sample_clock
              H0 H1 eq_refl eq_refl L F) as [_ H].
  exact H.
Defined.

(** ** The time texts *)

Lemma all_chars_app (p : ascii -> bool) (a b : string) :
  all_chars p (a ++ b)%string = all_chars p a && all_chars p b.
Proof.
  induction a as [|c a IH]; simpl; [reflexivity|]. rewrite IH, andb_assoc. reflexivity.
Qed.

Lemma all_chars_weaken (p q : ascii -> bool) (s : string) :
  (forall c, p c = true -> q c = true) -> all_chars p s = true -> all_chars q s = true.
Proof.
  intro H. induction s as [|c s IH]; simpl; [reflexivity|].
  intro E. apply andb_prop in E. destruct E as [E1 E2].
  rewrite (H c E1), (IH E2). reflexivity.
Qed.

Lemma uint_digits (d : Decimal.uint) :
  all_chars is_digit (NilEmpty.string_of_uint d) = true.
Proof. induction d; simpl; auto. Qed.

Lemma decimal_digits (n : N) : all_chars is_digit (Py.decimal n) = true.
Proof.
  unfold Py.decimal, NilZero.string_of_uint.
  destruct (N.to_uint n) eqn:E; try (rewrite <- E; apply uint_digits). reflexivity.
Qed.

Lemma zeros_digits (k : nat) : all_chars is_digit (Py.zeros k) = true.
Proof. induction k; simpl; auto. Qed.

(** A number that is not negative is formatted as digits only. *)
Lemma format_d_digits (width : nat) (z : Z) :
  0 <= z -> all_chars is_digit (Py.format_d width z) = true.
Proof.
  intro H. unfold Py.format_d. destruct (Z.ltb_spec z 0); [lia|].
  rewrite all_chars_app, zeros_digits, decimal_digits. reflexivity.
Qed.

(** Below 100 two digits, below 1000 three digits, which denote the
    number: by running through the numbers. *)
Lemma format_two (z : Z) : 0 <= z < 100 -> is_field 2 z (Py.format_d 2 z) = true.
Proof.
  intro H.
  assert (A : forallb (fun n => is_field 2 (Z.of_nat n) (Py.format_d 2 (Z.of_nat n)))
                      (seq 0 100) = true) by (vm_compute; reflexivity).
  rewrite forallb_forall in A. specialize (A (Z.to_nat z)).
  rewrite Z2Nat.id in A by lia. apply A. apply in_seq. lia.
Qed.

Lemma format_three (z : Z) : 0 <= z < 1000 -> is_field 3 z (Py.format_d 3 z) = true.
Proof.
  intro H.
  assert (A : forallb (fun n => is_field 3 (Z.of_nat n) (Py.format_d 3 (Z.of_nat n)))
                      (seq 0 1000) = true) by (vm_compute; reflexivity).
  rewrite forallb_forall in A. specialize (A (Z.to_nat z)).
  rewrite Z2Nat.id in A by lia. apply A. apply in_seq. lia.
Qed.

Lemma field_two (z : Z) (s : string) :
  is_field 2 z s = true ->
  exists a b, s = String a (String b EmptyString)
              /\ digits_value (String a (String b EmptyString)) = z.
Proof.
  unfold is_field. intro H.
  apply andb_prop in H. destruct H as [H Hv].
  apply andb_prop in H. destruct H as [Hl _].
  apply Z.eqb_eq in Hv.
  destruct s as [|a [|b [|c s]]]; try discriminate.
  exists a, b. auto.
Qed.

Lemma field_three (z : Z) (s : string) :
  is_field 3 z s = true ->
  exists a b c, s = String a (String b (String c EmptyString))
                /\ digits_value (String a (String b (String c EmptyString))) = z.
Proof.
  unfold is_field. intro H.
  apply andb_prop in H. destruct H as [H Hv].
  apply andb_prop in H. destruct H as [Hl _].
  apply Z.eqb_eq in Hv.
  destruct s as [|a [|b [|c [|d s]]]]; try discriminate.
  exists a, b, c. auto.
Qed.

(** The four fields of a time under 100 hours. *)
Lemma fields_in_range (t : Z) :
  0 <= t < 360000000 ->
  0 <= t / 1000 / 3600 < 100
  /\ 0 <= (t / 1000) mod 3600 / 60 < 60
  /\ 0 <= (t / 1000) mod 60 < 60
  /\ 0 <= t mod 1000 < 1000
  /\ of_fields (t / 1000 / 3600) ((t / 1000) mod 3600 / 60)
               ((t / 1000) mod 60) (t mod 1000) = t.
Proof.
  intro H. unfold of_fields. Z.div_mod_to_equations. lia.
Qed.

(** X7: for every time under 100 hours the timer text has 12
    characters, [HH:MM:SS:mmm], and the time can be read back from it. *)
Theorem timer_text_reads_back (t : Z) :
  0 <= t < 360000000 ->
  String.length (timer_text t) = 12%nat /\ read_timer (timer_text t) = t.
Proof.
  intro H. destruct (fields_in_range t H) as (Hh & Hm & Hs & Hms & Hof).
  unfold timer_text.
  assert (Hm' : 0 <= (t / 1000) mod 3600 / 60 < 100) by lia.
  assert (Hs' : 0 <= (t / 1000) mod 60 < 100) by lia.
  destruct (field_two _ _ (format_two _ Hh)) as (h1 & h2 & Eh & Vh).
  destruct (field_two _ _ (format_two _ Hm')) as (m1 & m2 & Em & Vm).
  destruct (field_two _ _ (format_two _ Hs')) as (s1 & s2 & Es & Vs).
  destruct (field_three _ _ (format_three _ Hms)) as (d1 & d2 & d3 & Ed & Vd).
  rewrite Eh, Em, Es, Ed. split; [reflexivity|].
  unfold read_timer. cbn [append substring].
  rewrite Vh, Vm, Vs, Vd. exact Hof.
Qed.

(** X7 at 1 h 2 min 3 s 4 ms. *)
Lemma timer_text_reads_back_witness :
  timer_text 3723004 = "01:02:03:004" /\ read_timer (timer_text 3723004) = 3723004.
Proof.
  assert (H : 0 <= 3723004 < 360000000) by lia.
  destruct (timer_text_reads_back 3723004 H) as [_ R].
  split; [reflexivity | exact R].
Defined.

(** X8: the file-name stamp of a time that is not negative consists of
    digits and the letters h, m and s only; under 100 hours it has 14
    characters, [HHhMMmSSsmmmms], and the time can be read back from it. *)
Theorem stamp_is_safe_and_reads_back (t : Z) :
  0 <= t ->
  all_chars is_digit_or_unit (Scope.format_time_for_filename t) = true
  /\ (t < 360000000 ->
      String.length (Scope.format_time_for_filename t) = 14%nat
      /\ read_stamp (Scope.format_time_for_filename t) = t).
Proof.
  intro H0. split.
  - unfold Scope.format_time_for_filename.
    assert (W : forall z, 0 <= z -> forall w,
                all_chars is_digit_or_unit (Py.format_d w z) = true).
    { intros z Hz w. apply (all_chars_weaken is_digit); [|apply format_d_digits; exact Hz].
      intros c Hc. unfold is_digit_or_unit. rewrite Hc. reflexivity. }
    rewrite !all_chars_app.
    rewrite !W; try reflexivity; Z.div_mod_to_equations; lia.
  - intro H1. assert (H : 0 <= t < 360000000) by lia.
    destruct (fields_in_range t H) as (Hh & Hm & Hs & Hms & Hof).
    unfold Scope.format_time_for_filename.
    assert (Hm' : 0 <= (t / 1000) mod 3600 / 60 < 100) by lia.
    assert (Hs' : 0 <= (t / 1000) mod 60 < 100) by lia.
    destruct (field_two _ _ (format_two _ Hh)) as (h1 & h2 & Eh & Vh).
    destruct (field_two _ _ (format_two _ Hm')) as (m1 & m2 & Em & Vm).
    destruct (field_two _ _ (format_two _ Hs')) as (s1 & s2 & Es & Vs).
    destruct (field_three _ _ (format_three _ Hms)) as (d1 & d2 & d3 & Ed & Vd).
    rewrite Eh, Em, Es, Ed. split; [reflexivity|].
    unfold read_stamp. cbn [append substring].
    rewrite Vh, Vm, Vs, Vd. exact Hof.
Qed.

(** X8 at 1 h 2 min 3 s 4 ms. *)
Lemma stamp_is_safe_and_reads_back_witness :
  Scope.format_time_for_filename 3723004 = "01h02m03s004ms"
  /\ read_stamp (Scope.format_time_for_filename 3723004) = 3723004.
Proof.
  assert (H : 0 <= 3723004) by lia.
  destruct (stamp_is_safe_and_reads_back 3723004 H) as [_ R].
  destruct R as [_ R]; [lia|].
  split; [reflexivity | exact R].
Defined.

End ClockFacts.

(* ===================================================================== *)
(** * The time series of the graph *)
(* ===================================================================== *)

Module GraphFacts.
Import Graph.

Lemma increasing_snoc (l : list Q) (x : Q) :
  increasing l -> (l <> [] -> (last l 0 < x)%Q) -> increasing (l ++ [x]).
Proof.
  induction l as [|a l IH]; intros Hi Hl; [exact I|].
  destruct l as [|b l'].
  - simpl. split; [|exact I]. apply Hl. discriminate.
  - destruct Hi as [Hab Hi].
    change ((a :: b :: l') ++ [x]) with (a :: (b :: l') ++ [x]).
    split; [exact Hab|]. apply IH; [exact Hi|]. intros _. apply Hl. discriminate.
Qed.

Lemma set_last_spec (l : list Z) (v : Z) :
  l <> [] ->
  exists l', set_last l v = Some l'
             /\ List.length l' = List.length l /\ last l' 0 = v.
Proof.
  induction l as [|x l IH]; intro H; [congruence|].
  destruct l as [|y l'].
  - exists [v]. auto.
  - destruct IH as (r & E & L & La); [discriminate|].
    exists (x :: r). cbn [set_last] in *. rewrite E.
    split; [reflexivity|]. split; [simpl; rewrite L; reflexivity|].
    destruct r; [discriminate | exact La].
Qed.

Lemma update_well_formed (count : Z) (s : t) :
  well_formed s ->
  exists s', update_people_graph count s = Done s' /\ well_formed s'.
Proof.
  intros [Hl Hi]. unfold update_people_graph.
  destruct (negb (capture_open s) || paused s); [exists s; split; [reflexivity | split; assumption]|].
  destruct (time_data s) as [|t0 ts] eqn:E.
  - eexists. split; [reflexivity|]. split; simpl.
    + rewrite length_app. simpl in *. lia.
    + exact I.
  - destruct (Py.Qltb (last (t0 :: ts) 0%Q) (inject_Z (video_time_ms s) / 1000)) eqn:L.
    + eexists. split; [reflexivity|]. split; simpl.
      * rewrite !length_app. simpl in *. lia.
      * apply (increasing_snoc (t0 :: ts)); [exact Hi|].
        intros _. apply HeatmapFacts.Qltb_true. exact L.
    + destruct (set_last_spec (people_data s) count) as (l' & El & Ll & _).
      { intro En. rewrite En in Hl. discriminate. }
      rewrite El. eexists. split; [reflexivity|]. split; simpl.
      * rewrite Ll. exact Hl.
      * exact Hi.
Qed.

Lemma apply_well_formed (o : op) (s : t) :
  well_formed s -> exists s', apply s o = Done s' /\ well_formed s'.
Proof.
  intro H. destruct o as [ms | b | count]; simpl.
  - eexists. split; [reflexivity | exact H].
  - eexists. split; [reflexivity | exact H].
  - apply update_well_formed. exact H.
Qed.

(** X9: along any sequence of clock changes, pauses and plotted counts
    the recorder never fails on [people_data[-1]], keeps as many counts as
    times, and keeps the times strictly increasing. *)
Theorem graph_series_stays_well_formed (ops : list op) (s : t) :
  List.length (time_data s) = List.length (people_data s) ->
  increasing (time_data s) ->
  exists s',
    run ops s = Done s'
    /\ List.length (time_data s') = List.length (people_data s')
    /\ increasing (time_data s').
Proof.
  intros Hl Hi. assert (H : well_formed s) by (split; assumption). clear Hl Hi.
  revert s H. induction ops as [|o ops IH]; intros s H.
  - exists s. split; [reflexivity | exact H].
  - simpl. destruct (apply_well_formed o s H) as (s1 & E & H1). rewrite E.
    apply IH. exact H1.
Qed.

(** X9 from a freshly loaded video: two counts at 0 ms, one at 33 ms, one
    while paused at 66 ms, one after the clock went back to 20 ms. *)
Lemma graph_series_stays_well_formed_witness :
  exists s',
    run [Plot 3; Plot 4; SetTime 33; Plot 5; SetPaused true; SetTime 66; Plot 9;
         SetPaused false; SetTime 20; Plot 7] loaded = Done s'
    /\ List.length (time_data s') = List.length (people_data s')
    /\ people_data s' = [4; 7].
Proof.
  destruct (graph_series_stays_well_formed
              [Plot 3; Plot 4; SetTime 33; Plot 5; SetPaused true; SetTime 66; Plot 9;
               SetPaused false; SetTime 20; Plot 7] loaded eq_refl I)
    as (s' & E & L & _).
  exists s'. split; [exact E|]. split; [exact L|].
  vm_compute in E. injection E as <-. reflexivity.
Defined.

(** X10: while playing, a second count at the same video time replaces
    the last point of the series instead of adding one. *)
Theorem second_count_at_same_time_replaces (c1 c2 : Z) (s : t) :
  capture_open s = true -> paused s = false ->
  List.length (time_data s) = List.length (people_data s) ->
  exists s1 s2,
    update_people_graph c1 s = Done s1
    /\ update_people_graph c2 s1 = Done s2
    /\ time_data s2 = time_data s1
    /\ List.length (people_data s2) = List.length (people_data s1)
    /\ last (people_data s2) 0 = c2.
Proof.
  intros Ho Hp Hl.
  assert (Hstep : forall c s0,
    capture_open s0 = true -> paused s0 = false ->
    List.length (time_data s0) = List.length (people_data s0) ->
    exists s1, update_people_graph c s0 = Done s1
      /\ capture_open s1 = true /\ paused s1 = false
      /\ video_time_ms s1 = video_time_ms s0
      /\ List.length (time_data s1) = List.length (people_data s1)
      /\ time_data s1 <> []
      /\ Py.Qltb (last (time_data s1) 0%Q) (inject_Z (video_time_ms s0) / 1000) = false
      /\ (time_data s0 <> [] ->
          Py.Qltb (last (time_data s0) 0%Q) (inject_Z (video_time_ms s0) / 1000) = false ->
          time_data s1 = time_data s0
          /\ List.length (people_data s1) = List.length (people_data s0)
          /\ last (people_data s1) 0 = c)).
  { clear. intros c s0 Ho Hp Hl. unfold update_people_graph. rewrite Ho, Hp. simpl.
    assert (Hirr : forall q, Py.Qltb q q = false).
    { intro q. unfold Py.Qltb. replace (Qle_bool q q) with true; [reflexivity|].
      symmetry. apply Qle_bool_iff. apply Qle_refl. }
    destruct (time_data s0) as [|t0 ts] eqn:E.
    - eexists. split; [reflexivity|].
      cbn [capture_open paused video_time_ms time_data people_data].
      split; [first [reflexivity | assumption]|].
      split; [first [reflexivity | assumption]|]. split; [reflexivity|].
      split; [rewrite !length_app; simpl in *; lia|].
      split; [discriminate|]. split; [apply Hirr|].
      intro Hc. exfalso. apply Hc. reflexivity.
    - destruct (Py.Qltb (last (t0 :: ts) 0%Q) (inject_Z (video_time_ms s0) / 1000)) eqn:L.
      + eexists. split; [reflexivity|].
        cbn [capture_open paused video_time_ms time_data people_data].
        split; [first [reflexivity | assumption]|].
      split; [first [reflexivity | assumption]|]. split; [reflexivity|].
        split; [rewrite !length_app; simpl in *; lia|].
        split; [destruct ts; discriminate|].
        split; [rewrite last_last; apply Hirr|].
        intros _ Hc. discriminate.
      + destruct (set_last_spec (people_data s0) c) as (l' & El & Ll & La).
        { intro En. rewrite En in Hl. discriminate. }
        rewrite El. eexists. split; [reflexivity|].
        cbn [capture_open paused video_time_ms time_data people_data].
        repeat split; auto; try discriminate; congruence. }
  destruct (Hstep c1 s Ho Hp Hl) as (s1 & E1 & Ho1 & Hp1 & Hv1 & Hl1 & Hne1 & Hq1 & _).
  destruct (Hstep c2 s1 Ho1 Hp1 Hl1) as (s2 & E2 & _ & _ & _ & _ & _ & _ & Hrep).
  rewrite Hv1 in Hrep. destruct (Hrep Hne1 Hq1) as (R1 & R2 & R3).
  exists s1, s2. auto.
Qed.

(** X10 from a freshly loaded video. *)
Lemma second_count_at_same_time_replaces_witness :
  exists s1 s2,
    update_people_graph 3 loaded = Done s1
    /\ update_people_graph 4 s1 = Done s2
    /\ people_data s2 = [4].
Proof.
  destruct (second_count_at_same_time_replaces 3 4 loaded eq_refl eq_refl eq_refl)
    as (s1 & s2 & E1 & E2 & _).
  exists s1, s2. split; [exact E1|]. split; [exact E2|].
  vm_compute in E1. injection E1 as <-.
  vm_compute in E2. injection E2 as <-. reflexivity.
Defined.

End GraphFacts.

(* ===================================================================== *)
(** * The reader thread *)
(* ===================================================================== *)

Module ReaderFacts.
Import Reader.

Section WithFrames.

Variable Frame : Type.
Implicit Types (s : Reader.t Frame).

Lemma frames_of_app (l1 l2 : list (signal Frame)) :
  frames_of (l1 ++ l2) = frames_of l1 ++ frames_of l2.
Proof.
  induction l1 as [|[f|] l1 IH]; simpl; [reflexivity | rewrite IH; reflexivity | exact IH].
Qed.

Lemma ends_of_app (l1 l2 : list (signal Frame)) :
  ends_of (l1 ++ l2) = (ends_of l1 + ends_of l2)%nat.
Proof.
  induction l1 as [|[f|] l1 IH]; simpl; [reflexivity | exact IH | rewrite IH; reflexivity].
Qed.

Lemma act_conserves s (a : action) :
  frames_of (signals (act s a)) ++ remaining (act s a)
  = frames_of (signals s) ++ remaining s.
Proof.
  destruct a; simpl; try reflexivity.
  - unfold start. destruct (active s); reflexivity.
  - unfold iterate, remaining.
    destruct (active s); simpl; [|reflexivity].
    destruct (cap s) as [c|] eqn:E; simpl; [|rewrite ?E; reflexivity].
    destruct (running s && opened c); simpl; [|rewrite ?E; reflexivity].
    destruct (paused s); simpl; [rewrite ?E; reflexivity|].
    destruct (frames c) as [|f rest] eqn:F; simpl.
    + rewrite ?E, ?F, frames_of_app. simpl. rewrite !app_nil_r. reflexivity.
    + rewrite frames_of_app. simpl. rewrite <- app_assoc. reflexivity.
Qed.

Lemma exec_conserves (sched : list action) s :
  frames_of (signals (exec s sched)) ++ remaining (exec s sched)
  = frames_of (signals s) ++ remaining s.
Proof.
  unfold exec. revert s. induction sched as [|a sched IH]; intro s; [reflexivity|].
  simpl. rewrite IH. apply act_conserves.
Qed.

(** X11: the reader neither skips nor repeats a frame: under any
    interleaving of [start], [pause], [stop] and turns of its loop, the
    frames it has signalled, in order, followed by the frames the capture
    has still to return, are the frames there were; and a turn of the loop
    while paused signals nothing. *)
Theorem reader_delivers_frames_in_order (sched : list action) s :
  frames_of (signals (exec s sched)) ++ remaining (exec s sched)
  = frames_of (signals s) ++ remaining s
  /\ (paused s = true -> signals (iterate s) = signals s).
Proof.
  split; [apply exec_conserves|].
  intro P. unfold iterate. destruct (negb (active s)); [reflexivity|].
  destruct (cap s) as [c|]; [|reflexivity].
  destruct (running s && opened c); [|reflexivity]. rewrite P. reflexivity.
Qed.

Lemma act_credit s (a : action) :
  (ends_of (signals (act s a)) + credit (act s a)
   <= ends_of (signals s) + credit s + starts_of [a])%nat.
Proof.
  destruct s as [c r p ac sg]. unfold credit.
  destruct a; simpl.
  - unfold start. simpl. destruct ac, r; simpl; lia.
  - lia.
  - destruct ac, r; simpl; lia.
  - unfold iterate. simpl.
    destruct ac; simpl; [|lia].
    destruct c as [[o fs]|]; simpl; [|destruct r; simpl; lia].
    destruct r; simpl; [|lia].
    destruct o; simpl; [|lia].
    destruct p; simpl; [lia|].
    destruct fs; simpl; rewrite ends_of_app; simpl; lia.
Qed.

Lemma exec_credit (sched : list action) s :
  (ends_of (signals (exec s sched)) + credit (exec s sched)
   <= ends_of (signals s) + credit s + starts_of sched)%nat.
Proof.
  unfold exec. revert s. induction sched as [|a sched IH]; intro s; [simpl; lia|].
  cbn [fold_left]. specialize (IH (act s a)). pose proof (act_credit s a) as H.
  assert (E : starts_of (a :: sched) = (starts_of [a] + starts_of sched)%nat)
    by (destruct a; reflexivity).
  rewrite E. lia.
Qed.

Lemma act_end_means_exhausted s (a : action) (e : nat) :
  ends_of (signals s) = e \/ remaining s = [] ->
  ends_of (signals (act s a)) = e \/ remaining (act s a) = [].
Proof.
  intro H. destruct a; simpl; try exact H.
  - unfold start. destruct (active s); exact H.
  - unfold iterate, remaining in *.
    destruct (active s); simpl; [|exact H].
    destruct (cap s) as [c|] eqn:E; simpl; [|rewrite ?E; exact H].
    destruct (running s && opened c); simpl; [|rewrite ?E; exact H].
    destruct (paused s); simpl; [rewrite ?E; exact H|].
    destruct (frames c) as [|f rest] eqn:F; simpl.
    + right. rewrite ?E. simpl. first [exact F | reflexivity].
    + destruct H as [H|H]; [|discriminate]. left.
      rewrite ends_of_app. simpl. lia.
Qed.

Lemma exec_end_means_exhausted (sched : list action) s (e : nat) :
  ends_of (signals s) = e \/ remaining s = [] ->
  ends_of (signals (exec s sched)) = e \/ remaining (exec s sched) = [].
Proof.
  unfold exec. revert s. induction sched as [|a sched IH]; intros s H; [exact H|].
  simpl. apply IH. apply act_end_means_exhausted. exact H.
Qed.

(** X12: the end of the video is signalled at most once for each
    [start()], and only when the capture has no frame left, so that every
    frame has been signalled before it. *)
Theorem end_of_video_once_per_start (sched : list action) s :
  active s = false ->
  (ends_of (signals (exec s sched)) <= ends_of (signals s) + starts_of sched)%nat
  /\ ((ends_of (signals s) < ends_of (signals (exec s sched)))%nat ->
      remaining (exec s sched) = []
      /\ frames_of (signals (exec s sched)) = frames_of (signals s) ++ remaining s).
Proof.
  intro A. split.
  - pose proof (exec_credit sched s) as H. unfold credit in H at 2.
    rewrite A in H. simpl in H. lia.
  - intro Hlt.
    destruct (exec_end_means_exhausted sched s (ends_of (signals s))
                (or_introl eq_refl)) as [J|J]; [lia|].
    split; [exact J|].
    pose proof (exec_conserves sched s) as C.
    rewrite J, app_nil_r in C. exact C.
Qed.

End WithFrames.

(** X12 on a capture of two frames: started, read to the end, polled
    again, started a second time. *)
Lemma end_of_video_once_per_start_witness :
  let s := set_capture {| opened := true; frames := [1%nat; 2%nat] |} init in
  let sched := [Start; Iterate; Iterate; Iterate; Iterate; Iterate;
                Start; Iterate; Iterate] in
  signals (exec s sched)
  = [FrameReady 1%nat; FrameReady 2%nat; VideoEnded; VideoEnded]
  /\ (ends_of (signals (exec s sched)) <= 2)%nat.
Proof.
  intros s sched.
  destruct (end_of_video_once_per_start nat sched s eq_refl) as [H _].
  split; [reflexivity | exact H].
Defined.

End ReaderFacts.

(* ===================================================================== *)
(** * The detection pass *)
(* ===================================================================== *)

Module DetectionFacts.
Import Detection.

Lemma visit_fold (threshold : Q) (l : list detection) (n : Z) (bs : list Heatmap.box) :
  fold_left (visit threshold) l (n, bs)
  = (n + Py.len (filter (fun d => Py.Qltb threshold (conf d)) l),
     bs ++ map to_box (filter (fun d => Py.Qltb threshold (conf d)) l)).
Proof.
  revert n bs. induction l as [|d l IH]; intros n bs.
  - simpl. rewrite app_nil_r. f_equal. unfold Py.len. simpl. lia.
  - cbn [fold_left filter]. unfold visit at 2.
    destruct (Py.Qltb threshold (conf d)).
    + rewrite IH. cbn [map]. rewrite <- app_assoc. f_equal.
      unfold Py.len. cbn [List.length]. lia.
    + apply IH.
Qed.

Lemma nested_fold (threshold : Q) (results : list (list detection))
      (acc : Z * list Heatmap.box) :
  fold_left (fun acc result_boxes => fold_left (visit threshold) result_boxes acc)
            results acc
  = fold_left (visit threshold) (List.concat results) acc.
Proof.
  revert acc. induction results as [|r rs IH]; intro acc; [reflexivity|].
  simpl. rewrite fold_left_app. apply IH.
Qed.

Lemma detect_kept (threshold : Q) (results : list (list detection)) :
  detect threshold results
  = (Py.len (filter (fun d => Py.Qltb threshold (conf d)) (List.concat results)),
     map to_box (filter (fun d => Py.Qltb threshold (conf d)) (List.concat results))).
Proof.
  unfold detect. rewrite nested_fold, visit_fold. reflexivity.
Qed.

(** X13: the count that the detection pass reports is the number of
    boxes it hands on, and these are the boxes of the detections whose
    confidence is strictly above the threshold, truncated to integers, in
    the order of the detector; a confidence equal to the threshold does
    not count. *)
Theorem detection_count_matches_boxes (threshold : Q) (results : list (list detection)) :
  fst (detect threshold results) = Py.len (snd (detect threshold results))
  /\ snd (detect threshold results)
     = map to_box
         (filter (fun d => Py.Qltb threshold (conf d)) (List.concat results))
  /\ forall d, detect (conf d) [[d]] = (0, []).
Proof.
  rewrite detect_kept. simpl. split; [|split].
  - unfold Py.len. rewrite length_map. reflexivity.
  - reflexivity.
  - intro d. unfold detect. simpl. unfold Py.Qltb.
    replace (Qle_bool (conf d) (conf d)) with true; [reflexivity|].
    symmetry. apply Qle_bool_iff. apply Qle_refl.
Qed.

Lemma filter_length_le {A} (p q : A -> bool) (l : list A) :
  (forall x, p x = true -> q x = true) ->
  (List.length (filter p l) <= List.length (filter q l))%nat.
Proof.
  intro H. induction l as [|x l IH]; simpl; [lia|].
  destruct (p x) eqn:P.
  - rewrite (H x P). simpl. lia.
  - destruct (q x); simpl; lia.
Qed.

(** X14: raising the confidence threshold never raises the count. *)
Theorem higher_threshold_counts_fewer (t1 t2 : Q) (results : list (list detection)) :
  (t1 <= t2)%Q ->
  fst (detect t2 results) <= fst (detect t1 results).
Proof.
  intro H. rewrite !detect_kept. simpl. unfold Py.len.
  apply Nat2Z.inj_le. apply filter_length_le.
  intros d Hd. apply HeatmapFacts.Qltb_true in Hd.
  unfold Py.Qltb. destruct (Qle_bool (conf d) t1) eqn:E; [|reflexivity].
  apply Qle_bool_iff in E. exfalso. apply (Qlt_irrefl t2).
  apply (Qlt_le_trans t2 (conf d) t2); [exact Hd|].
  apply (Qle_trans _ t1); assumption.
Qed.

(** X14 on four detections with confidences 0.9, 0.4, 0.41 and 0.1, at
    the thresholds 0.4 and 0.5. *)
Lemma higher_threshold_counts_fewer_witness :
  detect (4 # 10) sample_results = (2, [(10, 20, 15, 40); (5, 6, 7, 8)])
  /\ fst (detect (5 # 10) sample_results) <= fst (detect (4 # 10) sample_results).
Proof.
  assert (H : (4 # 10 <= 5 # 10)%Q) by discriminate.
  split; [reflexivity|].
  exact (higher_threshold_counts_fewer (4 # 10) (5 # 10) sample_results H).
Defined.

(** X15: whatever is done to the confidence slider, the threshold that
    [on_threshold_changed] hands to the detector lies between 0.10 and
    0.90. *)
Theorem confidence_threshold_stays_in_range (ops : list Slider.op) (v : Z) :
  In v (Slider.emitted (fold_left Slider.apply ops confidence_slider)) ->
  (1 # 10 <= on_threshold_changed v)%Q /\ (on_threshold_changed v <= 9 # 10)%Q.
Proof.
  intro Hin.
  assert (Hv : 10 <= v <= 90).
  { assert (H1090 : 10 <= 90) by lia.
    assert (Hval : 10 <= Slider.value confidence_slider <= 90) by (simpl; lia).
    assert (Hem : exists news,
               Slider.emitted confidence_slider = [] ++ news
               /\ Forall (fun v => 10 <= v <= 90) news)
      by (exists []; split; [reflexivity | constructor]).
    pose proof (SliderFacts.range_invariant 10 90 ops confidence_slider []
                  H1090 eq_refl eq_refl Hval Hem) as Hinv.
    cbv zeta in Hinv. destruct Hinv as (_ & _ & _ & news & En & Fn).
    rewrite En in Hin. simpl in Hin.
    rewrite Forall_forall in Fn. apply Fn. exact Hin. }
  unfold on_threshold_changed, Qdiv, Qle. simpl. lia.
Qed.

(** X15 on a click at the far right of the slider. *)
Lemma confidence_threshold_stays_in_range_witness :
  (on_threshold_changed 90 <= 9 # 10)%Q.
Proof.
  assert (Hin : In 90 (Slider.emitted
                         (fold_left Slider.apply [Slider.Mouse 400 150]
                                    confidence_slider)))
    by (left; reflexivity).
  destruct (confidence_threshold_stays_in_range [Slider.Mouse 400 150] 90 Hin)
    as [_ H].
  exact H.
Defined.

End DetectionFacts.

(* ===================================================================== *)
(** * The download thread *)
(* ===================================================================== *)

Module DownloadFacts.
Import Download.

Lemma percentages_app (l1 l2 : list signal) :
  percentages (l1 ++ l2) = percentages l1 ++ percentages l2.
Proof.
  induction l1 as [|[p m|ok path] l1 IH]; simpl;
    [reflexivity | rewrite IH; reflexivity | exact IH].
Qed.

Lemma completions_app (l1 l2 : list signal) :
  completions (l1 ++ l2) = completions l1 ++ completions l2.
Proof.
  induction l1 as [|[p m|ok path] l1 IH]; simpl;
    [reflexivity | exact IH | rewrite IH; reflexivity].
Qed.

Lemma int_nonneg (q : Q) : (0 <= q)%Q -> 0 <= Py.int q.
Proof.
  intro H. unfold Py.int.
  assert (H0 : Qle_bool 0 q = true) by (apply Qle_bool_iff; exact H).
  rewrite H0. change 0 with (Qfloor 0). apply Qfloor_resp_le. exact H.
Qed.

Lemma callback_percentages (name : string) (c b t : Z) :
  0 <= c -> 0 <= b ->
  Forall (fun p => 0 <= p <= 100) (percentages (progress_callback name (c, b, t)))
  /\ completions (progress_callback name (c, b, t)) = [].
Proof.
  intros Hc Hb. unfold progress_callback.
  destruct (Z.gtb_spec t 0) as [Ht|Ht]; simpl; [|split; [constructor | reflexivity]].
  split; [|reflexivity]. constructor; [|constructor].
  assert (Hq : (0 <= inject_Z (c * b * 100) / inject_Z t)%Q).
  { apply Qle_shift_div_l; [unfold Qlt; simpl; lia|].
    rewrite Qmult_0_l. unfold Qle. simpl. nia. }
  pose proof (int_nonneg _ Hq). lia.
Qed.

Lemma hooks_percentages (name : string) (calls : list (Z * Z * Z)) :
  Forall (fun call => 0 <= fst (fst call) /\ 0 <= snd (fst call)) calls ->
  Forall (fun p => 0 <= p <= 100)
         (percentages (flat_map (progress_callback name) calls))
  /\ completions (flat_map (progress_callback name) calls) = [].
Proof.
  induction 1 as [|[[c b] t] calls [Hc Hb] Hrest [IH1 IH2]]; cbn [flat_map].
  - split; [constructor | reflexivity].
  - simpl in Hc, Hb. destruct (callback_percentages name c b t Hc Hb) as [P1 P2].
    rewrite percentages_app, completions_app, P2, IH2.
    split; [apply Forall_app; split; assumption | reflexivity].
Qed.

(** X16: if the hook is called with counts and block sizes that are not
    negative, every percentage that a run reports lies between 0 and 100;
    and whatever happens, a run sends [download_complete] exactly once, as
    its last signal: with the save path after a clean download, with
    failure and an empty path after any error. *)
Theorem download_reports_sane_progress (name path : string) (sc : script) :
  Forall (fun call => 0 <= fst (fst call) /\ 0 <= snd (fst call)) (hook_calls sc) ->
  Forall (fun p => 0 <= p <= 100) (percentages (run name path sc))
  /\ completions (run name path sc)
     = [match makedirs_error sc, retrieve_error sc with
        | None, None => (true, path)
        | _, _ => (false, EmptyString)
        end]
  /\ last (run name path sc) (Progress 0 EmptyString)
     = match makedirs_error sc, retrieve_error sc with
       | None, None => Complete true path
       | _, _ => Complete false EmptyString
       end.
Proof.
  intro H. destruct (hooks_percentages name (hook_calls sc) H) as [P C].
  unfold run. destruct (makedirs_error sc) as [m|].
  - simpl. split; [repeat constructor; lia|]. split; reflexivity.
  - rewrite !percentages_app, !completions_app, C.
    split; [|split].
    + simpl. constructor; [lia|]. apply Forall_app. split; [exact P|].
      destruct (retrieve_error sc); simpl; repeat constructor; lia.
    + destruct (retrieve_error sc); reflexivity.
    + rewrite app_assoc.
      destruct (retrieve_error sc); unfold failed;
        match goal with
        | |- last (?l ++ [?a; ?b]) _ = _ =>
            change [a; b] with ([a] ++ [b]); rewrite app_assoc; apply last_last
        end.
Qed.

(** X16 on a download of 6.2 MB in blocks of 8192 bytes. *)
Lemma download_reports_sane_progress_witness :
  percentages (run "YOLOv8n (Nano)" "models/yolov8n.pt" sample_script)
  = [0; 0; 50; 99; 100; 100]
  /\ completions (run "YOLOv8n (Nano)" "models/yolov8n.pt" sample_script)
     = [(true, "models/yolov8n.pt")].
Proof.
  assert (H : Forall (fun call => 0 <= fst (fst call) /\ 0 <= snd (fst call))
                     (hook_calls sample_script))
    by (repeat constructor; simpl; lia).
  destruct (download_reports_sane_progress "YOLOv8n (Nano)" "models/yolov8n.pt"
              sample_script H) as (_ & C & _).
  split; [reflexivity | exact C].
Defined.

End DownloadFacts.

(* ===================================================================== *)
(** * The range of the smoothed count *)
(* ===================================================================== *)

Module SmoothingRangeFacts.
Import Py App.

Lemma sum_bounds (lo hi : Z) (l : list Z) :
  Forall (fun x => lo <= x <= hi) l ->
  lo * len l <= sum l <= hi * len l.
Proof.
  unfold len, sum. induction 1 as [|x l Hx Hl IH]; simpl List.length; simpl fold_right.
  - lia.
  - rewrite Nat2Z.inj_succ. nia.
Qed.

Lemma mean_bounds (lo hi : Z) (l : list Z) :
  l <> [] ->
  Forall (fun x => lo <= x <= hi) l ->
  (inject_Z lo <= np_mean l)%Q /\ (np_mean l <= inject_Z hi)%Q.
Proof.
  intros Hne H. pose proof (sum_bounds lo hi l H) as [L U].
  assert (Hlen : 0 < len l).
  { unfold len. destruct l; [congruence | simpl List.length; lia]. }
  assert (Hq : (0 < inject_Z (len l))%Q).
  { unfold Qlt. simpl. lia. }
  unfold np_mean. split.
  - apply Qle_shift_div_l; [exact Hq|].
    rewrite <- inject_Z_mult. rewrite <- Zle_Qle. exact L.
  - apply Qle_shift_div_r; [exact Hq|].
    rewrite <- inject_Z_mult. rewrite <- Zle_Qle. exact U.
Qed.

Lemma round_bounds (lo hi : Z) (q : Q) :
  (inject_Z lo <= q)%Q -> (q <= inject_Z hi)%Q -> lo <= round q <= hi.
Proof.
  intros L U.
  assert (Lf : lo <= Qfloor q).
  { rewrite <- (Qfloor_Z lo). apply Qfloor_resp_le. exact L. }
  assert (Uf : Qfloor q <= hi).
  { rewrite <- (Qfloor_Z hi). apply Qfloor_resp_le. exact U. }
  assert (Up : (inject_Z (Qfloor q) < q)%Q -> Qfloor q + 1 <= hi).
  { intro Hlt. assert (Hz : Qfloor q < hi); [|lia].
    rewrite Zlt_Qlt. apply (Qlt_le_trans _ q); assumption. }
  assert (Hpos : (0 < q - inject_Z (Qfloor q))%Q -> (inject_Z (Qfloor q) < q)%Q).
  { intro H. apply Qlt_minus_iff. unfold Qminus in H. exact H. }
  unfold round.
  destruct (Qcompare (q - inject_Z (Qfloor q)) (1 # 2)) eqn:C.
  - destruct (Z.even (Qfloor q)); [lia|].
    apply Qeq_alt in C. split; [lia|]. apply Up, Hpos. rewrite C. reflexivity.
  - lia.
  - apply Qgt_alt in C. split; [lia|]. apply Up, Hpos.
    apply (Qlt_trans _ (1 # 2)); [reflexivity | exact C].
Qed.

Lemma append_in_range (P : Z -> Prop) (d : deque) (x : Z) :
  Forall P (items d) -> P x -> Forall P (items (append d x)).
Proof.
  intros Hd Hx. unfold append. simpl.
  assert (H : Forall P (items d ++ [x])) by (apply Forall_app; split; auto).
  destruct (maxlen d <? len (items d ++ [x])); [|exact H].
  destruct (items d ++ [x]); [constructor|]. inversion H; assumption.
Qed.

(** X17: every smoothed count lies between the smallest and the largest
    raw count that went into the window: if the counts already in the
    window and the counts of the new frames all lie between [lo] and
    [hi], so does the smoothed count after the last frame, whatever the
    size of the window and whatever the alert path did. *)
Theorem smoothed_count_stays_between_counts
        (G : Scope.namespace) (lo hi : Z) (xs : list Z) (s : t) :
  Forall (fun x => lo <= x <= hi) (items (people_count_history s)) ->
  Forall (fun x => lo <= x <= hi) xs ->
  xs <> [] ->
  lo <= smoothed_people_count (run_resilient G (map DetectionReady xs) s) <= hi.
Proof.
  intros Hs Hxs. revert s Hs.
  induction Hxs as [|x rest Hx Hrest IH]; intros s Hs Hne; [congruence|].
  cbn [map run_resilient dispatch].
  destruct (SmoothingFacts.display_window G x s) as [Hh Hsm].
  set (s1 := snd (display_detection_results G true x s)) in *.
  assert (Hs1 : Forall (fun x => lo <= x <= hi) (items (people_count_history s1))).
  { rewrite Hh. apply append_in_range; assumption. }
  destruct rest as [|y rest'].
  - simpl. rewrite Hsm. rewrite <- Hh.
    destruct (items (people_count_history s1)) as [|z l] eqn:E; [exact Hx|].
    rewrite SmoothingFacts.len_pos_nonempty.
    destruct (mean_bounds lo hi (z :: l)) as [L U]; [discriminate | exact Hs1 |].
    apply round_bounds; assumption.
  - apply IH; [exact Hs1 | discriminate].
Qed.

(** X17 on a window of three samples and the counts 2, 4 and 9. *)
Lemma smoothed_count_stays_between_counts_witness :
  2 <= smoothed_people_count
         (run_resilient Scope.app_globals (map DetectionReady [2; 4; 9])
            (set_people_count_history {| maxlen := 3; items := [] |} init)) <= 9.
Proof.
  apply (smoothed_count_stays_between_counts Scope.app_globals 2 9 [2; 4; 9]).
  - constructor.
  - repeat constructor; lia.
  - discriminate.
Defined.

End SmoothingRangeFacts.

(* ===================================================================== *)
(** * The aggregate map *)
(* ===================================================================== *)

Module AggregateFacts.
Import Py Heatmap Aggregate.

Lemma reallocate_same (s : t) (a g : ndarray) (lh lw : Z) :
  heatmap_accumulator s = Some a ->
  aggregate_heatmap_accumulator s = Some g ->
  nrows a = lh -> ncols a = lw ->
  reallocate lh lw s = s.
Proof.
  destruct s as [acc agg n d i sf r]. simpl. intros -> -> H1 H2.
  unfold reallocate. simpl. rewrite H1, H2, !Z.eqb_refl. reflexivity.
Qed.

Lemma reallocate_fresh (s : t) (lh lw : Z) :
  heatmap_accumulator s = None ->
  aggregate_heatmap_accumulator s = None ->
  reallocate lh lw s = zeroed lh lw s.
Proof.
  destruct s as [acc agg n d i sf r]. simpl. intros -> ->. reflexivity.
Qed.

Lemma max_cases (a b : Q) : max a b = a \/ max a b = b.
Proof. unfold max. destruct (Qltb a b); auto. Qed.

Lemma np_max_le_one (a : ndarray) :
  data a <> [] ->
  Forall (fun x => (x <= 1)%Q) (data a) ->
  exists m, np_max a = Ok m /\ Qltb 1 m = false.
Proof.
  intros Hne H. unfold np_max. destruct (data a) as [|x rest]; [congruence|].
  eexists. split; [reflexivity|].
  assert (Hm : (fold_left max rest x <= 1)%Q).
  { inversion H as [|x' l' Hx Hrest]; subst. clear H Hne.
    revert x Hx. induction Hrest as [|y rest Hy Hrest IH]; intros x Hx; [exact Hx|].
    simpl. apply IH. destruct (max_cases x y) as [E|E]; rewrite E; assumption. }
  unfold Qltb. apply Qle_bool_iff in Hm. rewrite Hm. reflexivity.
Qed.

Lemma faded_cell (x d i : Q) :
  (0 <= x)%Q -> (x <= 1)%Q -> (0 <= d)%Q -> (d <= 1)%Q ->
  (x * d + 0 * i <= 1)%Q /\ max (x * d + 0 * i) 0 = (x * d + 0 * i)%Q
  /\ (x * d + 0 * i == x * d)%Q.
Proof.
  intros X0 X1 D0 D1.
  assert (E : (x * d + 0 * i == x * d)%Q) by ring.
  assert (P : (0 <= x * d)%Q) by (apply Qmult_le_0_compat; assumption).
  assert (U : (x * d <= 1)%Q).
  { apply (Qle_trans _ (x * 1)).
    - unfold Qle in *. simpl in *. nia.
    - rewrite Qmult_1_r. exact X1. }
  split; [rewrite E; exact U|]. split; [|exact E].
  unfold max, Qltb.
  assert (H : Qle_bool 0 (x * d + 0 * i) = true)
    by (apply Qle_bool_iff; rewrite E; exact P).
  rewrite H. reflexivity.
Qed.

Lemma faded_cells (d i : Q) (l : list Q) :
  (0 <= d)%Q -> (d <= 1)%Q ->
  Forall (fun x => (0 <= x /\ x <= 1)%Q) l ->
  let sum := zip_add (map (fun x => (x * d)%Q) l)
                     (map (fun x => (x * i)%Q) (repeat 0%Q (List.length l))) in
  List.length sum = List.length l
  /\ Forall (fun x => (x <= 1)%Q) sum
  /\ Forall2 Qeq (map (fun x => max x 0) sum) (map (fun x => (x * d)%Q) l).
Proof.
  intros D0 D1. induction 1 as [|x l [X0 X1] Hl IH]; cbv zeta.
  - simpl. repeat split; constructor.
  - cbv zeta in IH. destruct IH as (I1 & I2 & I3).
    destruct (faded_cell x d i X0 X1 D0 D1) as (C1 & C2 & C3).
    cbn [List.length repeat map zip_add].
    split; [rewrite I1; reflexivity|].
    split; [constructor; assumption|].
    constructor; [rewrite C2; exact C3 | exact I3].
Qed.

Section External.

Variable np_sqrt : Z -> Q.
Variable GaussianBlur : ndarray -> Z -> ndarray.
Variable resize : ndarray -> Z -> Z -> ndarray.

(** X18: a frame without detections only fades the live map.  On
    accumulators of the size of the frame, with a live map in [0, 1] and
    a decay between 0 and 1, a call with no boxes multiplies every cell of
    the live map by the decay and changes nothing else: the aggregate map
    and its frame counter stay as they are, and the call returns the
    faded map resized to the frame. *)
Theorem empty_frame_only_fades (s : t) (h w lh lw : Z) (a g : ndarray) :
  low_dims h w (heatmap_scale_factor s) = (lh, lw) ->
  0 < lh -> 0 < lw ->
  heatmap_accumulator s = Some a ->
  aggregate_heatmap_accumulator s = Some g ->
  has_shape lh lw a ->
  bounded a ->
  (0 <= heatmap_decay s)%Q -> (heatmap_decay s <= 1)%Q ->
  exists a',
    update_heatmap np_sqrt GaussianBlur resize (Some (h, w)) [] s
    = (Ok (Some (resize a' w h)), set_heatmap_accumulator (Some a') s)
    /\ same_cells a' (scale a (heatmap_decay s)).
Proof.
  intros Hd Lh Lw Ea Eg Ha Ba D0 D1.
  rewrite HeatmapFacts.update_heatmap_unfold, Hd. simpl fst. simpl snd.
  destruct (Z.leb_spec lh 0); [lia|]. destruct (Z.leb_spec lw 0); [lia|]. cbn [orb].
  destruct Ha as (Hr & Hc & Hlen).
  rewrite (reallocate_same s a g lh lw Ea Eg Hr Hc).
  destruct (faded_cells (heatmap_decay s) (heatmap_intensity s) (data a) D0 D1 Ba)
    as (F1 & F2 & F3).
  set (acc := {| nrows := nrows a; ncols := ncols a;
                 data := zip_add (map (fun x => (x * heatmap_decay s)%Q) (data a))
                           (map (fun x => (x * heatmap_intensity s)%Q)
                              (repeat 0%Q (List.length (data a)))) |}).
  assert (Eadd : iadd (scale a (heatmap_decay s))
                      (scale (np_zeros lh lw) (heatmap_intensity s)) = Ok acc).
  { unfold iadd, same_shape, scale, cells, np_zeros. simpl.
    rewrite Hr, Hc, !Z.eqb_refl. simpl. unfold acc. rewrite Hlen, Hr, Hc.
    reflexivity. }
  destruct (np_max_le_one acc) as (m & Em & Hm).
  { unfold acc. simpl. intro E. apply (f_equal (@List.length Q)) in E.
    rewrite F1, Hlen in E. simpl in E. nia. }
  { exact F2. }
  exists (np_maximum acc 0). split.
  - unfold accumulate, bind, get, modify, lift, ret.
    rewrite Ea, Eg. cbn [heatmap_accumulator set_heatmap_accumulator].
    unfold current_heatmap. cbn [fold_left len List.length Z.of_nat Z.eqb negb].
    rewrite Eadd. cbn [negb]. rewrite Em, Hm.
    destruct s. reflexivity.
  - unfold same_cells. split; [reflexivity|]. split; [reflexivity|]. exact F3.
Qed.

Hypothesis blur_keeps_shape : keeps_shape GaussianBlur.

Lemma step_count (s : t) (c : call) (lh lw : Z) :
  0 < lh -> 0 < lw ->
  at_resolution lh lw c ->
  (heatmap_accumulator s = None /\ aggregate_heatmap_accumulator s = None)
  \/ (exists a g, heatmap_accumulator s = Some a
                  /\ aggregate_heatmap_accumulator s = Some g
                  /\ has_shape lh lw a /\ has_shape lh lw g) ->
  let s' := step np_sqrt GaussianBlur resize s c in
  (exists a g, heatmap_accumulator s' = Some a
               /\ aggregate_heatmap_accumulator s' = Some g
               /\ has_shape lh lw a /\ has_shape lh lw g)
  /\ aggregate_frame_count s'
     = (if is_none (heatmap_accumulator s) then 0 else aggregate_frame_count s)
       + (if len (boxes c) =? 0 then 0 else 1).
Proof.
  intros Lh Lw (h & w & Hf & Hd) Hs. cbv zeta. unfold step.
  set (s0 := set_parameters (decay c) (intensity c) (scale_factor c) (radius c) s).
  rewrite (HeatmapFacts.update_heatmap_unfold np_sqrt GaussianBlur resize), Hf.
  assert (Hsf : heatmap_scale_factor s0 = scale_factor c) by reflexivity.
  rewrite Hsf, Hd. simpl fst. simpl snd.
  destruct (Z.leb_spec lh 0); [lia|]. destruct (Z.leb_spec lw 0); [lia|]. cbn [orb].
  assert (Hz : has_shape lh lw (np_zeros lh lw))
    by (apply HeatmapFacts.has_shape_zeros; nia).
  assert (Hre : exists a g,
             heatmap_accumulator (reallocate lh lw s0) = Some a
             /\ aggregate_heatmap_accumulator (reallocate lh lw s0) = Some g
             /\ has_shape lh lw a /\ has_shape lh lw g
             /\ aggregate_frame_count (reallocate lh lw s0)
                = if is_none (heatmap_accumulator s) then 0
                  else aggregate_frame_count s).
  { destruct Hs as [[Ea Eg] | (a & g & Ea & Eg & Ha & Hg)].
    - rewrite (reallocate_fresh s0 lh lw) by (destruct s; exact Ea || exact Eg).
      exists (np_zeros lh lw), (np_zeros lh lw). rewrite Ea.
      repeat split; apply Hz.
    - assert (Ea0 : heatmap_accumulator s0 = Some a) by (destruct s; exact Ea).
      assert (Eg0 : aggregate_heatmap_accumulator s0 = Some g) by (destruct s; exact Eg).
      rewrite (reallocate_same s0 a g lh lw Ea0 Eg0) by apply Ha.
      exists a, g. rewrite Ea. simpl.
      split; [exact Ea0|]. split; [exact Eg0|]. split; [exact Ha|].
      split; [exact Hg|]. destruct s; reflexivity. }
  destruct Hre as (a & g & Ea & Eg & Ha & Hg & Hn).
  destruct (HeatmapFacts.accumulate_spec np_sqrt GaussianBlur resize blur_keeps_shape
              (reallocate lh lw s0) lh lw h w (boxes c) a g Lh Lw Ea Eg Ha Hg)
    as (out & s2 & a' & g' & Er & Ea' & Eg' & Ha' & Hg' & _ & Hc).
  rewrite Er. simpl. split; [exists a', g'; auto|].
  rewrite Hc, Hn. reflexivity.
Qed.

Lemma frames_with_detections_cons (c : call) (cs : list call) :
  frames_with_detections (c :: cs)
  = (if len (boxes c) =? 0 then 0 else 1) + frames_with_detections cs.
Proof.
  unfold frames_with_detections, len. cbn [filter].
  destruct (Z.of_nat (List.length (boxes c)) =? 0); cbn [negb List.length]; lia.
Qed.

Lemma run_count (lh lw : Z) (cs : list call) (s : t) :
  0 < lh -> 0 < lw ->
  Forall (at_resolution lh lw) cs ->
  (exists a g, heatmap_accumulator s = Some a
               /\ aggregate_heatmap_accumulator s = Some g
               /\ has_shape lh lw a /\ has_shape lh lw g) ->
  let s' := fold_left (step np_sqrt GaussianBlur resize) cs s in
  (exists g, aggregate_heatmap_accumulator s' = Some g)
  /\ aggregate_frame_count s' = aggregate_frame_count s + frames_with_detections cs.
Proof.
  intros Lh Lw Hcs. revert s. induction Hcs as [|c cs Hc Hcs IH]; intros s Hs; cbv zeta.
  - simpl. destruct Hs as (a & g & _ & Eg & _). split; [eauto|].
    unfold frames_with_detections, len. simpl. lia.
  - cbn [fold_left].
    pose proof (step_count s c lh lw Lh Lw Hc (or_intror Hs)) as Hstep.
    cbv zeta in Hstep. destruct Hstep as [Hs' Hn].
    destruct (IH _ Hs') as [Hg Hcount]. split; [exact Hg|].
    rewrite Hcount, Hn, frames_with_detections_cons.
    destruct Hs as (a & g & Ea & _). rewrite Ea. simpl. lia.
Qed.

(** X19: the aggregate counter counts the frames with detections.  From
    accumulators that are not allocated (as [__init__], [stop_video],
    [restart_video] and a newly loaded video leave them), after a
    non-empty sequence of calls on frames of one low-resolution size the
    counter is the number of calls that carried at least one box; so
    [export_heatmap] goes on exactly when some call carried a box. *)
Theorem aggregate_counter_counts_detections (s : t) (lh lw : Z) (cs : list call) :
  heatmap_accumulator s = None ->
  aggregate_heatmap_accumulator s = None ->
  0 < lh -> 0 < lw ->
  Forall (at_resolution lh lw) cs ->
  cs <> [] ->
  let s' := fold_left (step np_sqrt GaussianBlur resize) cs s in
  aggregate_frame_count s' = frames_with_detections cs
  /\ (export_allowed s' = true <-> exists c, In c cs /\ boxes c <> []).
Proof.
  intros Ea Eg Lh Lw Hcs Hne. cbv zeta.
  destruct cs as [|c cs]; [congruence|]. inversion Hcs as [|c' cs' Hc Hrest]; subst.
  cbn [fold_left].
  pose proof (step_count s c lh lw Lh Lw Hc (or_introl (conj Ea Eg))) as Hstep.
  cbv zeta in Hstep. destruct Hstep as [Hs' Hn]. rewrite Ea in Hn. simpl in Hn.
  pose proof (run_count lh lw cs _ Lh Lw Hrest Hs') as Hrun.
  cbv zeta in Hrun. destruct Hrun as [[g Hg] Hcount].
  assert (Hfinal : aggregate_frame_count
                     (fold_left (step np_sqrt GaussianBlur resize) cs
                        (step np_sqrt GaussianBlur resize s c))
                   = frames_with_detections (c :: cs)).
  { rewrite Hcount, Hn, frames_with_detections_cons. reflexivity. }
  split; [exact Hfinal|].
  unfold export_allowed. rewrite Hg, Hfinal. simpl is_none. cbn [orb].
  unfold frames_with_detections, len.
  set (l := c :: cs).
  split.
  - intro H. destruct (filter (fun c0 => negb (Z.of_nat (List.length (boxes c0)) =? 0)) l)
      as [|x rest] eqn:E; [discriminate|].
    assert (Hin : In x (filter (fun c0 => negb (Z.of_nat (List.length (boxes c0)) =? 0)) l))
      by (rewrite E; left; reflexivity).
    apply filter_In in Hin. destruct Hin as [Hin Hx].
    exists x. split; [exact Hin|]. intro Hb. rewrite Hb in Hx. discriminate.
  - intros (x & Hin & Hb).
    assert (Hf : In x (filter (fun c0 => negb (Z.of_nat (List.length (boxes c0)) =? 0)) l)).
    { apply filter_In. split; [exact Hin|]. destruct (boxes x); [congruence | reflexivity]. }
    destruct (filter (fun c0 => negb (Z.of_nat (List.length (boxes c0)) =? 0)) l);
      [destruct Hf|]. reflexivity.
Qed.

End External.

(** X18 on the state after the first sample call. *)
Lemma empty_frame_only_fades_witness :
  let s := step sample_sqrt sample_blur sample_resize init sample_call_1 in
  let s' := step sample_sqrt sample_blur sample_resize s empty_call in
  aggregate_heatmap_accumulator s' = aggregate_heatmap_accumulator s
  /\ aggregate_frame_count s' = 1.
Proof.
  set (s := step sample_sqrt sample_blur sample_resize init sample_call_1).
  cbv zeta.
  assert (Hb : live_bounded s) by (vm_compute; repeat constructor; discriminate).
  destruct (heatmap_accumulator s) as [a|] eqn:Ea; [|discriminate].
  destruct (aggregate_heatmap_accumulator s) as [g|] eqn:Eg; [|discriminate].
  assert (Hd : low_dims 10 10 (heatmap_scale_factor s) = (2, 2)) by reflexivity.
  assert (Ha : has_shape 2 2 a).
  { vm_compute in Ea. injection Ea as <-. repeat split. }
  unfold live_bounded in Hb. rewrite Ea in Hb.
  destruct (empty_frame_only_fades sample_sqrt sample_blur sample_resize
              s 10 10 2 2 a g Hd eq_refl eq_refl Ea Eg Ha Hb)
    as (a' & Hrun & _); [discriminate | discriminate |].
  unfold step, empty_call. cbn [frame boxes decay intensity scale_factor radius].
  assert (Hp : set_parameters (99 # 100) 3 (2 # 10) 1 s = s) by reflexivity.
  rewrite Hp, Hrun. cbn [snd]. split; [exact Eg | reflexivity].
Defined.

(** X19 on the first sample call followed by an empty frame. *)
Lemma aggregate_counter_counts_detections_witness :
  aggregate_frame_count
    (fold_left (step sample_sqrt sample_blur sample_resize)
               [sample_call_1; empty_call] init) = 1.
Proof.
  assert (K : keeps_shape sample_blur) by (intros a k; repeat split).
  assert (H : Forall (at_resolution 2 2) [sample_call_1; empty_call]).
  { repeat constructor; exists 10, 10; split; reflexivity. }
  assert (Hne : [sample_call_1; empty_call] <> []) by discriminate.
  destruct (aggregate_counter_counts_detections sample_sqrt sample_blur sample_resize K
              init 2 2 [sample_call_1; empty_call] eq_refl eq_refl eq_refl eq_refl H Hne)
    as [Hc _].
  exact Hc.
Defined.

End AggregateFacts.

(* ===================================================================== *)
(** * Stopping the detection thread *)
(* ===================================================================== *)

Module ShutdownFacts.
Import Worker Shutdown.

Section WithFrames.

Variable Frame : Type.
Implicit Types (s : Worker.t Frame) (f : Frame).

(** ** A cooperative stop *)

Lemma store_keeps s :
  at_pc (add_frame_store s) = at_pc s
  /\ running (add_frame_store s) = running s
  /\ processed (add_frame_store s) = processed s.
Proof. unfold add_frame_store. destruct (pending s); auto. Qed.

Lemma test_keeps s (g : option Frame) :
  at_pc (add_frame_test g s) = at_pc s
  /\ running (add_frame_test g s) = running s
  /\ processed (add_frame_test g s) = processed s.
Proof.
  unfold add_frame_test. destruct g; [destruct (negb (processing s))|]; auto.
Qed.

Lemma act_after_stop s (a : action Frame) :
  at_pc s <> NotStarted -> running s = false ->
  no_start [a] = true ->
  at_pc (act s a) <> NotStarted /\ running (act s a) = false
  /\ (steps_to_exit (at_pc (act s a)) + worker_step_count [a]
      <= Nat.max (steps_to_exit (at_pc s)) (worker_step_count [a]))%nat
  /\ (List.length (processed (act s a)) + in_flight (at_pc (act s a))
      <= List.length (processed s) + in_flight (at_pc s))%nat.
Proof.
  intros Hc Hr Hn.
  destruct (store_keeps s) as (S1 & S2 & S3).
  destruct a as [loaded|g| | | |]; simpl in Hn; try discriminate; simpl.
  - destruct (test_keeps (add_frame_store s) g) as (T1 & T2 & T3).
    rewrite T1, T2, T3, S1, S2, S3. repeat split; (assumption || lia).
  - rewrite S1, S2, S3. repeat split; (assumption || lia).
  - rewrite ?S1, ?S2, ?S3. repeat split; (assumption || reflexivity || lia).
  - rewrite ?S1, ?S2, ?S3. repeat split; (assumption || reflexivity || lia).
  - destruct s as [q r m p c pr pe]. simpl in *. subst r.
    unfold worker_step. simpl.
    destruct c; simpl; try congruence;
      try (destruct ((0 <? Py.len q) && m)); try (destruct q);
      simpl; rewrite ?length_app; simpl; repeat split; (congruence || lia).
Qed.

Lemma exec_after_stop (sched : list (action Frame)) s :
  invariant s -> at_pc s <> NotStarted -> running s = false ->
  no_start sched = true ->
  invariant (exec s sched)
  /\ at_pc (exec s sched) <> NotStarted /\ running (exec s sched) = false
  /\ (steps_to_exit (at_pc (exec s sched)) + worker_step_count sched
      <= Nat.max (steps_to_exit (at_pc s)) (worker_step_count sched))%nat
  /\ (List.length (processed (exec s sched)) + in_flight (at_pc (exec s sched))
      <= List.length (processed s) + in_flight (at_pc s))%nat.
Proof.
  revert s. induction sched as [|a sched IH]; intros s Hi Hc Hr Hn.
  - simpl. split; [exact Hi|]. split; [exact Hc|]. split; [exact Hr|]. split; lia.
  - unfold exec. cbn [fold_left]. fold (exec (act s a) sched).
    assert (Hn1 : no_start [a] = true) by (destruct a; (discriminate || reflexivity)).
    assert (Hn2 : no_start sched = true) by (destruct a; (discriminate || exact Hn)).
    destruct (act_after_stop s a Hc Hr Hn1) as (Hc' & Hr' & Hm & Hp).
    destruct (IH (act s a) (WorkerFacts.invariant_act Frame s a Hi) Hc' Hr' Hn2)
      as (I1 & I2 & I3 & I4 & I5).
    split; [exact I1|]. split; [exact I2|]. split; [exact I3|].
    split; [|lia].
    assert (Hw : worker_step_count (a :: sched)
                 = (worker_step_count [a] + worker_step_count sched)%nat)
      by (destruct a; reflexivity).
    rewrite Hw. lia.
Qed.

Lemma steps_to_exit_le (p : pc Frame) : (steps_to_exit p <= 7)%nat.
Proof. destruct p; simpl; lia. Qed.


(** ** The queue is cleared under the thread *)

Lemma occur_dead s (e : event Frame) (ps : list Frame) :
  processing s = true /\ frame_queue s = [] /\ pending s = None
  /\ processed s = ps
  /\ (at_pc s = Crashed \/ at_pc s = AtWhile \/ at_pc s = AtIf
      \/ at_pc s = AtSleep \/ at_pc s = Exited) ->
  processing (occur s e) = true /\ frame_queue (occur s e) = []
  /\ pending (occur s e) = None
  /\ processed (occur s e) = ps
  /\ (at_pc (occur s e) = Crashed \/ at_pc (occur s e) = AtWhile
      \/ at_pc (occur s e) = AtIf \/ at_pc (occur s e) = AtSleep
      \/ at_pc (occur s e) = Exited).
Proof.
  destruct s as [q r m p c pr pe]. simpl. intros (-> & -> & -> & -> & Hc).
  destruct e as [[loaded|[g|]| | | |]| |loaded];
    destruct Hc as [-> | [-> | [-> | [-> | ->]]]]; simpl; auto 10;
    unfold worker_step; simpl; destruct r; simpl; auto 10.
Qed.

Lemma play_dead (es : list (event Frame)) s (ps : list Frame) :
  processing s = true /\ frame_queue s = [] /\ pending s = None
  /\ processed s = ps
  /\ (at_pc s = Crashed \/ at_pc s = AtWhile \/ at_pc s = AtIf
      \/ at_pc s = AtSleep \/ at_pc s = Exited) ->
  processing (play s es) = true /\ frame_queue (play s es) = []
  /\ processed (play s es) = ps.
Proof.
  revert s. induction es as [|e es IH]; intros s H.
  - simpl. destruct H as (H1 & H2 & _ & H3 & _). auto.
  - unfold play. cbn [fold_left]. apply IH. apply occur_dead. exact H.
Qed.

(** X21: [stop_video] can end detection for good.  If it empties the
    queue after the detection thread has found the queue non-empty and
    before it pops, [pop(0)], which stands outside the [try] block, raises
    and ends [run] with the [processing] flag set.  From then on, whatever
    is called, also when the thread is started again, the flag stays set,
    [add_frame] drops every frame and no frame reaches the model. *)
Theorem stop_video_can_end_detection s :
  invariant s ->
  at_pc s = AtSetProcessing \/ at_pc s = AtPop ->
  let s1 := play s [StopVideo; Thread WorkerStep; Thread WorkerStep] in
  at_pc s1 = Crashed
  /\ forall es : list (event Frame),
       processing (play s1 es) = true
       /\ frame_queue (play s1 es) = []
       /\ processed (play s1 es) = processed s.
Proof.
  intros Hi Hc. cbv zeta.
  assert (H : at_pc (play s [StopVideo; Thread WorkerStep; Thread WorkerStep]) = Crashed
              /\ processing (play s [StopVideo; Thread WorkerStep; Thread WorkerStep]) = true
              /\ frame_queue (play s [StopVideo; Thread WorkerStep; Thread WorkerStep]) = []
              /\ pending (play s [StopVideo; Thread WorkerStep; Thread WorkerStep]) = None
              /\ processed (play s [StopVideo; Thread WorkerStep; Thread WorkerStep])
                 = processed s).
  { destruct s as [q r m p c pr pe]. destruct Hi as [_ Hi]. simpl in *.
    destruct Hc as [-> | ->]; destruct Hi as [-> _]; destruct pe; repeat split. }
  destruct H as (H1 & H2 & H3 & H4 & H5). split; [exact H1|].
  intro es. apply play_dead. auto 10.
Qed.

End WithFrames.


(** X21 from [__init__]: the thread starts with a model, a frame
    arrives, the thread passes its two tests, and [stop_video] runs.
    Three more frames are offered afterwards, with a restart in between;
    none is taken. *)
Lemma stop_video_can_end_detection_witness :
  let s := exec (@init nat)
             [Start true; AddFrameTest (Some 1%nat); AddFrameStore;
              WorkerStep; WorkerStep] in
  let s1 := play s [StopVideo; Thread WorkerStep; Thread WorkerStep] in
  let later := [Thread (AddFrameTest (Some 2%nat)); Thread AddFrameStore;
                Thread WorkerStep; Restart true;
                Thread (AddFrameTest (Some 3%nat)); Thread AddFrameStore;
                Thread WorkerStep; Thread WorkerStep;
                Thread (AddFrameTest (Some 4%nat)); Thread AddFrameStore;
                Thread WorkerStep] in
  at_pc s = AtSetProcessing
  /\ at_pc s1 = Crashed
  /\ processed (play s1 later) = [].
Proof.
  cbv zeta.
  assert (Hi : invariant
                 (exec (@init nat)
                    [Start true; AddFrameTest (Some 1%nat); AddFrameStore;
                     WorkerStep; WorkerStep]))
    by (split; [simpl; lia | split; reflexivity]).
  destruct (stop_video_can_end_detection nat _ Hi (or_introl eq_refl)) as [H1 H2].
  split; [reflexivity|]. split; [exact H1|].
  destruct (H2 [Thread (AddFrameTest (Some 2%nat)); Thread AddFrameStore;
                Thread WorkerStep; Restart true;
                Thread (AddFrameTest (Some 3%nat)); Thread AddFrameStore;
                Thread WorkerStep; Thread WorkerStep;
                Thread (AddFrameTest (Some 4%nat)); Thread AddFrameStore;
                Thread WorkerStep])
    as (_ & _ & H3).
  exact H3.
Defined.

End ShutdownFacts.
